(** * TradingView -> IBKR bridge: the signal processor and its trade journal

    A shallow embedding of [src/app.py]: the trade-journal helpers
    ([log_new_trade], [update_trade_on_fill], [close_trade_in_db],
    [get_active_trade], [get_last_closed_trade]), the signal processor
    ([open_position], [close_position]), the fill sentry ([onExecDetails])
    and the Flask route [webhook].

    The journal is the [trades] table, a list of rows in insertion order,
    together with the write lock of the database file: no helper closes its
    connection when a statement raises, and the connection a failed INSERT
    leaves open keeps the file locked for writing until the garbage
    collector frees it.  The broker session [ib] is an external
    collaborator: it is an abstract state with the operations the source
    calls.  Python exceptions are a result value; effects that happened
    before an exception stay. *)

From Stdlib Require Import ZArith List String Ascii Bool Lia.
From Stdlib Require Import Floats.PrimFloat.
Import ListNotations.
Local Open Scope string_scope.
Local Open Scope list_scope.
Local Open Scope Z_scope.

Set Warnings "-register-all".

(** ** Python values *)

(** What [request.get_json] can hand to the route: the JSON values as
    Python objects.  A [str] is held as its sequence of bytes (UTF-8); a
    [dict] as its items, keys unique. *)
Inductive pyval : Type :=
| PyNone
| PyBool (b : bool)
| PyInt (n : Z)
| PyFloat (x : float)
| PyStr (s : string)
| PyList (xs : list pyval)
| PyDict (kvs : list (string * pyval)).

(** The exceptions the modelled code can meet. *)
Inductive exn : Type :=
| AttributeError          (* [.get] / [.replace] on an object without it *)
| IndexError              (* list index out of range *)
| TypeError               (* [float(None)], [float([..])] *)
| ValueError              (* [float("abc")] *)
| OverflowError           (* int too large for float / for SQLite *)
| SqlBindError            (* sqlite3: parameter of an unsupported type *)
| IntegrityError          (* sqlite3: NOT NULL constraint failed *)
| OperationalError        (* sqlite3: database is locked *)
| AssertionError          (* [Forex(pair)]: the pair has not six characters *)
| BadRequest              (* Flask: the request body is not JSON *)
| GatewayError (code : Z) (* anything the broker session raises *).

Inductive result (A : Type) : Type :=
| Ok (a : A)
| Raise (e : exn).
Arguments Ok {A} a.
Arguments Raise {A} e.

(** [bool(v)]: the truth value Python's [if v:] tests. *)
Definition py_truthy (v : pyval) : bool :=
  match v with
  | PyNone => false
  | PyBool b => b
  | PyInt n => negb (n =? 0)
  | PyFloat x => negb (PrimFloat.eqb x 0%float)
  | PyStr s => negb (String.eqb s "")
  | PyList xs => match xs with [] => false | _ :: _ => true end
  | PyDict kvs => match kvs with [] => false | _ :: _ => true end
  end.

(** [v == s] for a string literal [s]: only an equal [str] compares equal. *)
Definition py_eq_str (v : pyval) (s : string) : bool :=
  match v with
  | PyStr s' => String.eqb s' s
  | _ => false
  end.

Fixpoint assoc_get (kvs : list (string * pyval)) (key : string) : pyval :=
  match kvs with
  | [] => PyNone
  | (k, v) :: kvs' => if String.eqb k key then v else assoc_get kvs' key
  end.

(** [data.get(key)]: [None] for a missing key; an object that is no dict has
    no [get]. *)
Definition py_get (data : pyval) (key : string) : result pyval :=
  match data with
  | PyDict kvs => Ok (assoc_get kvs key)
  | _ => Raise AttributeError
  end.

(** [s.replace(c, '')] for a one-character [c]. *)
Fixpoint str_remove (c : ascii) (s : string) : string :=
  match s with
  | EmptyString => EmptyString
  | String a s' => if Ascii.eqb a c then str_remove c s' else String a (str_remove c s')
  end.

(** [c in s] for a one-character [c]. *)
Fixpoint str_contains (c : ascii) (s : string) : bool :=
  match s with
  | EmptyString => false
  | String a s' => Ascii.eqb a c || str_contains c s'
  end.

(** [l[i]] on a Python list: negative indexes count from the end, an index
    out of range raises [IndexError]. *)
Definition py_list_index {A : Type} (l : list A) (i : Z) : result A :=
  let n := Z.of_nat (List.length l) in
  let j := if 0 <=? i then i else i + n in
  if (0 <=? j) && (j <? n) then
    match nth_error l (Z.to_nat j) with
    | Some a => Ok a
    | None => Raise IndexError
    end
  else Raise IndexError.

(** The conversions of the Python runtime and of SQLite that the source
    relies on and does not define. *)
Class PyRuntime : Type := {
  (** [str.upper()] *)
  str_upper : string -> string;
  (** [float(n)] for an int: [None] is OverflowError *)
  float_of_int : Z -> option float;
  (** [float(s)] for a str: [None] is ValueError *)
  float_of_str : string -> option float;
  (** SQLite's text form of an INTEGER / a REAL (TEXT column affinity) *)
  sql_text_of_int : Z -> string;
  sql_text_of_real : float -> string;
  (** SQLite's INTEGER -> REAL conversion (REAL column affinity) *)
  sql_real_of_int : Z -> float;
  (** a text that looks like a number, as that number (REAL affinity) *)
  sql_real_of_text : string -> option float
}.

(** ** SQLite values and the [trades] table *)

Inductive sqlval : Type :=
| SNull
| SInt (n : Z)
| SReal (x : float)
| SText (s : string).

(** A float bound to a [?]: SQLite stores NaN as NULL. *)
Definition sql_real (x : float) : option float :=
  if PrimFloat.is_nan x then None else Some x.

(** How the [sqlite3] module binds a Python object to a [?]. *)
Definition sql_bind (v : pyval) : result sqlval :=
  match v with
  | PyNone => Ok SNull
  | PyBool b => Ok (SInt (if b then 1 else 0))
  | PyInt n =>
      if (- 2 ^ 63 <=? n) && (n <? 2 ^ 63) then Ok (SInt n) else Raise OverflowError
  | PyFloat x =>
      Ok match sql_real x with
         | Some y => SReal y
         | None => SNull
         end
  | PyStr s => Ok (SText s)
  | PyList _ => Raise SqlBindError
  | PyDict _ => Raise SqlBindError
  end.

(** What [dict(row)] gives back for a stored value. *)
Definition py_of_sql (v : sqlval) : pyval :=
  match v with
  | SNull => PyNone
  | SInt n => PyInt n
  | SReal x => PyFloat x
  | SText s => PyStr s
  end.

(** One row of [trades]; the columns of [init_db]'s CREATE TABLE.  The
    [timestamp] column (DEFAULT CURRENT_TIMESTAMP, never read) is left out.
    [signal] is TEXT NOT NULL, so a stored signal is always a text;
    [position_size] is REAL NOT NULL. *)
Record trade_row : Type := {
  id : Z;
  symbol : string;
  signal : string;
  position_size : sqlval;
  entry_order_id : option Z;
  tp_order_id : option Z;
  entry_price : option float;
  exit_price : option float;
  tp_price : sqlval;
  tp_hit : bool;
  closed : bool;
  sl_price : sqlval;
  sl_order_id : option Z
}.

Definition set_entry_price (p : float) (r : trade_row) : trade_row :=
  {| id := id r; symbol := symbol r; signal := signal r;
     position_size := position_size r; entry_order_id := entry_order_id r;
     tp_order_id := tp_order_id r; entry_price := sql_real p;
     exit_price := exit_price r; tp_price := tp_price r; tp_hit := tp_hit r;
     closed := closed r; sl_price := sl_price r; sl_order_id := sl_order_id r |}.

Definition set_tp_filled (p : float) (r : trade_row) : trade_row :=
  {| id := id r; symbol := symbol r; signal := signal r;
     position_size := position_size r; entry_order_id := entry_order_id r;
     tp_order_id := tp_order_id r; entry_price := entry_price r;
     exit_price := sql_real p; tp_price := tp_price r; tp_hit := true;
     closed := true; sl_price := sl_price r; sl_order_id := sl_order_id r |}.

Definition set_closed (r : trade_row) : trade_row :=
  {| id := id r; symbol := symbol r; signal := signal r;
     position_size := position_size r; entry_order_id := entry_order_id r;
     tp_order_id := tp_order_id r; entry_price := entry_price r;
     exit_price := exit_price r; tp_price := tp_price r; tp_hit := tp_hit r;
     closed := true; sl_price := sl_price r; sl_order_id := sl_order_id r |}.

(** [UPDATE trades SET ... WHERE cond] *)
Definition sql_update (cond : trade_row -> bool) (set : trade_row -> trade_row)
    (t : list trade_row) : list trade_row :=
  map (fun r => if cond r then set r else r) t.

(** [ORDER BY id DESC LIMIT 1]: the row of greatest id. *)
Fixpoint order_by_id_desc_limit_1 (rows : list trade_row) : option trade_row :=
  match rows with
  | [] => None
  | r :: rows' =>
      match order_by_id_desc_limit_1 rows' with
      | Some r' => if id r <? id r' then Some r' else Some r
      | None => Some r
      end
  end.

(** The id AUTOINCREMENT gives the next row: one more than every id of the
    table (rows are never deleted). *)
Definition next_rowid (t : list trade_row) : Z :=
  1 + fold_right Z.max 0 (map id t).

Definition opt_eqb (o : option Z) (n : Z) : bool :=
  match o with
  | Some m => m =? n
  | None => false
  end.

(** ** The broker session *)

(** The contract objects [Forex(sym)] and [Stock(sym, 'SMART', 'USD')]. *)
Inductive contract : Type :=
| Forex (pair : string)
| Stock (sym exchange currency : string).

(** The call [Forex(pair)]: ib_insync's constructor splits the pair into
    its two currencies and first asserts [len(pair) == 6], unless the pair
    is empty. *)
Definition forex (pair : string) : result contract :=
  if String.eqb pair "" || Nat.eqb (String.length pair) 6
  then Ok (Forex pair)
  else Raise AssertionError.

(** [MarketOrder(action, qty)] and [LimitOrder(action, qty, price)]. *)
Inductive order : Type :=
| MarketOrder (action : string) (totalQuantity : pyval)
| LimitOrder (action : string) (totalQuantity : pyval) (lmtPrice : float).

(** The [IB] object of ib_insync, as far as the source uses it.  An [Order]
    object of the session is identified by its [orderId]; [placeOrder]
    answers with the [orderId] of the trade it returns. *)
Class Gateway (G : Type) : Type := {
  isConnected : G -> bool;
  connect : G -> result unit * G;
  placeOrder : G -> contract -> order -> result Z * G;
  orders : G -> list Z;
  cancelOrder : G -> Z -> result unit * G
}.

(** What the program asked of the session, oldest first (a record kept
    beside the state, so that theorems can speak of the calls made). *)
Inductive gw_call : Type :=
| CallConnect
| CallPlaceOrder (c : contract) (o : order) (answer : result Z)
| CallCancelOrder (oid : Z).

(** An entry of the global [trade_log_ui] list ([timestamp] and [details]
    are display text and are left out). *)
Record ui_entry : Type := {
  ui_symbol : string;
  ui_action : string
}.

(** The mutable state the functions share: the [trades] table of
    [trade_state.db], the session [ib], and [trade_log_ui].  [db_locked]
    says that a connection left open by a failed INSERT still holds the
    write lock of the database file. *)
Record world (G : Type) : Type := {
  trades : list trade_row;
  db_locked : bool;
  ib : G;
  gw_calls : list gw_call;
  trade_log_ui : list ui_entry
}.
Arguments trades {G} w.
Arguments db_locked {G} w.
Arguments ib {G} w.
Arguments gw_calls {G} w.
Arguments trade_log_ui {G} w.
Arguments Build_world {G} trades db_locked ib gw_calls trade_log_ui.

(** ** A state-and-exception monad: the state survives a raise. *)

Definition M (G A : Type) : Type := world G -> result A * world G.

Definition ret {G A : Type} (a : A) : M G A := fun w => (Ok a, w).

Definition bind {G A B : Type} (m : M G A) (f : A -> M G B) : M G B :=
  fun w =>
    match m w with
    | (Ok a, w') => f a w'
    | (Raise e, w') => (Raise e, w')
    end.

Definition raise {G A : Type} (e : exn) : M G A := fun w => (Raise e, w).

(** [try: m  except Exception: h] *)
Definition try_except {G A : Type} (m : M G A) (h : exn -> M G A) : M G A :=
  fun w =>
    match m w with
    | (Ok a, w') => (Ok a, w')
    | (Raise e, w') => h e w'
    end.

Definition lift {G A : Type} (r : result A) : M G A := fun w => (r, w).

Declare Scope py_scope.
Delimit Scope py_scope with py.
Notation "x <- m ;; k" := (bind m (fun x => k))
  (at level 61, m at next level, right associativity) : py_scope.
Notation "m ;; k" := (bind m (fun _ => k))
  (at level 61, right associativity) : py_scope.

(** ** The trade journal (database helper functions) *)

(** What the two UPDATEs of [update_trade_on_fill] make of one row. *)
Definition fill_row (order_id : Z) (fill_price : float) (r : trade_row) : trade_row :=
  let r1 :=
    if opt_eqb (entry_order_id r) order_id && negb (closed r)
    then set_entry_price fill_price r else r in
  if opt_eqb (tp_order_id r1) order_id && negb (closed r1)
  then set_tp_filled fill_price r1 else r1.

(** What the UPDATE of [close_trade_in_db] makes of one row. *)
Definition close_row (trade_id : Z) (r : trade_row) : trade_row :=
  if id r =? trade_id then set_closed r else r.

Section Journal.
Context {G : Type} {RT : PyRuntime}.
Local Open Scope py_scope.

(** [init_db] on a new [trade_state.db]: the table exists and is empty. *)
Definition init_db : list trade_row := [].

(** Every helper opens a connection of its own, executes its statements,
    commits and closes.  A SELECT is answered whatever the lock. *)
Definition db_read {A : Type} (q : list trade_row -> A) : M G A :=
  fun w => (Ok (q (trades w)), w).

(** An UPDATE needs the write lock: while a leaked connection holds it the
    statement raises "database is locked", whether or not a row matches,
    and nothing is written. *)
Definition db_write (f : list trade_row -> list trade_row) : M G unit :=
  fun w =>
    if db_locked w then (Raise OperationalError, w)
    else (Ok tt, Build_world (f (trades w)) (db_locked w) (ib w) (gw_calls w)
                   (trade_log_ui w)).

(** An INSERT needs the write lock too.  When it has the lock and a NOT
    NULL constraint fails, [conn.close()] is not reached: the connection
    stays open inside its transaction and keeps the lock. *)
Definition db_insert (row : list trade_row -> option trade_row) : M G unit :=
  fun w =>
    if db_locked w then (Raise OperationalError, w)
    else
      match row (trades w) with
      | Some r =>
          (Ok tt, Build_world (trades w ++ [r]) (db_locked w) (ib w) (gw_calls w)
                    (trade_log_ui w))
      | None =>
          (Raise IntegrityError,
           Build_world (trades w) true (ib w) (gw_calls w) (trade_log_ui w))
      end.

(** Column affinity: what SQLite makes of a bound value when it stores it
    in a TEXT column, and in a REAL column. *)
Definition text_affinity (v : sqlval) : sqlval :=
  match v with
  | SInt n => SText (sql_text_of_int n)
  | SReal x => SText (sql_text_of_real x)
  | _ => v
  end.

Definition real_affinity (v : sqlval) : sqlval :=
  match v with
  | SInt n => SReal (sql_real_of_int n)
  | SText s =>
      match sql_real_of_text s with
      | Some x => SReal x
      | None => SText s
      end
  | _ => v
  end.

(** The row the INSERT of [log_new_trade] stores for the bound values: with
    the next id, [tp_hit = 0], [closed = 0] and no prices; none if a NOT
    NULL column ([signal], [position_size]) would hold NULL. *)
Definition new_row (symbol : string) (v_signal v_size : sqlval)
    (entry_order_id : Z) (v_tp : sqlval) (tp_order_id : option Z)
    (v_sl : sqlval) (sl_order_id : option Z)
    (t : list trade_row) : option trade_row :=
  match text_affinity v_signal, real_affinity v_size with
  | SText sg, SNull => None
  | SText sg, sz =>
      Some {| id := next_rowid t; symbol := symbol; signal := sg;
              position_size := sz;
              entry_order_id := Some entry_order_id;
              tp_order_id := tp_order_id;
              entry_price := None; exit_price := None;
              tp_price := real_affinity v_tp;
              tp_hit := false; closed := false;
              sl_price := real_affinity v_sl;
              sl_order_id := sl_order_id |}
  | _, _ => None
  end.

(** [log_new_trade]: INSERT INTO trades (symbol, signal, position_size,
    entry_order_id, tp_price, tp_order_id, sl_price, sl_order_id).  The
    parameters are bound first (an unsupported Python object raises before
    the database is touched), then the statement runs. *)
Definition log_new_trade (symbol : string) (signal size : pyval)
    (entry_order_id : Z) (tp_price : pyval) (tp_order_id : option Z)
    (sl_price : pyval) (sl_order_id : option Z) : M G unit :=
  v_signal <- lift (sql_bind signal) ;;
  v_size <- lift (sql_bind size) ;;
  v_tp <- lift (sql_bind tp_price) ;;
  v_sl <- lift (sql_bind sl_price) ;;
  db_insert (new_row symbol v_signal v_size entry_order_id v_tp tp_order_id
               v_sl sl_order_id).

(** [update_trade_on_fill]: the two UPDATE statements, in order, in one
    transaction. *)
Definition update_trade_on_fill (order_id : Z) (fill_price : float) : M G unit :=
  db_write (fun t =>
    (* UPDATE trades SET entry_price = ? WHERE entry_order_id = ? AND closed = 0 *)
    let t1 :=
      sql_update (fun r => opt_eqb (entry_order_id r) order_id && negb (closed r))
                 (set_entry_price fill_price) t in
    (* UPDATE trades SET exit_price = ?, closed = 1, tp_hit = 1
       WHERE tp_order_id = ? AND closed = 0 *)
    sql_update (fun r => opt_eqb (tp_order_id r) order_id && negb (closed r))
               (set_tp_filled fill_price) t1).

(** [close_trade_in_db]: UPDATE trades SET closed = 1 WHERE id = ? *)
Definition close_trade_in_db (trade_id : Z) : M G unit :=
  db_write (sql_update (fun r => id r =? trade_id) set_closed).

(** [get_active_trade]: SELECT * FROM trades WHERE symbol = ? AND closed = 0
    ORDER BY id DESC LIMIT 1 *)
Definition get_active_trade (sym : string) (t : list trade_row) : option trade_row :=
  order_by_id_desc_limit_1
    (filter (fun r => String.eqb (symbol r) sym && negb (closed r)) t).

(** [get_last_closed_trade]: SELECT * FROM trades WHERE symbol = ? AND
    closed = 1 ORDER BY id DESC LIMIT 1 *)
Definition get_last_closed_trade (sym : string) (t : list trade_row) : option trade_row :=
  order_by_id_desc_limit_1
    (filter (fun r => String.eqb (symbol r) sym && closed r) t).

End Journal.

(** ** The signal processor *)

Section Processor.
Context {G : Type} {GW : Gateway G} {RT : PyRuntime}.
Local Open Scope py_scope.

(** [trade_log_ui.append(...)] *)
Definition ui_append (sym action : string) : M G unit :=
  fun w =>
    (Ok tt, Build_world (trades w) (db_locked w) (ib w) (gw_calls w)
              (trade_log_ui w ++ [ {| ui_symbol := sym; ui_action := action |} ])).

(** [ib.placeOrder(contract, order)], answering [trade.order.orderId]. *)
Definition ib_placeOrder (c : contract) (o : order) : M G Z :=
  fun w =>
    let (r, g) := placeOrder (ib w) c o in
    (r, Build_world (trades w) (db_locked w) g (gw_calls w ++ [CallPlaceOrder c o r])
          (trade_log_ui w)).

(** [ib.orders()] *)
Definition ib_orders : M G (list Z) := fun w => (Ok (orders (ib w)), w).

(** [ib.cancelOrder(order)] *)
Definition ib_cancelOrder (oid : Z) : M G unit :=
  fun w =>
    let (r, g) := cancelOrder (ib w) oid in
    (r, Build_world (trades w) (db_locked w) g (gw_calls w ++ [CallCancelOrder oid])
          (trade_log_ui w)).

(** [connect_ibkr]: connect unless connected. *)
Definition connect_ibkr : M G unit :=
  fun w =>
    if isConnected (ib w) then (Ok tt, w)
    else
      let (r, g) := connect (ib w) in
      (r, Build_world (trades w) (db_locked w) g (gw_calls w ++ [CallConnect])
            (trade_log_ui w)).

(** The receiver of a [str] method: any other object has no such method. *)
Definition py_as_str (v : pyval) : result string :=
  match v with
  | PyStr s => Ok s
  | _ => Raise AttributeError
  end.

(** [symbol.replace('/', '').upper()] *)
Definition normalize (s : string) : string := str_upper (str_remove "/" s).

(** [Forex(sym) if '/' in symbol else Stock(sym, 'SMART', 'USD')] *)
Definition contract_of (s sym : string) : result contract :=
  if str_contains "/" s then forex sym else Ok (Stock sym "SMART" "USD").

(** [float(v)] *)
Definition py_float (v : pyval) : result float :=
  match v with
  | PyNone => Raise TypeError
  | PyBool b => Ok (if b then 1%float else 0%float)
  | PyInt n =>
      match float_of_int n with
      | Some x => Ok x
      | None => Raise OverflowError
      end
  | PyFloat x => Ok x
  | PyStr s =>
      match float_of_str s with
      | Some x => Ok x
      | None => Raise ValueError
      end
  | PyList _ => Raise TypeError
  | PyDict _ => Raise TypeError
  end.

(** ['SELL' if side == 'buy' else 'BUY'] *)
Definition opposite_action (is_buy : bool) : string :=
  if is_buy then "SELL" else "BUY".

(** [close_position], the block "Cancel TP order if exists":
    [if tp_order_id: try: ib.cancelOrder(ib.orders()[tp_order_id])
     except Exception: (a warning)]. *)
Definition cancel_tp_order (tr : trade_row) : M G unit :=
  match tp_order_id tr with
  | Some tp_oid =>
      if negb (tp_oid =? 0) then
        try_except
          (os <- ib_orders ;;
           o <- lift (py_list_index os tp_oid) ;;
           ib_cancelOrder o)
          (fun _ => ret tt)
      else ret tt
  | None => ret tt
  end.

(** [close_position(symbol)] *)
Definition close_position (symbol : pyval) : M G unit :=
  connect_ibkr ;;
  s <- lift (py_as_str symbol) ;;
  let sym := normalize s in
  active_trade <- db_read (get_active_trade sym) ;;
  match active_trade with
  | None => ret tt
  | Some tr =>
      (* Cancel TP order if exists *)
      cancel_tp_order tr ;;
      (* Close the position with a market order *)
      let side := signal tr in
      let quantity := py_of_sql (position_size tr) in
      let action_to_close := opposite_action (String.eqb side "buy") in
      c <- lift (contract_of s sym) ;;
      _ <- ib_placeOrder c (MarketOrder action_to_close quantity) ;;
      close_trade_in_db (id tr) ;;
      ui_append sym ("Close by Signal (" ++ action_to_close ++ ")")%string
  end.

(** The closing market order of [close_position] on contract [c], as a
    recorded call. *)
Definition closing_call (c : contract) (tr : trade_row) (ans : result Z) : gw_call :=
  CallPlaceOrder c
    (MarketOrder (opposite_action (String.eqb (signal tr) "buy"))
                 (py_of_sql (position_size tr)))
    ans.

(** The calls the cancel block makes in session [g]: it asks to cancel the
    order standing at position [tp_order_id] of [ib.orders()], if there is
    one. *)
Definition cancel_tp_calls (g : G) (tr : trade_row) : list gw_call :=
  match tp_order_id tr with
  | Some tp_oid =>
      if negb (tp_oid =? 0) then
        match py_list_index (orders g) tp_oid with
        | Ok o => [CallCancelOrder o]
        | Raise _ => []
        end
      else []
  | None => []
  end.

(** An exit order of [open_position] (take profit, stop loss): placed only
    for a truthy target; answers the order id, or [None]. *)
Definition place_exit (label : string) (c : contract) (sym : string)
    (side quantity target : pyval) : M G (option Z) :=
  if py_truthy target then
    price <- lift (py_float target) ;;
    let act := opposite_action (py_eq_str side "buy") in
    oid <- ib_placeOrder c (LimitOrder act quantity price) ;;
    ui_append sym (label ++ " (" ++ act ++ ")")%string ;;
    ret (Some oid)
  else ret None.

(** [open_position], from "Place the new entry order" to its end. *)
Definition place_new_entry (s sym : string) (side quantity tp sl : pyval) : M G unit :=
  contract <- lift (contract_of s sym) ;;
  let action := if py_eq_str side "buy" then "BUY" else "SELL" in
  entry_order_id <- ib_placeOrder contract (MarketOrder action quantity) ;;
  ui_append sym ("Market Order (" ++ action ++ ")")%string ;;
  (* Place TP and get its ID *)
  tp_id <- place_exit "Take Profit" contract sym side quantity tp ;;
  (* Place SL and get its ID *)
  sl_id <- place_exit "Stop Loss" contract sym side quantity sl ;;
  (* Log the new trade with both TP and SL *)
  log_new_trade sym side quantity entry_order_id tp tp_id sl sl_id.

(** [last_closed and last_closed.get('tp_hit') and
     last_closed.get('signal') == side] *)
Definition reentry_guard (last_closed : option trade_row) (side : pyval) : bool :=
  match last_closed with
  | Some lc => tp_hit lc && py_eq_str side (signal lc)
  | None => false
  end.

(** [open_position(symbol, side, quantity, tp, sl)] *)
Definition open_position (symbol side quantity tp sl : pyval) : M G unit :=
  connect_ibkr ;;
  s <- lift (py_as_str symbol) ;;
  let sym := normalize s in
  (* LOGIC 1: Avoid re-entry after TP *)
  last_closed <- db_read (get_last_closed_trade sym) ;;
  if reentry_guard last_closed side
  then ui_append sym "RE-ENTRY BLOCKED"
  else
    (* LOGIC 2: One trade at a time & Reversals *)
    active_trade <- db_read (get_active_trade sym) ;;
    match active_trade with
    | Some tr =>
        if py_eq_str side (signal tr) then ret tt
        else
          close_position symbol ;;
          place_new_entry s sym side quantity tp sl
    | None => place_new_entry s sym side quantity tp sl
    end.

(** [onExecDetails(trade, fill)], on [fill.execution.orderId] and
    [fill.execution.price]. *)
Definition onExecDetails (order_id : Z) (fill_price : float) : M G unit :=
  update_trade_on_fill order_id fill_price.

(** The body of a POST to [/webhook]: JSON text, as the Python object it
    parses to, or anything else. *)
Inductive request : Type :=
| JsonBody (data : pyval)
| OtherBody.

(** [request.get_json(force=True)]: a body that does not parse raises
    BadRequest, which Flask answers with status 400. *)
Definition get_json (req : request) : result pyval :=
  match req with
  | JsonBody data => Ok data
  | OtherBody => Raise BadRequest
  end.

(** The route's answer: [jsonify({'status': ...}), code]. *)
Inductive response : Type :=
| RespSuccess                (* {'status': 'success'}, 200 *)
| RespError (e : exn)        (* {'status': 'error', 'msg': str(e)}, 500 *).

Definition http_status (r : response) : Z :=
  match r with
  | RespSuccess => 200
  | RespError _ => 500
  end.

(** [webhook]: the body is parsed before the [try], so that exception
    leaves the view; everything after is caught. *)
Definition webhook (req : request) : M G response :=
  data <- lift (get_json req) ;;
  try_except
    (action <- lift (py_get data "action") ;;
     (if py_eq_str action "open" then
        symbol <- lift (py_get data "symbol") ;;
        side <- lift (py_get data "side") ;;
        quantity <- lift (py_get data "quantity") ;;
        tp <- lift (py_get data "tp") ;;
        sl <- lift (py_get data "sl") ;;
        open_position symbol side quantity tp sl
      else if py_eq_str action "close" then
        symbol <- lift (py_get data "symbol") ;;
        close_position symbol
      else ret tt) ;;
     ret RespSuccess)
    (fun e => ret (RespError e)).

End Processor.

(** ** Events and runs *)

Section Runs.
Context {G : Type} {GW : Gateway G} {RT : PyRuntime}.

(** The garbage collector frees the connections left open: the write lock
    of the database file, if one of them held it, is released. *)
Definition collect (w : world G) : world G :=
  Build_world (trades w) false (ib w) (gw_calls w) (trade_log_ui w).

(** What reaches the program, one at a time: a POST to [/webhook], a direct
    Open or Close intent, a fill reported by the session; and, at a time
    the program does not choose, a garbage collection.  (A handler attempts
    at most one write while the lock is held, since that write raises and
    ends it, and reads ignore the lock: a collection during a handler is
    the same as one just before or just after it.) *)
Inductive event : Type :=
| EvWebhook (req : request)
| EvOpen (symbol side quantity tp sl : pyval)
| EvClose (symbol : pyval)
| EvFill (order_id : Z) (fill_price : float)
| EvCollect.

(** The state an event leaves behind (also when it raised). *)
Definition handle (e : event) (w : world G) : world G :=
  match e with
  | EvWebhook req => snd (webhook req w)
  | EvOpen symbol side quantity tp sl => snd (open_position symbol side quantity tp sl w)
  | EvClose symbol => snd (close_position symbol w)
  | EvFill order_id fill_price => snd (onExecDetails order_id fill_price w)
  | EvCollect => collect w
  end.

(** The states after each event of a serial run. *)
Fixpoint run (es : list event) (w : world G) : list (world G) :=
  match es with
  | [] => []
  | e :: es' => handle e w :: run es' (handle e w)
  end.

End Runs.

(** ** Predicates on the journal *)

(** The WHERE clause of [get_active_trade]. *)
Definition is_active (sym : string) (r : trade_row) : bool :=
  String.eqb (symbol r) sym && negb (closed r).

Definition active_rows (sym : string) (t : list trade_row) : list trade_row :=
  filter (is_active sym) t.

(** Invariant I1: for each symbol, at most one row has [closed = 0]. *)
Definition I1 (t : list trade_row) : Prop :=
  forall sym, (List.length (active_rows sym t) <= 1)%nat.

Definition is_placement (c : gw_call) : bool :=
  match c with
  | CallPlaceOrder _ _ _ => true
  | _ => false
  end.

(** [w'] is [w] after the calls [l], with the database untouched. *)
Definition frame {G : Type} (w w' : world G) (l : list gw_call) : Prop :=
  trades w' = trades w /\ db_locked w' = db_locked w /\
  gw_calls w' = gw_calls w ++ l.

(** Two states with the same session, the same calls made and the same
    UI log: they differ in the journal at most. *)
Definition same_session {G : Type} (w1 w2 : world G) : Prop :=
  ib w1 = ib w2 /\ gw_calls w1 = gw_calls w2 /\ trade_log_ui w1 = trade_log_ui w2.

(** A row with its [tp_price] (its [sl_price]) blanked. *)
Definition forget_tp_price (r : trade_row) : trade_row :=
  {| id := id r; symbol := symbol r; signal := signal r;
     position_size := position_size r; entry_order_id := entry_order_id r;
     tp_order_id := tp_order_id r; entry_price := entry_price r;
     exit_price := exit_price r; tp_price := SNull; tp_hit := tp_hit r;
     closed := closed r; sl_price := sl_price r; sl_order_id := sl_order_id r |}.

Definition forget_sl_price (r : trade_row) : trade_row :=
  {| id := id r; symbol := symbol r; signal := signal r;
     position_size := position_size r; entry_order_id := entry_order_id r;
     tp_order_id := tp_order_id r; entry_price := entry_price r;
     exit_price := exit_price r; tp_price := tp_price r; tp_hit := tp_hit r;
     closed := closed r; sl_price := SNull; sl_order_id := sl_order_id r |}.

(** The placements of resting (limit) orders among some calls, counted. *)
Definition is_limit_placement (c : gw_call) : bool :=
  match c with
  | CallPlaceOrder _ (LimitOrder _ _ _) _ => true
  | _ => false
  end.

Definition limit_count (l : list gw_call) : nat :=
  List.length (filter is_limit_placement l).

(** 1 for a truthy target, 0 for a falsy one. *)
Definition target_given (target : pyval) : nat :=
  if py_truthy target then 1%nat else 0%nat.

(** [m] places at most [n] limit orders, however it ends. *)
Definition places_limits {G A : Type} (m : M G A) (n : nat) : Prop :=
  forall w r w',
    m w = (r, w') ->
    exists l, gw_calls w' = gw_calls w ++ l /\ (limit_count l <= n)%nat.

(** Two outcomes that agree on the session and, when [bindable] holds, on
    the answer and on the journal up to the column [forget] blanks. *)
Definition agree_upto {G : Type} (forget : trade_row -> trade_row)
    (bindable : Prop) (o1 o2 : result unit * world G) : Prop :=
  same_session (snd o1) (snd o2) /\
  (bindable ->
   fst o1 = fst o2 /\
   db_locked (snd o1) = db_locked (snd o2) /\
   map forget (trades (snd o1)) = map forget (trades (snd o2))).

(** Only (re)connections: no order placed, none cancelled. *)
Definition only_connects (l : list gw_call) : Prop :=
  forall c, In c l -> c = CallConnect.

(** ** A session and a runtime to run examples on *)

(** A scripted session: it numbers the orders it accepts from [sim_next_id]
    on, lists them in [sim_orders] in the order placed, drops from the list
    an order it is asked to cancel, and refuses every placement once
    [sim_budget] placements were accepted. *)
Record sim_gw : Type := {
  sim_connected : bool;
  sim_next_id : Z;
  sim_orders : list Z;
  sim_budget : nat
}.

#[export] Instance sim_Gateway : Gateway sim_gw := {
  isConnected g := sim_connected g;
  connect g :=
    (Ok tt, {| sim_connected := true; sim_next_id := sim_next_id g;
               sim_orders := sim_orders g; sim_budget := sim_budget g |});
  placeOrder g c o :=
    match sim_budget g with
    | O => (Raise (GatewayError 201), g)
    | S n =>
        (Ok (sim_next_id g),
         {| sim_connected := sim_connected g; sim_next_id := sim_next_id g + 1;
            sim_orders := sim_orders g ++ [sim_next_id g]; sim_budget := n |})
    end;
  orders g := sim_orders g;
  cancelOrder g oid :=
    (Ok tt, {| sim_connected := sim_connected g; sim_next_id := sim_next_id g;
               sim_orders := filter (fun o => negb (o =? oid)) (sim_orders g);
               sim_budget := sim_budget g |})
}.

Definition ascii_upper (c : ascii) : ascii :=
  let n := nat_of_ascii c in
  if (Nat.leb 97 n && Nat.leb n 122)%bool then ascii_of_nat (n - 32) else c.

Fixpoint ascii_str_upper (s : string) : string :=
  match s with
  | EmptyString => EmptyString
  | String a s' => String (ascii_upper a) (ascii_str_upper s')
  end.

Fixpoint float_of_pos (p : positive) : float :=
  match p with
  | xH => 1%float
  | xO q => (2 * float_of_pos q)%float
  | xI q => (2 * float_of_pos q + 1)%float
  end.

Definition float_of_Z (n : Z) : float :=
  match n with
  | Z0 => 0%float
  | Zpos p => float_of_pos p
  | Zneg p => (- float_of_pos p)%float
  end.

(** The runtime of the examples: exact on ASCII symbols and on integers up
    to 2^53, which is all the examples use (a larger int is refused here;
    no text is read as a number; numbers are given a fixed text). *)
#[export] Instance example_runtime : PyRuntime := {
  str_upper := ascii_str_upper;
  float_of_int n :=
    if (Z.abs n <=? 2 ^ 53) then Some (float_of_Z n) else None;
  float_of_str _ := None;
  sql_text_of_int _ := "0";
  sql_text_of_real _ := "0.0";
  sql_real_of_int := float_of_Z;
  sql_real_of_text _ := None
}.

(** A fresh start: empty journal, session not yet connected, orders
    numbered from 1; [budget] placements will be accepted. *)
Definition fresh_world (budget : nat) : world sim_gw :=
  {| trades := init_db;
     db_locked := false;
     ib := {| sim_connected := false; sim_next_id := 1; sim_orders := [];
              sim_budget := budget |};
     gw_calls := [];
     trade_log_ui := [] |}.

(** Open("EUR/USD", buy, 1000, tp = 1.25, sl = 1.125): the scenario of the
    specification, with prices that are exact in binary. *)
Definition open_eurusd_buy : event :=
  EvOpen (PyStr "EUR/USD") (PyStr "buy") (PyInt 1000)
         (PyFloat 1.25%float) (PyFloat 1.125%float).

Definition open_eurusd_sell : event :=
  EvOpen (PyStr "EUR/USD") (PyStr "sell") (PyInt 500) PyNone PyNone.

(** The same after the fill of its take-profit order (id 2). *)
Definition world_after_take_profit : world sim_gw :=
  handle (EvFill 2 1.25%float) (handle open_eurusd_buy (fresh_world 10)).

(** The one row of the journal after the Open of [open_eurusd_buy]. *)
Definition row_after_open : trade_row :=
  {| id := 1; symbol := "EURUSD"; signal := "buy";
     position_size := SReal 1000%float; entry_order_id := Some 1;
     tp_order_id := Some 2; entry_price := None; exit_price := None;
     tp_price := SReal 1.25%float; tp_hit := false; closed := false;
     sl_price := SReal 1.125%float; sl_order_id := Some 3 |}.

(** A session that accepts four placements only: the three orders of the
    first Open and the closing order of a reversal, not the new entry. *)
Definition world_before_failed_reversal : world sim_gw :=
  handle open_eurusd_buy (fresh_world 4).

(** The state after that Open on a fresh start: one active row, entry
    order 1, take-profit order 2, stop-loss order 3. *)
Definition world_after_open : world sim_gw :=
  handle open_eurusd_buy (fresh_world 10).

(** A request to open AAPL that has no quantity. *)
Definition open_aapl_without_quantity : request :=
  JsonBody (PyDict [("action", PyStr "open"); ("symbol", PyStr "AAPL");
                    ("side", PyStr "buy")]).

(** The state after that request has followed the Open above: its entry
    order (id 4, for a quantity of None) was accepted, its INSERT failed on
    [position_size], and the connection of that INSERT holds the lock. *)
Definition world_after_failed_insert : world sim_gw :=
  handle (EvWebhook open_aapl_without_quantity) world_after_open.

(** ** The shape of a journal the program has written *)

(** [id] is the PRIMARY KEY: no two rows share it. *)
Definition ids_unique (t : list trade_row) : Prop := NoDup (map id t).

(** An active row is the newest row of its symbol. *)
Definition active_is_newest (t : list trade_row) : Prop :=
  forall r r',
    In r t -> In r' t -> closed r = false -> symbol r' = symbol r ->
    id r' <= id r.

(** [tp_hit] is only ever set together with [closed]. *)
Definition tp_hit_only_closed (t : list trade_row) : Prop :=
  forall r, In r t -> tp_hit r = true -> closed r = true.

Definition journal_wf (t : list trade_row) : Prop :=
  ids_unique t /\ active_is_newest t /\ tp_hit_only_closed t.

(** Row [r'] is the trade [r] at a later time: the columns written at the
    insert are the same. *)
Definition same_trade (r r' : trade_row) : Prop :=
  id r' = id r /\ symbol r' = symbol r /\ signal r' = signal r /\
  position_size r' = position_size r /\
  entry_order_id r' = entry_order_id r /\ tp_order_id r' = tp_order_id r /\
  sl_order_id r' = sl_order_id r /\
  tp_price r' = tp_price r /\ sl_price r' = sl_price r.

(** Journal [t'] keeps the history of [t]: every row of [t] is still at
    its place, is the same trade, and is untouched if it was closed. *)
Definition rows_kept (t t' : list trade_row) : Prop :=
  forall i r,
    nth_error t i = Some r ->
    exists r',
      nth_error t' i = Some r' /\ same_trade r r' /\
      (closed r = true -> r' = r).

(** [t'] keeps the shape of [t] and its history. *)
Definition wf_and_kept (t t' : list trade_row) : Prop :=
  (journal_wf t -> journal_wf t') /\ rows_kept t t'.

(** What one exit block of [open_position] does when it returns: for a
    truthy target one limit order opposite the side, at [float(target)],
    whose id it answers; for a falsy target nothing. *)
Definition exit_leg {RT : PyRuntime} (c : contract) (side quantity target : pyval)
    (oid : option Z) (l : list gw_call) : Prop :=
  if py_truthy target then
    exists price n,
      py_float target = Ok price /\ oid = Some n /\
      l = [CallPlaceOrder c
             (LimitOrder (opposite_action (py_eq_str side "buy")) quantity price)
             (Ok n)]
  else oid = None /\ l = [].

(** [row] is what a successful [log_new_trade] of these arguments appends
    to the table [t]. *)
Definition logged {RT : PyRuntime} (sym : string) (side size : pyval) (eid : Z)
    (tp : pyval) (tpid : option Z) (sl : pyval) (slid : option Z)
    (t : list trade_row) (row : trade_row) : Prop :=
  id row = next_rowid t /\ symbol row = sym /\
  closed row = false /\ tp_hit row = false /\
  entry_price row = None /\ exit_price row = None /\
  entry_order_id row = Some eid /\ tp_order_id row = tpid /\
  sl_order_id row = slid /\
  (exists v, sql_bind side = Ok v /\ text_affinity v = SText (signal row)) /\
  (exists v, sql_bind size = Ok v /\ real_affinity v = position_size row) /\
  (exists v, sql_bind tp = Ok v /\ real_affinity v = tp_price row) /\
  (exists v, sql_bind sl = Ok v /\ real_affinity v = sl_price row) /\
  position_size row <> SNull.

(** The route's answer to what the intent returned. *)
Definition answer_of (r : result unit) : response :=
  match r with
  | Ok _ => RespSuccess
  | Raise e => RespError e
  end.

(** A session that refuses no connection and no placement (it may well
    refuse a cancellation). *)
Definition session_accepts {G : Type} {GW : Gateway G} : Prop :=
  (forall g, fst (connect g) = Ok tt) /\
  (forall g c o, exists n, fst (placeOrder g c o) = Ok n).

(** A value [log_new_trade] can store. *)
Definition storable (v : pyval) : Prop := exists x, sql_bind v = Ok x.

(** A target [float()] accepts, if it is truthy at all. *)
Definition convertible {RT : PyRuntime} (target : pyval) : Prop :=
  py_truthy target = true -> exists x, py_float target = Ok x.

(** A session for examples that accepts every connection and placement,
    numbering orders from [eager_next_id], and raises on every
    cancellation. *)
Record eager_gw : Type := {
  eager_next_id : Z;
  eager_orders : list Z
}.

#[export] Instance eager_Gateway : Gateway eager_gw := {
  isConnected g := false;
  connect g := (Ok tt, g);
  placeOrder g c o :=
    (Ok (eager_next_id g),
     {| eager_next_id := eager_next_id g + 1;
        eager_orders := eager_orders g ++ [eager_next_id g] |});
  orders g := eager_orders g;
  cancelOrder g oid := (Raise (GatewayError 202), g)
}.

(** A state of that session with one active buy trade whose take-profit
    order id (0 + 1 = 1) is a valid position of the order list. *)
Definition eager_world_after_open : world eager_gw :=
  handle open_eurusd_buy
    {| trades := init_db; db_locked := false;
       ib := {| eager_next_id := 0; eager_orders := [] |};
       gw_calls := []; trade_log_ui := [] |}.


(** * Facts about the journal *)

Section JournalFacts.
Context {G : Type} {RT : PyRuntime}.

Lemma opt_eqb_true (o : option Z) (n : Z) : opt_eqb o n = true <-> o = Some n.
Proof.
  destruct o as [m|]; simpl.
  - rewrite Z.eqb_eq. split; [intros ->; reflexivity | intros [= ->]; reflexivity].
  - split; discriminate.
Qed.

Lemma opt_eqb_false (o : option Z) (n : Z) : opt_eqb o n = false <-> o <> Some n.
Proof.
  rewrite <- opt_eqb_true. destruct (opt_eqb o n); split; congruence.
Qed.

Lemma sql_update_nth (cond : trade_row -> bool) (set : trade_row -> trade_row)
    (t : list trade_row) (i : nat) :
  nth_error (sql_update cond set t) i =
  option_map (fun r => if cond r then set r else r) (nth_error t i).
Proof. unfold sql_update. apply nth_error_map. Qed.

Lemma sql_update_length cond set (t : list trade_row) :
  List.length (sql_update cond set t) = List.length t.
Proof. unfold sql_update. apply length_map. Qed.

(** An UPDATE whose WHERE clause holds of no row changes nothing. *)
Lemma sql_update_no_match cond set (t : list trade_row) :
  (forall r, In r t -> cond r = false) -> sql_update cond set t = t.
Proof.
  unfold sql_update. induction t as [|r t IH]; intros H; simpl.
  - reflexivity.
  - rewrite (H r (or_introl eq_refl)). f_equal. apply IH.
    intros r' Hr'. apply H. right. exact Hr'.
Qed.

(** The two UPDATEs of [update_trade_on_fill], row by row. *)
Lemma fill_updates_map (order_id : Z) (fill_price : float) (t : list trade_row) :
  sql_update (fun r => opt_eqb (tp_order_id r) order_id && negb (closed r))
    (set_tp_filled fill_price)
    (sql_update (fun r => opt_eqb (entry_order_id r) order_id && negb (closed r))
       (set_entry_price fill_price) t)
  = map (fill_row order_id fill_price) t.
Proof. unfold sql_update. rewrite map_map. reflexivity. Qed.

(** A write on a database that is not locked, and on one that is. *)
Lemma db_write_inv (f : list trade_row -> list trade_row) (w w' : world G)
    (r : result unit) :
  db_write f w = (r, w') ->
  ib w' = ib w /\ gw_calls w' = gw_calls w /\ trade_log_ui w' = trade_log_ui w /\
  db_locked w' = db_locked w /\
  ((db_locked w = true /\ r = Raise OperationalError /\ w' = w) \/
   (db_locked w = false /\ r = Ok tt /\ trades w' = f (trades w))).
Proof.
  unfold db_write. destruct (db_locked w) eqn:L; intros [= <- <-]; simpl.
  - repeat split; auto.
  - repeat split; auto.
Qed.

(** [update_trade_on_fill]: refused as a whole while the lock is held,
    and else the two UPDATEs on every row. *)
Lemma update_trade_on_fill_inv (order_id : Z) (fill_price : float)
    (w w' : world G) (r : result unit) :
  update_trade_on_fill order_id fill_price w = (r, w') ->
  ib w' = ib w /\ gw_calls w' = gw_calls w /\ trade_log_ui w' = trade_log_ui w /\
  db_locked w' = db_locked w /\
  ((db_locked w = true /\ r = Raise OperationalError /\ w' = w) \/
   (db_locked w = false /\ r = Ok tt /\
    trades w' = map (fill_row order_id fill_price) (trades w))).
Proof.
  unfold update_trade_on_fill. intros H. apply db_write_inv in H.
  cbv zeta in H. rewrite fill_updates_map in H. exact H.
Qed.

Lemma close_trade_in_db_inv (trade_id : Z) (w w' : world G) (r : result unit) :
  close_trade_in_db trade_id w = (r, w') ->
  ib w' = ib w /\ gw_calls w' = gw_calls w /\ trade_log_ui w' = trade_log_ui w /\
  db_locked w' = db_locked w /\
  ((db_locked w = true /\ r = Raise OperationalError /\ w' = w) \/
   (db_locked w = false /\ r = Ok tt /\
    trades w' = map (close_row trade_id) (trades w))).
Proof. unfold close_trade_in_db. intros H. apply db_write_inv in H. exact H. Qed.

(** The journal a fill leaves. *)
Lemma update_trade_on_fill_trades (order_id : Z) (fill_price : float) (w : world G) :
  trades (snd (update_trade_on_fill order_id fill_price w)) =
  if db_locked w then trades w else map (fill_row order_id fill_price) (trades w).
Proof.
  destruct (update_trade_on_fill order_id fill_price w) as [r w'] eqn:E.
  apply update_trade_on_fill_inv in E.
  destruct E as (_ & _ & _ & _ & [(L & _ & ->) | (L & _ & T)]); rewrite L; simpl;
    auto.
Qed.

End JournalFacts.

(** * Fill reconciliation *)

Section FillReconciliation.
Context {G : Type} {GW : Gateway G} {RT : PyRuntime}.



(** C7. A fill whose order id is neither the entry nor the take-profit
    order id of any row with [closed = 0] changes no row, whether the
    database accepts the statements or refuses them; when no leaked
    connection holds the write lock the sentry returns without raising and
    the whole state is as before.  Stop-loss order ids and the ids of
    closed rows are never looked at: the hypothesis does not mention
    them. *)
Theorem fill_unmatched_is_noop (w : world G) (order_id : Z) (fill_price : float) :
  (forall r, In r (trades w) -> closed r = false ->
             entry_order_id r <> Some order_id /\ tp_order_id r <> Some order_id) ->
  trades (snd (onExecDetails order_id fill_price w)) = trades w /\
  map (fill_row order_id fill_price) (trades w) = trades w /\
  (db_locked w = false -> onExecDetails order_id fill_price w = (Ok tt, w)).
Proof.
  intros H.
  assert (E : map (fill_row order_id fill_price) (trades w) = trades w).
  { rewrite <- fill_updates_map.
    rewrite (sql_update_no_match _ (set_entry_price fill_price) (trades w)).
    - apply sql_update_no_match. intros r Hr.
      destruct (closed r) eqn:Hc; [apply andb_false_r|].
      destruct (H r Hr Hc) as [_ Htp]. apply opt_eqb_false in Htp.
      rewrite Htp. reflexivity.
    - intros r Hr.
      destruct (closed r) eqn:Hc; [apply andb_false_r|].
      destruct (H r Hr Hc) as [He _]. apply opt_eqb_false in He.
      rewrite He. reflexivity. }
  unfold onExecDetails. split; [|split; [exact E|]].
  - rewrite update_trade_on_fill_trades, E. destruct (db_locked w); reflexivity.
  - intros Hfree. unfold update_trade_on_fill, db_write. rewrite Hfree.
    cbv zeta. rewrite fill_updates_map, E. destruct w; simpl in *.
    rewrite Hfree. reflexivity.
Qed.

End FillReconciliation.





(** The fill of the stop-loss order (id 3) of the active trade matches
    nothing. *)
Lemma fill_unmatched_is_noop_witness :
  trades (snd (onExecDetails 3 1.125%float world_after_open))
    = trades world_after_open /\
  map (fill_row 3 1.125%float) (trades world_after_open)
    = trades world_after_open /\
  (db_locked world_after_open = false ->
   onExecDetails 3 1.125%float world_after_open = (Ok tt, world_after_open)).
Proof.
  apply (fill_unmatched_is_noop world_after_open 3 1.125%float).
  change (trades world_after_open) with [row_after_open].
  intros r [<-|[]] _. split; discriminate.
Defined.

(** * The active trade and invariant I1 *)

Section ActiveTrade.

Lemma order_by_id_None (l : list trade_row) :
  order_by_id_desc_limit_1 l = None -> l = [].
Proof.
  destruct l as [|r l]; simpl; [reflexivity|].
  destruct (order_by_id_desc_limit_1 l) as [r'|]; [|discriminate].
  destruct (id r <? id r'); discriminate.
Qed.

Lemma order_by_id_In (l : list trade_row) (r : trade_row) :
  order_by_id_desc_limit_1 l = Some r -> In r l.
Proof.
  revert r. induction l as [|a l IH]; simpl; intros r H; [discriminate|].
  destruct (order_by_id_desc_limit_1 l) as [r'|].
  - destruct (id a <? id r'); injection H as <-; auto.
  - injection H as <-. auto.
Qed.

(** A row appended with an id above all others is the one selected. *)
Lemma order_by_id_last (l : list trade_row) (x : trade_row) :
  (forall r, In r l -> id r < id x) ->
  order_by_id_desc_limit_1 (l ++ [x]) = Some x.
Proof.
  induction l as [|a l IH]; simpl; intros H; [reflexivity|].
  rewrite IH by (intros r Hr; apply H; auto).
  assert (Ha : id a < id x) by (apply H; auto).
  apply Z.ltb_lt in Ha. rewrite Ha. reflexivity.
Qed.

Lemma is_active_true (sym : string) (r : trade_row) :
  is_active sym r = true <-> symbol r = sym /\ closed r = false.
Proof.
  unfold is_active. rewrite andb_true_iff, String.eqb_eq, negb_true_iff. tauto.
Qed.

Lemma active_rows_In (sym : string) (t : list trade_row) (r : trade_row) :
  In r (active_rows sym t) <-> In r t /\ symbol r = sym /\ closed r = false.
Proof. unfold active_rows. rewrite filter_In, is_active_true. tauto. Qed.

Lemma get_active_trade_None (sym : string) (t : list trade_row) :
  get_active_trade sym t = None -> active_rows sym t = [].
Proof. unfold get_active_trade. apply order_by_id_None. Qed.

Lemma get_active_trade_Some (sym : string) (t : list trade_row) (tr : trade_row) :
  get_active_trade sym t = Some tr ->
  In tr t /\ symbol tr = sym /\ closed tr = false.
Proof.
  unfold get_active_trade. intros H. apply order_by_id_In in H.
  apply (active_rows_In sym t tr). exact H.
Qed.

Lemma get_last_closed_trade_Some (sym : string) (t : list trade_row) (tr : trade_row) :
  get_last_closed_trade sym t = Some tr ->
  In tr t /\ symbol tr = sym /\ closed tr = true.
Proof.
  unfold get_last_closed_trade. intros H. apply order_by_id_In in H.
  apply filter_In in H. destruct H as [Hin H].
  apply andb_true_iff in H. rewrite String.eqb_eq in H. tauto.
Qed.

(** An UPDATE that keeps the symbol and never reopens a row cannot make
    more rows active. *)
Lemma active_rows_update_le (sym : string) cond set (t : list trade_row) :
  (forall r, symbol (set r) = symbol r) ->
  (forall r, closed r = true -> closed (set r) = true) ->
  (List.length (active_rows sym (sql_update cond set t))
     <= List.length (active_rows sym t))%nat.
Proof.
  intros Hsym Hcl. unfold active_rows, sql_update.
  induction t as [|r t IH]; simpl; [lia|].
  destruct (is_active sym r) eqn:Hr.
  - destruct (is_active sym (if cond r then set r else r)); simpl; lia.
  - assert (E : is_active sym (if cond r then set r else r) = false).
    { destruct (cond r); [|exact Hr].
      unfold is_active in *. rewrite Hsym.
      destruct (String.eqb (symbol r) sym); [|reflexivity]. simpl in *.
      apply negb_false_iff in Hr. rewrite (Hcl r Hr). reflexivity. }
    rewrite E. exact IH.
Qed.

Lemma I1_sql_update cond set (t : list trade_row) :
  (forall r, symbol (set r) = symbol r) ->
  (forall r, closed r = true -> closed (set r) = true) ->
  I1 t -> I1 (sql_update cond set t).
Proof.
  intros Hsym Hcl H sym.
  pose proof (active_rows_update_le sym cond set t Hsym Hcl).
  specialize (H sym). lia.
Qed.

Lemma I1_fill_rows (order_id : Z) (fill_price : float) (t : list trade_row) :
  I1 t -> I1 (map (fill_row order_id fill_price) t).
Proof.
  intros H. rewrite <- fill_updates_map.
  apply I1_sql_update; [reflexivity | reflexivity |].
  apply I1_sql_update; [reflexivity | intros r Hr; exact Hr | exact H].
Qed.

Lemma I1_close_rows (trade_id : Z) (t : list trade_row) :
  I1 t -> I1 (map (close_row trade_id) t).
Proof.
  intros H. change (map (close_row trade_id) t)
    with (sql_update (fun r => id r =? trade_id) set_closed t).
  apply I1_sql_update; [reflexivity | reflexivity | exact H].
Qed.

Lemma filter_nil_iff {A : Type} (p : A -> bool) (l : list A) :
  filter p l = [] <-> (forall x, In x l -> p x = false).
Proof.
  induction l as [|a l IH]; simpl.
  - split; [intros _ x [] | reflexivity].
  - destruct (p a) eqn:Ha.
    + split; [discriminate|]. intros H. specialize (H a (or_introl eq_refl)). congruence.
    + rewrite IH. split.
      * intros H x [<-|Hx]; auto.
      * intros H x Hx. apply H. auto.
Qed.

(** Under I1, the active row of a symbol is its only active row. *)
Lemma I1_active_unique (sym : string) (t : list trade_row) (tr r : trade_row) :
  I1 t -> get_active_trade sym t = Some tr ->
  In r t -> symbol r = sym -> closed r = false -> r = tr.
Proof.
  intros HI Hact Hr Hs Hc.
  assert (Htr : In tr (active_rows sym t)).
  { apply active_rows_In. apply get_active_trade_Some. exact Hact. }
  assert (Hr' : In r (active_rows sym t)) by (apply active_rows_In; auto).
  specialize (HI sym).
  destruct (active_rows sym t) as [|a [|b l]]; simpl in *.
  - contradiction.
  - destruct Htr as [<-|[]]. destruct Hr' as [<-|[]]. reflexivity.
  - lia.
Qed.

(** Under I1, closing the active row of a symbol leaves it no active row. *)
Lemma close_active_clears (sym : string) (t : list trade_row) (tr : trade_row) :
  I1 t -> get_active_trade sym t = Some tr ->
  active_rows sym (map (close_row (id tr)) t) = [].
Proof.
  intros HI Hact. unfold active_rows.
  apply filter_nil_iff. intros x Hx. apply in_map_iff in Hx.
  destruct Hx as (r & <- & Hr). unfold close_row.
  destruct (id r =? id tr) eqn:E.
  - unfold is_active. simpl. apply andb_false_r.
  - destruct (is_active sym r) eqn:Ha; [|reflexivity].
    apply is_active_true in Ha. destruct Ha as [Hs Hc].
    rewrite (I1_active_unique sym t tr r HI Hact Hr Hs Hc) in E.
    rewrite Z.eqb_refl in E. discriminate.
Qed.

Lemma active_rows_app (sym : string) (t1 t2 : list trade_row) :
  active_rows sym (t1 ++ t2) = active_rows sym t1 ++ active_rows sym t2.
Proof. unfold active_rows. apply filter_app. Qed.

(** A new row for a symbol that has no active row keeps I1. *)
Lemma I1_insert (t : list trade_row) (row : trade_row) :
  I1 t -> active_rows (symbol row) t = [] -> I1 (t ++ [row]).
Proof.
  intros HI Hnone sym. rewrite active_rows_app, length_app. simpl.
  destruct (is_active sym row) eqn:Ha; simpl.
  - apply is_active_true in Ha. destruct Ha as [<- _]. rewrite Hnone. simpl. lia.
  - specialize (HI sym). lia.
Qed.

Lemma next_rowid_above (t : list trade_row) (r : trade_row) :
  In r t -> id r < next_rowid t.
Proof.
  unfold next_rowid. induction t as [|a t IH]; cbn [map fold_right In]; [intros []|].
  intros [<-|Hr]; [lia|]. specialize (IH Hr). lia.
Qed.

End ActiveTrade.

Section Insert.
Context {G : Type} {RT : PyRuntime}.

(** [log_new_trade], outcome by outcome: it never touches the session or
    the UI log; when it returns, the database was not locked and one row
    was appended; when it raises, the table is as it was. *)
Lemma log_new_trade_inv (sym : string) (side size : pyval) (eid : Z)
    (tp : pyval) (tpid : option Z) (sl : pyval) (slid : option Z)
    (w w' : world G) (r : result unit) :
  log_new_trade sym side size eid tp tpid sl slid w = (r, w') ->
  ib w' = ib w /\ gw_calls w' = gw_calls w /\ trade_log_ui w' = trade_log_ui w /\
  match r with
  | Ok _ =>
      db_locked w = false /\ db_locked w' = false /\
      exists row,
        trades w' = trades w ++ [row] /\
        logged sym side size eid tp tpid sl slid (trades w) row
  | Raise _ => trades w' = trades w
  end.
Proof.
  unfold log_new_trade, bind, lift.
  destruct (sql_bind side) as [vs|] eqn:Es; [|intros [= <- <-]; auto].
  destruct (sql_bind size) as [vz|] eqn:Ez; [|intros [= <- <-]; auto].
  destruct (sql_bind tp) as [vt|] eqn:Et; [|intros [= <- <-]; auto].
  destruct (sql_bind sl) as [vl|] eqn:El; [|intros [= <- <-]; auto].
  unfold db_insert. destruct (db_locked w) eqn:L; [intros [= <- <-]; auto|].
  unfold new_row.
  destruct (text_affinity vs) as [| | |sg] eqn:Ea;
    try (intros [= <- <-]; simpl; auto; fail).
  destruct (real_affinity vz) eqn:Er; intros [= <- <-]; simpl;
    repeat (split; [reflexivity|]); auto;
    eexists; (split; [reflexivity|]); unfold logged; simpl;
    repeat split; eauto; discriminate.
Qed.

Lemma sql_bind_str_signal (s sg : string) (v : sqlval) :
  sql_bind (PyStr s) = Ok v -> text_affinity v = SText sg -> sg = s.
Proof. simpl. intros [= <-]. simpl. intros [= <-]. reflexivity. Qed.

(** The side a logged row records for a string side. *)
Lemma logged_signal (sym sd : string) (size : pyval) (eid : Z)
    (tp : pyval) (tpid : option Z) (sl : pyval) (slid : option Z)
    (t : list trade_row) (row : trade_row) :
  logged sym (PyStr sd) size eid tp tpid sl slid t row -> signal row = sd.
Proof.
  intros (_ & _ & _ & _ & _ & _ & _ & _ & _ & (v & Hb & Ha) & _).
  exact (sql_bind_str_signal _ _ _ Hb Ha).
Qed.

End Insert.

(** * Effects of the processor's steps *)

Section Steps.
Context {G : Type} {GW : Gateway G} {RT : PyRuntime}.

Lemma bind_inv {A B : Type} (m : M G A) (f : A -> M G B) (w w' : world G)
    (r : result B) :
  bind m f w = (r, w') ->
  (exists a w1, m w = (Ok a, w1) /\ f a w1 = (r, w')) \/
  (exists e, m w = (Raise e, w') /\ r = Raise e).
Proof.
  unfold bind. destruct (m w) as [[a|e] w1]; intros H.
  - left. exists a, w1. auto.
  - right. exists e. injection H as <- <-. auto.
Qed.

Lemma frame_refl (w : world G) : frame w w [].
Proof. repeat split. symmetry. apply app_nil_r. Qed.

Lemma frame_trans (w1 w2 w3 : world G) (l1 l2 : list gw_call) :
  frame w1 w2 l1 -> frame w2 w3 l2 -> frame w1 w3 (l1 ++ l2).
Proof.
  intros (T1 & L1 & C1) (T2 & L2 & C2). split; [congruence|]. split; [congruence|].
  rewrite C2, C1. symmetry. apply app_assoc.
Qed.

Lemma only_connects_nil : only_connects [].
Proof. intros c []. Qed.

Lemma only_connects_app (l1 l2 : list gw_call) :
  only_connects l1 -> only_connects l2 -> only_connects (l1 ++ l2).
Proof. intros H1 H2 c Hc. apply in_app_or in Hc. destruct Hc; auto. Qed.

Lemma connect_ibkr_frame (w w' : world G) (r : result unit) :
  connect_ibkr w = (r, w') ->
  trade_log_ui w' = trade_log_ui w /\
  exists l, frame w w' l /\ only_connects l.
Proof.
  unfold connect_ibkr. destruct (isConnected (ib w)).
  - intros [= <- <-]. split; [reflexivity|].
    exists []. split; [apply frame_refl | apply only_connects_nil].
  - destruct (connect (ib w)) as [r0 g]. intros [= <- <-]. split; [reflexivity|].
    exists [CallConnect]. split; [repeat split|].
    intros c [<-|[]]. reflexivity.
Qed.

Lemma ib_placeOrder_frame (c : contract) (o : order) (w w' : world G) (r : result Z) :
  ib_placeOrder c o w = (r, w') ->
  frame w w' [CallPlaceOrder c o r] /\ trade_log_ui w' = trade_log_ui w.
Proof.
  unfold ib_placeOrder. destruct (placeOrder (ib w) c o) as [r0 g].
  intros [= <- <-]. repeat split.
Qed.

Lemma ui_append_frame (sym action : string) (w w' : world G) (r : result unit) :
  ui_append sym action w = (r, w') ->
  r = Ok tt /\ frame w w' [] /\
  trade_log_ui w' = trade_log_ui w ++ [ {| ui_symbol := sym; ui_action := action |} ].
Proof.
  unfold ui_append. intros [= <- <-]. repeat split. simpl. symmetry. apply app_nil_r.
Qed.

Lemma lift_inv {A : Type} (x : result A) (w w' : world G) (r : result A) :
  lift x w = (r, w') -> r = x /\ w' = w.
Proof. unfold lift. intros [= <- <-]. auto. Qed.

Lemma db_read_inv {A : Type} (q : list trade_row -> A) (w w' : world G) (r : result A) :
  db_read q w = (r, w') -> r = Ok (q (trades w)) /\ w' = w.
Proof. unfold db_read. intros [= <- <-]. auto. Qed.

(** The cancel block never raises, never touches the database, places no
    order, and does nothing for a trade without take-profit order id. *)
Lemma cancel_tp_order_frame (tr : trade_row) (w w' : world G) (r : result unit) :
  cancel_tp_order tr w = (r, w') ->
  r = Ok tt /\ trade_log_ui w' = trade_log_ui w /\
  exists l, frame w w' l /\ Forall (fun c => is_placement c = false) l /\
            (tp_order_id tr = None -> l = []).
Proof.
  unfold cancel_tp_order.
  assert (Hnil : forall w0 : world G,
            exists l, frame w0 w0 l /\ Forall (fun c => is_placement c = false) l /\
                      (tp_order_id tr = None -> l = [])).
  { intros w0. exists []. split; [apply frame_refl|]. split; [constructor | reflexivity]. }
  destruct (tp_order_id tr) as [n|].
  - destruct (negb (n =? 0)).
    + unfold try_except, bind, ib_orders, lift, ib_cancelOrder, ret.
      destruct (py_list_index (orders (ib w)) n) as [o|e].
      * destruct (cancelOrder (ib w) o) as [[[]|e] g]; intros [= <- <-];
          (split; [reflexivity|]); (split; [reflexivity|]);
          exists [CallCancelOrder o]; (split; [repeat split|]);
          (split; [repeat constructor | discriminate]).
      * intros [= <- <-]. split; [reflexivity|]. split; [reflexivity|].
        exists []. split; [apply frame_refl|]. split; [constructor | reflexivity].
    + intros [= <- <-]. split; [reflexivity|]. split; [reflexivity|]. apply Hnil.
  - intros [= <- <-]. split; [reflexivity|]. split; [reflexivity|]. apply Hnil.
Qed.

(** An exit order: only placements, none at all for a falsy target. *)
Lemma place_exit_frame (label : string) (c : contract) (sym : string)
    (side quantity target : pyval) (w w' : world G) (r : result (option Z)) :
  place_exit label c sym side quantity target w = (r, w') ->
  exists l, frame w w' l /\ Forall (fun c => is_placement c = true) l /\
            (py_truthy target = false -> r = Ok None /\ l = [] /\ w' = w).
Proof.
  unfold place_exit. destruct (py_truthy target).
  - intros H. apply bind_inv in H.
    destruct H as [(price & w1 & H1 & H) | (e & H1 & ->)].
    + apply lift_inv in H1. destruct H1 as [_ ->].
      apply bind_inv in H.
      destruct H as [(oid & w2 & H2 & H) | (e & H2 & ->)].
      * apply ib_placeOrder_frame in H2. destruct H2 as [F2 _].
        apply bind_inv in H.
        destruct H as [(u & w3 & H3 & H) | (e & H3 & ->)].
        -- apply ui_append_frame in H3. destruct H3 as (_ & F3 & _).
           injection H as <- <-.
           eexists. split; [exact (frame_trans _ _ _ _ _ F2 F3)|].
           split; [repeat constructor | discriminate].
        -- apply ui_append_frame in H3. destruct H3 as (H3 & _). discriminate.
      * apply ib_placeOrder_frame in H2. destruct H2 as [F2 _].
        eexists. split; [exact F2|]. split; [repeat constructor | discriminate].
    + apply lift_inv in H1. destruct H1 as [_ ->].
      exists []. split; [apply frame_refl|]. split; [constructor | discriminate].
  - intros [= <- <-]. exists []. split; [apply frame_refl|].
    split; [constructor | auto].
Qed.

(** An exit block that returns: its one limit order, or nothing. *)
Lemma place_exit_Ok (label : string) (c : contract) (sym : string)
    (side quantity target : pyval) (w w' : world G) (oid : option Z) :
  place_exit label c sym side quantity target w = (Ok oid, w') ->
  trades w' = trades w /\ db_locked w' = db_locked w /\
  exists l, gw_calls w' = gw_calls w ++ l /\ exit_leg c side quantity target oid l.
Proof.
  unfold place_exit, exit_leg. destruct (py_truthy target).
  - intros H. apply bind_inv in H.
    destruct H as [(price & w1 & H1 & H) | (e & _ & [=])].
    apply lift_inv in H1. destruct H1 as [Hp ->].
    apply bind_inv in H. destruct H as [(n & w2 & H2 & H) | (e & _ & [=])].
    apply ib_placeOrder_frame in H2. destruct H2 as [(T2 & L2 & C2) _].
    apply bind_inv in H. destruct H as [(u & w3 & H3 & H) | (e & _ & [=])].
    apply ui_append_frame in H3. destruct H3 as (_ & (T3 & L3 & C3) & _).
    injection H as <- <-. rewrite app_nil_r in C3.
    split; [congruence|]. split; [congruence|].
    eexists. split; [rewrite C3; exact C2|].
    exists price, n. auto.
  - intros [= <- <-]. split; [reflexivity|]. split; [reflexivity|]. exists [].
    rewrite app_nil_r. auto.
Qed.

End Steps.

(** * The two intents, case by case *)

Section Intents.
Context {G : Type} {GW : Gateway G} {RT : PyRuntime}.

(** [open_position]'s placement phase when it returns: the contract was
    built, the entry market order and the exit legs were accepted, the
    database was not locked and one row was appended. *)
Lemma place_new_entry_Ok (s sym : string) (side quantity tp sl : pyval)
    (w w' : world G) :
  place_new_entry s sym side quantity tp sl w = (Ok tt, w') ->
  db_locked w = false /\ db_locked w' = false /\
  exists c eid tpid slid ltp lsl row,
    contract_of s sym = Ok c /\
    gw_calls w' =
      gw_calls w ++
      CallPlaceOrder c
        (MarketOrder (if py_eq_str side "buy" then "BUY" else "SELL")%string quantity)
        (Ok eid) :: ltp ++ lsl /\
    exit_leg c side quantity tp tpid ltp /\
    exit_leg c side quantity sl slid lsl /\
    trades w' = trades w ++ [row] /\
    logged sym side quantity eid tp tpid sl slid (trades w) row.
Proof.
  unfold place_new_entry. intros H.
  apply bind_inv in H. destruct H as [(c & w0 & H0 & H) | (e & _ & [=])].
  apply lift_inv in H0. destruct H0 as [Hc ->].
  apply bind_inv in H. destruct H as [(eid & w1 & H1 & H) | (e & _ & [=])].
  apply ib_placeOrder_frame in H1. destruct H1 as [(T1 & L1 & C1) _].
  apply bind_inv in H. destruct H as [(u & w2 & H2 & H) | (e & _ & [=])].
  apply ui_append_frame in H2. destruct H2 as (_ & (T2 & L2 & C2) & _).
  rewrite app_nil_r in C2.
  apply bind_inv in H. destruct H as [(tpid & w3 & H3 & H) | (e & _ & [=])].
  apply place_exit_Ok in H3. destruct H3 as (T3 & L3 & ltp & C3 & E3).
  apply bind_inv in H. destruct H as [(slid & w4 & H4 & H) | (e & _ & [=])].
  apply place_exit_Ok in H4. destruct H4 as (T4 & L4 & lsl & C4 & E4).
  apply log_new_trade_inv in H.
  destruct H as (_ & C5 & _ & Lw & Lw' & row & T5 & Hlog).
  assert (T : trades w4 = trades w) by congruence. rewrite T in T5, Hlog.
  split; [congruence|]. split; [exact Lw'|].
  exists c, eid, tpid, slid, ltp, lsl, row.
  split; [symmetry; exact Hc|]. split; [|auto].
  rewrite C5, C4, C3, C2, C1, <- !app_assoc. reflexivity.
Qed.

(** [open_position]'s placement phase, however it ends: it only places
    orders, the entry market order first if the contract can be built; it
    writes the journal exactly when it returns, and then by one
    [log_new_trade]. *)
Lemma place_new_entry_spec (s sym : string) (side quantity tp sl : pyval)
    (w w' : world G) (r : result unit) :
  place_new_entry s sym side quantity tp sl w = (r, w') ->
  exists l,
    gw_calls w' = gw_calls w ++ l /\
    Forall (fun c => is_placement c = true) l /\
    (forall c, contract_of s sym = Ok c ->
       exists ans l',
         l = CallPlaceOrder c
               (MarketOrder (if py_eq_str side "buy" then "BUY" else "SELL")%string
                  quantity) ans :: l') /\
    match r with
    | Raise _ => trades w' = trades w
    | Ok _ =>
        exists eid tpid slid row,
          trades w' = trades w ++ [row] /\
          logged sym side quantity eid tp tpid sl slid (trades w) row /\
          (py_truthy tp = false -> tpid = None) /\
          (py_truthy sl = false -> slid = None)
    end.
Proof.
  unfold place_new_entry. intros H.
  apply bind_inv in H. destruct H as [(c & w0 & H0 & H) | (e & H0 & ->)].
  2:{ apply lift_inv in H0. destruct H0 as [Hc ->]. exists [].
      rewrite app_nil_r. split; [reflexivity|]. split; [constructor|].
      split; [intros c Hc'; congruence | reflexivity]. }
  apply lift_inv in H0. destruct H0 as [Hc ->]. symmetry in Hc.
  assert (K : forall ans l',
            exists ans0 l0,
              CallPlaceOrder c
                (MarketOrder (if py_eq_str side "buy" then "BUY" else "SELL")%string
                   quantity) ans :: l'
              = CallPlaceOrder c
                  (MarketOrder (if py_eq_str side "buy" then "BUY" else "SELL")%string
                     quantity) ans0 :: l0) by eauto.
  assert (First : forall ans l' c',
            contract_of s sym = Ok c' ->
            exists ans0 l0,
              CallPlaceOrder c
                (MarketOrder (if py_eq_str side "buy" then "BUY" else "SELL")%string
                   quantity) ans :: l'
              = CallPlaceOrder c'
                  (MarketOrder (if py_eq_str side "buy" then "BUY" else "SELL")%string
                     quantity) ans0 :: l0).
  { intros ans l' c' Hc'. rewrite Hc in Hc'. injection Hc' as <-. apply K. }
  clear K.
  apply bind_inv in H. destruct H as [(eid & w1 & H1 & H) | (e & H1 & ->)].
  2:{ apply ib_placeOrder_frame in H1. destruct H1 as [(T1 & L1 & C1) _].
      eexists. split; [exact C1|]. split; [repeat constructor|].
      split; [apply First | exact T1]. }
  apply ib_placeOrder_frame in H1. destruct H1 as [(T1 & L1 & C1) _].
  apply bind_inv in H. destruct H as [(u & w2 & H2 & H) | (e & H2 & ->)].
  2:{ apply ui_append_frame in H2. destruct H2 as [H2 _]. discriminate. }
  apply ui_append_frame in H2. destruct H2 as (_ & (T2 & L2 & C2) & _).
  rewrite app_nil_r in C2.
  apply bind_inv in H. destruct H as [(tpid & w3 & H3 & H) | (e & H3 & ->)].
  2:{ apply place_exit_frame in H3. destruct H3 as (l3 & (T3 & L3 & C3) & P3 & _).
      eexists. split; [rewrite C3, C2, C1, <- app_assoc; reflexivity|].
      split; [constructor; [reflexivity | exact P3]|].
      split; [apply First | congruence]. }
  apply place_exit_frame in H3. destruct H3 as (l3 & (T3 & L3 & C3) & P3 & N3).
  apply bind_inv in H. destruct H as [(slid & w4 & H4 & H) | (e & H4 & ->)].
  2:{ apply place_exit_frame in H4. destruct H4 as (l4 & (T4 & L4 & C4) & P4 & _).
      exists (CallPlaceOrder c
                (MarketOrder (if py_eq_str side "buy" then "BUY" else "SELL")%string
                   quantity) (Ok eid) :: l3 ++ l4).
      split; [rewrite C4, C3, C2, C1, <- !app_assoc; reflexivity|].
      split; [constructor; [reflexivity | apply Forall_app; auto]|].
      split; [apply First | congruence]. }
  apply place_exit_frame in H4. destruct H4 as (l4 & (T4 & L4 & C4) & P4 & N4).
  apply log_new_trade_inv in H. destruct H as (_ & C5 & _ & H).
  assert (T : trades w4 = trades w) by congruence.
  exists (CallPlaceOrder c
            (MarketOrder (if py_eq_str side "buy" then "BUY" else "SELL")%string
               quantity) (Ok eid) :: l3 ++ l4).
  split; [rewrite C5, C4, C3, C2, C1, <- !app_assoc; reflexivity|].
  split; [constructor; [reflexivity | apply Forall_app; auto]|].
  split; [apply First|].
  destruct r as [[]|e].
  - destruct H as (_ & _ & row & T5 & Hlog). rewrite T in T5, Hlog.
    exists eid, tpid, slid, row. split; [exact T5|]. split; [exact Hlog|]. split.
    + intros F. destruct (N3 F) as [[= <-] _]. reflexivity.
    + intros F. destruct (N4 F) as [[= <-] _]. reflexivity.
  - congruence.
Qed.

(** [close_position]: it never changes the lock; it raises without
    touching the journal, or it returns; it returns with the journal
    untouched when the symbol has no active row, and else with that row
    marked closed, after an optional cancel attempt and the closing market
    order. *)
Lemma close_position_spec (symbol : pyval) (w w' : world G) (r : result unit) :
  close_position symbol w = (r, w') ->
  db_locked w' = db_locked w /\
  exists l, gw_calls w' = gw_calls w ++ l /\
    ((exists e, r = Raise e /\ trades w' = trades w) \/
     (r = Ok tt /\ exists s, symbol = PyStr s /\
        match get_active_trade (normalize s) (trades w) with
        | None => trades w' = trades w /\ only_connects l
        | Some tr =>
            db_locked w = false /\
            trades w' = map (close_row (id tr)) (trades w) /\
            exists c lc lx oid,
              contract_of s (normalize s) = Ok c /\
              l = lc ++ lx ++ [closing_call c tr (Ok oid)] /\
              only_connects lc /\
              Forall (fun c => is_placement c = false) lx /\
              (tp_order_id tr = None -> lx = [])
        end)).
Proof.
  unfold close_position. intros H.
  apply bind_inv in H. destruct H as [(u & w1 & H1 & H) | (e & H1 & ->)].
  2:{ apply connect_ibkr_frame in H1. destruct H1 as (_ & l & (T & L & C) & _).
      split; [exact L|]. exists l. split; [exact C|]. left. eauto. }
  apply connect_ibkr_frame in H1. destruct H1 as (_ & l1 & (T1 & L1 & C1) & O1).
  apply bind_inv in H. destruct H as [(s & w2 & H2 & H) | (e & H2 & ->)].
  2:{ apply lift_inv in H2. destruct H2 as [_ ->].
      split; [exact L1|]. exists l1. split; [exact C1|]. left. eauto. }
  apply lift_inv in H2. destruct H2 as [Hs ->].
  assert (Hsym : symbol = PyStr s).
  { destruct symbol; simpl in Hs; try discriminate. congruence. }
  apply bind_inv in H. destruct H as [(act & w3 & H3 & H) | (e & H3 & ->)].
  2:{ apply db_read_inv in H3. destruct H3 as [H3 _]. discriminate. }
  apply db_read_inv in H3. destruct H3 as [[= ->] ->]. rewrite T1 in *.
  destruct (get_active_trade (normalize s) (trades w)) as [tr|] eqn:Hact.
  2:{ injection H as <- <-. split; [exact L1|]. exists l1. split; [exact C1|].
      right. split; [reflexivity|]. exists s. rewrite Hact. auto. }
  apply bind_inv in H. destruct H as [(u2 & w4 & H4 & H) | (e & H4 & ->)].
  2:{ apply cancel_tp_order_frame in H4. destruct H4 as [H4 _]. discriminate. }
  apply cancel_tp_order_frame in H4.
  destruct H4 as (_ & _ & lx & (T4 & L4 & C4) & P4 & N4).
  apply bind_inv in H. destruct H as [(c & w4' & Hc & H) | (e & Hc & ->)].
  2:{ apply lift_inv in Hc. destruct Hc as [_ ->].
      split; [congruence|].
      eexists. split; [rewrite C4, C1, <- app_assoc; reflexivity|].
      left. exists e. split; [reflexivity | congruence]. }
  apply lift_inv in Hc. destruct Hc as [Hc ->]. symmetry in Hc.
  apply bind_inv in H. destruct H as [(oid & w5 & H5 & H) | (e & H5 & ->)].
  2:{ apply ib_placeOrder_frame in H5. destruct H5 as [(T5 & L5 & C5) _].
      split; [congruence|].
      eexists. split; [rewrite C5, C4, C1, <- !app_assoc; reflexivity|].
      left. exists e. split; [reflexivity | congruence]. }
  apply ib_placeOrder_frame in H5. destruct H5 as [(T5 & L5 & C5) _].
  apply bind_inv in H. destruct H as [(u3 & w6 & H6 & H) | (e & H6 & ->)].
  2:{ apply close_trade_in_db_inv in H6.
      destruct H6 as (_ & C6 & _ & L6 & [(_ & _ & ->) | (_ & [=] & _)]).
      split; [congruence|].
      eexists. split; [rewrite C5, C4, C1, <- !app_assoc; reflexivity|].
      left. exists e. split; [reflexivity | congruence]. }
  apply close_trade_in_db_inv in H6.
  destruct H6 as (_ & C6 & _ & L6 & [(_ & [=] & _) | (Lf & _ & T6)]).
  apply ui_append_frame in H. destruct H as (-> & (T7 & L7 & C7) & _).
  rewrite app_nil_r in C7.
  split; [congruence|].
  exists (l1 ++ lx ++ [closing_call c tr (Ok oid)]).
  split; [rewrite C7, C6, C5, C4, C1, <- !app_assoc; reflexivity|].
  right. split; [reflexivity|]. exists s. split; [exact Hsym|]. rewrite Hact.
  split; [congruence|]. split; [congruence|]. exists c, l1, lx, oid. auto.
Qed.

(** [open_position], path by path: what is left in the journal. *)
Lemma open_position_spec (symbol side quantity tp sl : pyval)
    (w w' : world G) (r : result unit) :
  open_position symbol side quantity tp sl w = (r, w') ->
  exists l, gw_calls w' = gw_calls w ++ l /\
    ((exists e, r = Raise e /\ trades w' = trades w /\ only_connects l) \/
     exists s, symbol = PyStr s /\
       if reentry_guard (get_last_closed_trade (normalize s) (trades w)) side then
         r = Ok tt /\ trades w' = trades w /\ only_connects l /\
         trade_log_ui w' = trade_log_ui w ++
           [ {| ui_symbol := normalize s; ui_action := "RE-ENTRY BLOCKED" |} ]
       else
         match get_active_trade (normalize s) (trades w) with
         | Some tr =>
             if py_eq_str side (signal tr) then
               r = Ok tt /\ trades w' = trades w /\ only_connects l
             else
               (exists e, r = Raise e /\
                  (trades w' = trades w \/
                   trades w' = map (close_row (id tr)) (trades w))) \/
               (r = Ok tt /\ exists eid tpid slid row,
                  trades w' = map (close_row (id tr)) (trades w) ++ [row] /\
                  logged (normalize s) side quantity eid tp tpid sl slid
                    (map (close_row (id tr)) (trades w)) row /\
                  (py_truthy tp = false -> tpid = None) /\
                  (py_truthy sl = false -> slid = None))
         | None =>
             (exists e, r = Raise e /\ trades w' = trades w) \/
             (r = Ok tt /\ exists eid tpid slid row,
                trades w' = trades w ++ [row] /\
                logged (normalize s) side quantity eid tp tpid sl slid
                  (trades w) row /\
                (py_truthy tp = false -> tpid = None) /\
                (py_truthy sl = false -> slid = None))
         end).
Proof.
  unfold open_position. intros H.
  apply bind_inv in H. destruct H as [(u & w1 & H1 & H) | (e & H1 & ->)].
  2:{ apply connect_ibkr_frame in H1. destruct H1 as (_ & l & (T & L & C) & O).
      exists l. split; [exact C|]. left. eauto. }
  apply connect_ibkr_frame in H1. destruct H1 as (U1 & l1 & (T1 & L1 & C1) & O1).
  apply bind_inv in H. destruct H as [(s & w2 & H2 & H) | (e & H2 & ->)].
  2:{ apply lift_inv in H2. destruct H2 as [_ ->].
      exists l1. split; [exact C1|]. left. eauto. }
  apply lift_inv in H2. destruct H2 as [Hs ->].
  assert (Hsym : symbol = PyStr s).
  { destruct symbol; simpl in Hs; try discriminate. congruence. }
  apply bind_inv in H. destruct H as [(lc & w3 & H3 & H) | (e & H3 & ->)].
  2:{ apply db_read_inv in H3. destruct H3 as [H3 _]. discriminate. }
  apply db_read_inv in H3. destruct H3 as [[= ->] ->]. rewrite T1 in *.
  destruct (reentry_guard (get_last_closed_trade (normalize s) (trades w)) side)
    eqn:Hguard.
  { apply ui_append_frame in H. destruct H as (-> & (T & L & C) & U).
    rewrite app_nil_r in C.
    exists l1. split; [congruence|]. right. exists s. split; [exact Hsym|].
    rewrite Hguard. repeat split; try congruence. exact O1. }
  apply bind_inv in H. destruct H as [(act & w4 & H4 & H) | (e & H4 & ->)].
  2:{ apply db_read_inv in H4. destruct H4 as [H4 _]. discriminate. }
  apply db_read_inv in H4. destruct H4 as [[= ->] ->]. rewrite T1 in *.
  destruct (get_active_trade (normalize s) (trades w)) as [tr|] eqn:Hact.
  - destruct (py_eq_str side (signal tr)) eqn:Hside.
    + injection H as <- <-. exists l1. split; [exact C1|]. right.
      exists s. split; [exact Hsym|]. rewrite Hguard, Hact, Hside. auto.
    + apply bind_inv in H. destruct H as [(u5 & w5 & H5 & H) | (e & H5 & ->)].
      * apply close_position_spec in H5. destruct H5 as (_ & l5 & C5 & H5).
        destruct H5 as [(e & [=] & _) | (_ & s' & Hs' & H5)].
        rewrite Hsym in Hs'. injection Hs' as <-.
        rewrite T1, Hact in H5. destruct H5 as (_ & T5 & _).
        apply place_new_entry_spec in H. destruct H as (l6 & C6 & _ & _ & H).
        eexists. split; [rewrite C6, C5, C1, <- !app_assoc; reflexivity|].
        right. exists s. split; [exact Hsym|]. rewrite Hguard, Hact, Hside.
        destruct r as [[]|e].
        -- right. split; [reflexivity|]. rewrite T5 in H. exact H.
        -- left. exists e. split; [reflexivity|]. right. congruence.
      * apply close_position_spec in H5. destruct H5 as (_ & l5 & C5 & H5).
        destruct H5 as [(e' & _ & T5) | ([=] & _)].
        eexists. split; [rewrite C5, C1, <- !app_assoc; reflexivity|].
        right. exists s. split; [exact Hsym|]. rewrite Hguard, Hact, Hside.
        left. exists e. split; [reflexivity|]. left. congruence.
  - apply place_new_entry_spec in H. destruct H as (l6 & C6 & _ & _ & H).
    eexists. split; [rewrite C6, C1, <- !app_assoc; reflexivity|].
    right. exists s. split; [exact Hsym|]. rewrite Hguard, Hact.
    destruct r as [[]|e].
    + right. split; [reflexivity|]. rewrite T1 in H. exact H.
    + left. exists e. split; [reflexivity|]. congruence.
Qed.

End Intents.

(** * Invariant I1 along every run *)

Section Invariant.
Context {G : Type} {GW : Gateway G} {RT : PyRuntime}.

(** A successful insert for a symbol without active row keeps I1. *)
Lemma I1_logged (sym : string) (side size : pyval) (eid : Z)
    (tp : pyval) (tpid : option Z) (sl : pyval) (slid : option Z)
    (t : list trade_row) (row : trade_row) :
  I1 t -> active_rows sym t = [] ->
  logged sym side size eid tp tpid sl slid t row -> I1 (t ++ [row]).
Proof.
  intros HI Hnone (_ & Hsym & _).
  apply I1_insert; [exact HI | rewrite Hsym; exact Hnone].
Qed.

Lemma close_position_I1 (symbol : pyval) (w : world G) :
  I1 (trades w) -> I1 (trades (snd (close_position symbol w))).
Proof.
  intros HI. destruct (close_position symbol w) as [r w'] eqn:E. simpl.
  apply close_position_spec in E. destruct E as (_ & l & _ & E).
  destruct E as [(e & _ & ->) | (_ & s & _ & E)]; [exact HI|].
  destruct (get_active_trade (normalize s) (trades w)) as [tr|].
  - destruct E as (_ & -> & _). apply I1_close_rows. exact HI.
  - destruct E as [-> _]. exact HI.
Qed.

Lemma open_position_I1 (symbol side quantity tp sl : pyval) (w : world G) :
  I1 (trades w) -> I1 (trades (snd (open_position symbol side quantity tp sl w))).
Proof.
  intros HI. destruct (open_position symbol side quantity tp sl w) as [r w'] eqn:E.
  simpl. apply open_position_spec in E. destruct E as (l & _ & E).
  destruct E as [(e & _ & -> & _) | (s & _ & E)]; [exact HI|].
  destruct (reentry_guard _ side).
  { destruct E as (_ & -> & _). exact HI. }
  destruct (get_active_trade (normalize s) (trades w)) as [tr|] eqn:Hact.
  - destruct (py_eq_str side (signal tr)).
    { destruct E as (_ & -> & _). exact HI. }
    destruct E as [(e & _ & [-> | ->]) | (_ & eid & tpid & slid & row & -> & E & _)].
    + exact HI.
    + apply I1_close_rows. exact HI.
    + eapply I1_logged; [| |exact E].
      * apply I1_close_rows. exact HI.
      * apply close_active_clears; assumption.
  - destruct E as [(e & _ & ->) | (_ & eid & tpid & slid & row & -> & E & _)];
      [exact HI|].
    eapply I1_logged; [exact HI | |exact E].
    apply get_active_trade_None. exact Hact.
Qed.

(** The route changes the journal only through the two intents. *)
Lemma webhook_journal (req : request) (w : world G) :
  trades (snd (webhook req w)) = trades w \/
  (exists symbol side quantity tp sl,
     trades (snd (webhook req w))
       = trades (snd (open_position symbol side quantity tp sl w))) \/
  (exists symbol,
     trades (snd (webhook req w)) = trades (snd (close_position symbol w))).
Proof.
  destruct req as [data|]; [|left; reflexivity].
  unfold webhook, try_except, bind, lift, ret. simpl get_json. cbv iota beta.
  destruct (py_get data "action") as [action|e]; simpl; [|auto].
  destruct (py_eq_str action "open").
  - destruct data; simpl; auto.
    right. left.
    exists (assoc_get kvs "symbol"), (assoc_get kvs "side"),
           (assoc_get kvs "quantity"), (assoc_get kvs "tp"), (assoc_get kvs "sl").
    destruct (open_position _ _ _ _ _ w) as [[u|e] w1]; reflexivity.
  - destruct (py_eq_str action "close"); [|simpl; auto].
    destruct data; simpl; auto.
    right. right. exists (assoc_get kvs "symbol").
    destruct (close_position _ w) as [[u|e] w1]; reflexivity.
Qed.

Lemma handle_I1 (e : event) (w : world G) :
  I1 (trades w) -> I1 (trades (handle e w)).
Proof.
  intros HI. destruct e as [req | symbol side quantity tp sl | symbol | oid p | ];
    simpl.
  - destruct (webhook_journal req w) as [-> | [(sy & si & q & tp & sl & ->) | (sy & ->)]].
    + exact HI.
    + apply open_position_I1. exact HI.
    + apply close_position_I1. exact HI.
  - apply open_position_I1. exact HI.
  - apply close_position_I1. exact HI.
  - unfold onExecDetails. rewrite update_trade_on_fill_trades.
    destruct (db_locked w); [exact HI | apply I1_fill_rows; exact HI].
  - exact HI.
Qed.

(** C1. Invariant I1: along every serial run of webhook requests, Open and
    Close intents and fills (and garbage collections), started from a
    journal where each symbol has at most one row with [closed = 0] (the
    empty journal of a new database is one), every state reached has at
    most one such row per symbol. *)
Theorem I1_holds_along_every_run (es : list event) (w : world G) :
  I1 (trades w) -> Forall (fun w' => I1 (trades w')) (run es w).
Proof.
  revert w. induction es as [|e es IH]; intros w HI; simpl.
  - constructor.
  - constructor.
    + apply handle_I1. exact HI.
    + apply IH. apply handle_I1. exact HI.
Qed.

End Invariant.

Lemma I1_init_db : I1 init_db.
Proof. intros sym. simpl. lia. Qed.

(** From a fresh start: an Open, two reversals, a take-profit fill, a
    blocked re-entry, a request whose INSERT fails, a Close that is refused
    by the locked database, a collection, and a Close that comes in through
    the route. *)
Lemma I1_holds_along_every_run_witness :
  Forall (fun w' => I1 (trades w'))
    (run [ open_eurusd_buy; open_eurusd_sell;
           EvOpen (PyStr "eur/usd") (PyStr "buy") (PyInt 700) (PyFloat 1.25%float) PyNone;
           EvFill 8 1.25%float; open_eurusd_buy;
           EvWebhook open_aapl_without_quantity;
           EvClose (PyStr "EUR/USD"); EvCollect;
           EvWebhook (JsonBody (PyDict [("action", PyStr "close");
                                        ("symbol", PyStr "EUR/USD")])) ]
         (fresh_world 20)).
Proof.
  apply (I1_holds_along_every_run _ (fresh_world 20)). exact I1_init_db.
Defined.

(** * Open: the re-entry guard and the duplicate signal *)

Section OpenNoOps.
Context {G : Type} {GW : Gateway G} {RT : PyRuntime}.

Lemma py_eq_str_refl (s : string) : py_eq_str (PyStr s) s = true.
Proof. simpl. apply String.eqb_refl. Qed.

(** In the guard branch and before it, only [connect_ibkr] speaks to the
    session, and its answer is the call's answer. *)
Lemma open_position_blocked_result (s : string) (side quantity tp sl : pyval)
    (w : world G) :
  reentry_guard (get_last_closed_trade (normalize s) (trades w)) side = true ->
  fst (open_position (PyStr s) side quantity tp sl w) = fst (connect_ibkr w).
Proof.
  intros Hg. unfold open_position, bind.
  destruct (connect_ibkr w) as [[[]|e] w1] eqn:E; [|reflexivity].
  apply connect_ibkr_frame in E. destruct E as (_ & l & (T & _) & _).
  simpl. unfold db_read. simpl. rewrite T, Hg. reflexivity.
Qed.

(** C4. When the most recently created closed row of the normalized symbol
    has [tp_hit] set and its side is the requested side, Open is rejected:
    the journal is left as it was (no row created, none modified), nothing
    is asked of the session but, at most, the connection (no order placed,
    none cancelled); the call returns normally unless the connection
    itself raises, and then notes "RE-ENTRY BLOCKED" in the UI log. *)
Theorem reentry_after_take_profit_is_rejected (w : world G) (s : string)
    (side quantity tp sl : pyval) (lc : trade_row) :
  get_last_closed_trade (normalize s) (trades w) = Some lc ->
  tp_hit lc = true ->
  side = PyStr (signal lc) ->
  let out := open_position (PyStr s) side quantity tp sl w in
  trades (snd out) = trades w /\
  (exists l, gw_calls (snd out) = gw_calls w ++ l /\ only_connects l) /\
  fst out = fst (connect_ibkr w) /\
  (fst out = Ok tt ->
   trade_log_ui (snd out) = trade_log_ui w ++
     [ {| ui_symbol := normalize s; ui_action := "RE-ENTRY BLOCKED" |} ]).
Proof.
  intros Hlc Hhit Hside out.
  assert (Hg : reentry_guard (get_last_closed_trade (normalize s) (trades w)) side
               = true).
  { rewrite Hlc, Hside. simpl. rewrite Hhit, String.eqb_refl. reflexivity. }
  pose proof (open_position_blocked_result s side quantity tp sl w Hg) as Hr.
  subst out. destruct (open_position (PyStr s) side quantity tp sl w) as [r w'] eqn:E.
  simpl in *. apply open_position_spec in E. destruct E as (l & C & E).
  destruct E as [(e & -> & T & O) | (s' & [= <-] & E)].
  - split; [exact T|]. split; [eauto|]. split; [exact Hr|]. discriminate.
  - rewrite Hg in E. destruct E as (-> & T & O & U).
    split; [exact T|]. split; [eauto|]. split; [exact Hr|]. intros _. exact U.
Qed.

(** What the journal answers after a successful insert: the new row is
    the active row of its symbol. *)
Lemma get_active_trade_after_insert (sym sd : string) (size : pyval) (eid : Z)
    (tp : pyval) (tpid : option Z) (sl : pyval) (slid : option Z)
    (t : list trade_row) (row : trade_row) :
  logged sym (PyStr sd) size eid tp tpid sl slid t row ->
  get_active_trade sym (t ++ [row]) = Some row /\ signal row = sd.
Proof.
  intros H. pose proof (logged_signal _ _ _ _ _ _ _ _ _ _ H) as Hsig.
  destruct H as (Hid & Hsym & Hcl & _).
  split; [|exact Hsig].
  unfold get_active_trade. rewrite filter_app. simpl.
  rewrite Hsym, String.eqb_refl, Hcl. simpl.
  apply order_by_id_last. intros r Hr. apply filter_In in Hr. destruct Hr as [Hr _].
  rewrite Hid. apply next_rowid_above. exact Hr.
Qed.

(** An Open that meets the guard or an active row of its own side. *)
Lemma open_position_noop (symbol side quantity tp sl : pyval) (w : world G)
    (s : string) :
  symbol = PyStr s ->
  (reentry_guard (get_last_closed_trade (normalize s) (trades w)) side = true \/
   exists tr, get_active_trade (normalize s) (trades w) = Some tr /\
              py_eq_str side (signal tr) = true) ->
  let out := open_position symbol side quantity tp sl w in
  trades (snd out) = trades w /\
  exists l, gw_calls (snd out) = gw_calls w ++ l /\ only_connects l.
Proof.
  intros Hsym Hcase out. subst out.
  destruct (open_position symbol side quantity tp sl w) as [r w'] eqn:E. simpl.
  apply open_position_spec in E. destruct E as (l & C & E).
  destruct E as [(e & -> & T & O) | (s' & Hs' & E)]; [eauto|].
  rewrite Hsym in Hs'. injection Hs' as <-.
  destruct (reentry_guard _ side).
  { destruct E as (_ & T & O & _). eauto. }
  destruct Hcase as [[=] | (tr & Hact & Hside)].
  rewrite Hact, Hside in E. destruct E as (_ & T & O). eauto.
Qed.

(** C8. An Open processed while the active row of the normalized symbol has
    the requested side leaves the journal as it was and asks nothing of the
    session but, at most, the connection: no row created, none modified,
    no order placed.  Hence an Open that returned normally, immediately
    repeated with the same arguments, does nothing the second time. *)
Theorem duplicate_open_is_noop (w : world G) (s : string)
    (sd : string) (quantity tp sl : pyval) :
  (forall tr,
     get_active_trade (normalize s) (trades w) = Some tr ->
     signal tr = sd ->
     let out := open_position (PyStr s) (PyStr sd) quantity tp sl w in
     trades (snd out) = trades w /\
     exists l, gw_calls (snd out) = gw_calls w ++ l /\ only_connects l) /\
  (forall w1,
     open_position (PyStr s) (PyStr sd) quantity tp sl w = (Ok tt, w1) ->
     let out := open_position (PyStr s) (PyStr sd) quantity tp sl w1 in
     trades (snd out) = trades w1 /\
     exists l, gw_calls (snd out) = gw_calls w1 ++ l /\ only_connects l).
Proof.
  split.
  - intros tr Hact Hsd. apply (open_position_noop _ _ _ _ _ w s eq_refl).
    right. exists tr. split; [exact Hact|]. rewrite Hsd. apply py_eq_str_refl.
  - intros w1 E. apply (open_position_noop _ _ _ _ _ w1 s eq_refl).
    apply open_position_spec in E. destruct E as (l & C & E).
    destruct E as [(e & [=] & _) | (s' & [= <-] & E)].
    destruct (reentry_guard (get_last_closed_trade (normalize s) (trades w))
                (PyStr sd)) eqn:Hg.
    { destruct E as (_ & T & _). rewrite T. left. exact Hg. }
    destruct (get_active_trade (normalize s) (trades w)) as [tr|] eqn:Hact.
    + destruct (py_eq_str (PyStr sd) (signal tr)) eqn:Hside.
      * destruct E as (_ & T & _). rewrite T. right. eauto.
      * destruct E as [(e & [=] & _) | (_ & eid & tpid & slid & row & T & E & _)].
        apply get_active_trade_after_insert in E.
        destruct E as (Hrow & Hsig). right. exists row. rewrite T.
        split; [exact Hrow|]. rewrite Hsig. apply py_eq_str_refl.
    + destruct E as [(e & [=] & _) | (_ & eid & tpid & slid & row & T & E & _)].
      apply get_active_trade_after_insert in E.
      destruct E as (Hrow & Hsig). right. exists row. rewrite T.
      split; [exact Hrow|]. rewrite Hsig. apply py_eq_str_refl.
Qed.

End OpenNoOps.

(** After the take-profit fill of the buy trade, a further Open buy. *)
Lemma reentry_after_take_profit_is_rejected_witness :
  let out := open_position (PyStr "EUR/USD") (PyStr "buy") (PyInt 1000)
               (PyFloat 1.25%float) (PyFloat 1.125%float)
               world_after_take_profit in
  trades (snd out) = trades world_after_take_profit /\
  (exists l, gw_calls (snd out) = gw_calls world_after_take_profit ++ l /\
             only_connects l) /\
  fst out = fst (connect_ibkr world_after_take_profit) /\
  (fst out = Ok tt ->
   trade_log_ui (snd out) = trade_log_ui world_after_take_profit ++
     [ {| ui_symbol := normalize "EUR/USD"; ui_action := "RE-ENTRY BLOCKED" |} ]).
Proof.
  exact (reentry_after_take_profit_is_rejected world_after_take_profit "EUR/USD"
           (PyStr "buy") (PyInt 1000) (PyFloat 1.25%float) (PyFloat 1.125%float)
           (set_tp_filled 1.25%float row_after_open)
           eq_refl eq_refl eq_refl).
Defined.

(** The Open of the scenario, repeated at once. *)
Lemma duplicate_open_is_noop_witness :
  (let out := open_position (PyStr "EUR/USD") (PyStr "buy") (PyInt 1000)
                (PyFloat 1.25%float) (PyFloat 1.125%float) world_after_open in
   trades (snd out) = trades world_after_open /\
   exists l, gw_calls (snd out) = gw_calls world_after_open ++ l /\
             only_connects l) /\
  (let out := open_position (PyStr "EUR/USD") (PyStr "buy") (PyInt 1000)
                (PyFloat 1.25%float) (PyFloat 1.125%float) world_after_open in
   trades (snd out) = trades world_after_open /\
   exists l, gw_calls (snd out) = gw_calls world_after_open ++ l /\
             only_connects l).
Proof.
  split.
  - exact (proj1 (duplicate_open_is_noop world_after_open "EUR/USD" "buy"
                    (PyInt 1000) (PyFloat 1.25%float) (PyFloat 1.125%float))
                 row_after_open eq_refl eq_refl).
  - exact (proj2 (duplicate_open_is_noop (fresh_world 10) "EUR/USD" "buy"
                    (PyInt 1000) (PyFloat 1.25%float) (PyFloat 1.125%float))
                 world_after_open eq_refl).
Defined.

(** * Open: failures *)

Section OpenFailures.
Context {G : Type} {GW : Gateway G} {RT : PyRuntime}.

(** C9, as amended.  [open_position] writes its row last, after all
    placements.  When the placement phase raises (at the entry, take-profit
    or stop-loss order, or at the insert itself) it leaves the journal as it
    found it and has only placed orders: none is cancelled.  When
    [open_position] raises, no row has been created: the journal is
    unchanged, except that a reversal may already have marked the row of the
    opposite-side active trade closed. *)
Theorem failed_open_creates_no_row (symbol side quantity tp sl : pyval)
    (w w' : world G) (e : exn) :
  (forall s sym,
     place_new_entry s sym side quantity tp sl w = (Raise e, w') ->
     trades w' = trades w /\
     exists l, gw_calls w' = gw_calls w ++ l /\
               Forall (fun c => is_placement c = true) l) /\
  (open_position symbol side quantity tp sl w = (Raise e, w') ->
     List.length (trades w') = List.length (trades w) /\
     (trades w' = trades w \/
      exists s tr,
        symbol = PyStr s /\
        get_active_trade (normalize s) (trades w) = Some tr /\
        py_eq_str side (signal tr) = false /\
        trades w' = map (close_row (id tr)) (trades w))).
Proof.
  split.
  - intros s sym H. apply place_new_entry_spec in H.
    destruct H as (l & C & P & _ & T). split; [exact T|].
    exists l. split; [exact C | exact P].
  - intros H. apply open_position_spec in H. destruct H as (l & _ & H).
    assert (K : trades w' = trades w \/
                exists s tr,
                  symbol = PyStr s /\
                  get_active_trade (normalize s) (trades w) = Some tr /\
                  py_eq_str side (signal tr) = false /\
                  trades w' = map (close_row (id tr)) (trades w)).
    { destruct H as [(e' & _ & T & _) | (s & Hs & H)]; [auto|].
      destruct (reentry_guard _ side); [destruct H as ([=] & _)|].
      destruct (get_active_trade (normalize s) (trades w)) as [tr|] eqn:Hact.
      - destruct (py_eq_str side (signal tr)) eqn:Hside; [destruct H as ([=] & _)|].
        destruct H as [(e' & _ & [T | T]) | ([=] & _)]; [auto|].
        right. exists s, tr. auto.
      - destruct H as [(e' & _ & T) | ([=] & _)]. auto. }
    split; [|exact K].
    destruct K as [-> | (s & tr & _ & _ & _ & ->)]; [reflexivity|].
    apply length_map.
Qed.

End OpenFailures.

(** C9 as stated fails: a reversal whose new entry order is refused has
    raised at the placement of the entry order, and the journal is not what
    it was (the old trade is now closed). *)
Lemma failed_reversal_changes_journal :
  fst (open_position (PyStr "EUR/USD") (PyStr "sell") (PyInt 500) PyNone PyNone
         world_before_failed_reversal) = Raise (GatewayError 201) /\
  last (gw_calls (snd (open_position (PyStr "EUR/USD") (PyStr "sell") (PyInt 500)
                         PyNone PyNone world_before_failed_reversal)))
       CallConnect
    = CallPlaceOrder (Forex "EURUSD") (MarketOrder "SELL" (PyInt 500))
        (Raise (GatewayError 201)) /\
  trades (snd (open_position (PyStr "EUR/USD") (PyStr "sell") (PyInt 500)
                 PyNone PyNone world_before_failed_reversal))
    <> trades world_before_failed_reversal.
Proof.
  split; [vm_compute; reflexivity|]. split; [vm_compute; reflexivity|].
  intros H. apply (f_equal (map closed)) in H. vm_compute in H. discriminate H.
Qed.

(** A first Open whose take-profit order is refused after the entry order
    was accepted; and the refused reversal above. *)
Lemma failed_open_creates_no_row_witness :
  (trades (snd (place_new_entry "EUR/USD" "EURUSD" (PyStr "buy") (PyInt 1000)
                  (PyFloat 1.25%float) (PyFloat 1.125%float) (fresh_world 1)))
     = trades (fresh_world 1) /\
   exists l,
     gw_calls (snd (place_new_entry "EUR/USD" "EURUSD" (PyStr "buy") (PyInt 1000)
                      (PyFloat 1.25%float) (PyFloat 1.125%float) (fresh_world 1)))
       = gw_calls (fresh_world 1) ++ l /\
     Forall (fun c => is_placement c = true) l) /\
  (List.length (trades (snd (open_position (PyStr "EUR/USD") (PyStr "sell")
                               (PyInt 500) PyNone PyNone
                               world_before_failed_reversal)))
     = List.length (trades world_before_failed_reversal) /\
   (trades (snd (open_position (PyStr "EUR/USD") (PyStr "sell") (PyInt 500)
                   PyNone PyNone world_before_failed_reversal))
      = trades world_before_failed_reversal \/
    exists s tr,
      PyStr "EUR/USD" = PyStr s /\
      get_active_trade (normalize s) (trades world_before_failed_reversal)
        = Some tr /\
      py_eq_str (PyStr "sell") (signal tr) = false /\
      trades (snd (open_position (PyStr "EUR/USD") (PyStr "sell") (PyInt 500)
                     PyNone PyNone world_before_failed_reversal))
        = map (close_row (id tr)) (trades world_before_failed_reversal))).
Proof.
  split.
  - exact (proj1 (failed_open_creates_no_row (PyStr "EUR/USD") (PyStr "buy")
                    (PyInt 1000) (PyFloat 1.25%float) (PyFloat 1.125%float)
                    (fresh_world 1)
                    (snd (place_new_entry "EUR/USD" "EURUSD" (PyStr "buy")
                            (PyInt 1000) (PyFloat 1.25%float)
                            (PyFloat 1.125%float) (fresh_world 1)))
                    (GatewayError 201))
                 "EUR/USD" "EURUSD" eq_refl).
  - exact (proj2 (failed_open_creates_no_row (PyStr "EUR/USD") (PyStr "sell")
                    (PyInt 500) PyNone PyNone world_before_failed_reversal
                    (snd (open_position (PyStr "EUR/USD") (PyStr "sell") (PyInt 500)
                            PyNone PyNone world_before_failed_reversal))
                    (GatewayError 201))
                 eq_refl).
Defined.

(** * The route *)

Section Route.
Context {G : Type} {GW : Gateway G} {RT : PyRuntime}.

(** C2, as amended.  A request whose body is a JSON object with an [action]
    that is missing or is neither "open" nor "close" is answered with
    success (200) and does nothing: the state is as before.  A body that is
    JSON but no JSON object is answered with the error outcome (500). *)
Theorem unknown_action_is_answered_with_success (data : pyval) (w : world G) :
  (forall kvs,
     data = PyDict kvs ->
     py_eq_str (assoc_get kvs "action") "open" = false ->
     py_eq_str (assoc_get kvs "action") "close" = false ->
     webhook (JsonBody data) w = (Ok RespSuccess, w)) /\
  ((forall kvs, data <> PyDict kvs) ->
   webhook (JsonBody data) w = (Ok (RespError AttributeError), w)).
Proof.
  split.
  - intros kvs -> Hopen Hclose.
    unfold webhook, try_except, bind, lift, ret. simpl.
    rewrite Hopen, Hclose. reflexivity.
  - intros Hnot. unfold webhook, try_except, bind, lift, ret.
    destruct data; try reflexivity. exfalso. apply (Hnot kvs). reflexivity.
Qed.

End Route.

(** C2 as stated fails: the action "hold" is answered with success, not
    with an error. *)
Lemma unknown_action_not_rejected :
  fst (webhook (JsonBody (PyDict [("action", PyStr "hold");
                                 ("symbol", PyStr "EUR/USD")]))
         (fresh_world 10)) = Ok RespSuccess /\
  http_status RespSuccess = 200 /\
  ~ (exists e,
       fst (webhook (JsonBody (PyDict [("action", PyStr "hold");
                                 ("symbol", PyStr "EUR/USD")]))
              (fresh_world 10)) = Ok (RespError e)).
Proof.
  split; [reflexivity|]. split; [reflexivity|].
  intros [e H]. vm_compute in H. discriminate H.
Qed.

Lemma unknown_action_is_answered_with_success_witness :
  webhook (JsonBody (PyDict [("action", PyStr "hold");
                                 ("symbol", PyStr "EUR/USD")]))
    (fresh_world 10) = (Ok RespSuccess, fresh_world 10) /\
  webhook (JsonBody (PyList [PyStr "open"])) (fresh_world 10)
    = (Ok (RespError AttributeError), fresh_world 10).
Proof.
  split.
  - exact (proj1 (unknown_action_is_answered_with_success
                    (PyDict [("action", PyStr "hold"); ("symbol", PyStr "EUR/USD")])
                    (fresh_world 10))
                 _ eq_refl eq_refl eq_refl).
  - apply (proj2 (unknown_action_is_answered_with_success
                    (PyList [PyStr "open"]) (fresh_world 10))).
    intros kvs H. discriminate H.
Defined.


(** * Open: a position is opened *)

Section Opening.
Context {G : Type} {GW : Gateway G} {RT : PyRuntime}.

Lemma only_connects_no_placement (l : list gw_call) :
  only_connects l -> Forall (fun c => is_placement c = false) l.
Proof.
  intros H. apply Forall_forall. intros c Hc. rewrite (H c Hc). reflexivity.
Qed.

Lemma exit_leg_placements (c : contract) (side quantity target : pyval)
    (oid : option Z) (l : list gw_call) :
  exit_leg c side quantity target oid l ->
  Forall (fun c => is_placement c = true) l.
Proof.
  unfold exit_leg. destruct (py_truthy target).
  - intros (price & n & _ & _ & ->). repeat constructor.
  - intros [_ ->]. constructor.
Qed.

Lemma exit_leg_falsy (c : contract) (side quantity target : pyval)
    (oid : option Z) (l : list gw_call) :
  exit_leg c side quantity target oid l ->
  py_truthy target = false -> oid = None /\ l = [].
Proof. unfold exit_leg. intros H F. rewrite F in H. exact H. Qed.

(** An Open that is not stopped by the guard, meets no active trade of its
    own side and returns normally: after the Close path on the active
    trade of the other side, if there is one, the entry market order and
    the exit legs were accepted on the contract of the symbol, and one row
    was appended to the journal the Close path left. *)
Lemma open_position_opens (w w' : world G) (s : string)
    (side quantity tp sl : pyval) :
  reentry_guard (get_last_closed_trade (normalize s) (trades w)) side = false ->
  (forall tr, get_active_trade (normalize s) (trades w) = Some tr ->
              py_eq_str side (signal tr) = false) ->
  open_position (PyStr s) side quantity tp sl w = (Ok tt, w') ->
  db_locked w = false /\ db_locked w' = false /\
  exists t0 lpre c eid tpid slid ltp lsl row,
    match get_active_trade (normalize s) (trades w) with
    | None => t0 = trades w /\ only_connects lpre
    | Some tr =>
        t0 = map (close_row (id tr)) (trades w) /\
        exists lc lx oid,
          lpre = lc ++ lx ++ [closing_call c tr (Ok oid)] /\
          only_connects lc /\
          Forall (fun c => is_placement c = false) lx /\
          (tp_order_id tr = None -> lx = [])
    end /\
    contract_of s (normalize s) = Ok c /\
    gw_calls w' =
      gw_calls w ++ lpre ++
      CallPlaceOrder c
        (MarketOrder (if py_eq_str side "buy" then "BUY" else "SELL")%string quantity)
        (Ok eid) :: ltp ++ lsl /\
    exit_leg c side quantity tp tpid ltp /\
    exit_leg c side quantity sl slid lsl /\
    trades w' = t0 ++ [row] /\
    logged (normalize s) side quantity eid tp tpid sl slid t0 row.
Proof.
  intros Hg Hother H. unfold open_position in H.
  apply bind_inv in H. destruct H as [(u & w1 & H1 & H) | (e & _ & [=])].
  apply connect_ibkr_frame in H1. destruct H1 as (_ & l1 & (T1 & L1 & C1) & O1).
  apply bind_inv in H. destruct H as [(s' & w2 & H2 & H) | (e & _ & [=])].
  apply lift_inv in H2. simpl in H2. destruct H2 as [[= ->] ->].
  apply bind_inv in H. destruct H as [(lcl & w3 & H3 & H) | (e & _ & [=])].
  apply db_read_inv in H3. destruct H3 as [[= ->] ->]. rewrite T1, Hg in H.
  apply bind_inv in H. destruct H as [(act & w4 & H4 & H) | (e & _ & [=])].
  apply db_read_inv in H4. destruct H4 as [[= ->] ->]. rewrite T1 in H.
  destruct (get_active_trade (normalize s) (trades w)) as [tr|] eqn:Hact.
  - rewrite (Hother tr eq_refl) in H.
    apply bind_inv in H. destruct H as [(u5 & w5 & H5 & H) | (e & _ & [=])].
    apply close_position_spec in H5. destruct H5 as (L5 & l5 & C5 & H5).
    destruct H5 as [(e & [=] & _) | (_ & s2 & [= <-] & H5)].
    rewrite T1, Hact in H5.
    destruct H5 as (Lf & T5 & c & lc & lx & oid & Hc & -> & Oc & Px & Nx).
    apply place_new_entry_Ok in H.
    destruct H as (_ & Lw' & c' & eid & tpid & slid & ltp & lsl & row & Hc' & C6 &
                   Etp & Esl & T6 & Hlog).
    rewrite Hc in Hc'. injection Hc' as <-. rewrite T5 in T6, Hlog.
    split; [congruence|]. split; [exact Lw'|].
    exists (map (close_row (id tr)) (trades w)),
           ((l1 ++ lc) ++ lx ++ [closing_call c tr (Ok oid)]),
           c, eid, tpid, slid, ltp, lsl, row.
    split.
    { split; [reflexivity|]. exists (l1 ++ lc), lx, oid.
      split; [reflexivity|]. split; [apply only_connects_app; assumption | auto]. }
    split; [exact Hc|]. split; [|auto].
    rewrite C6, C5, C1, <- !app_assoc. reflexivity.
  - apply place_new_entry_Ok in H.
    destruct H as (Lw & Lw' & c & eid & tpid & slid & ltp & lsl & row & Hc & C6 &
                   Etp & Esl & T6 & Hlog).
    rewrite T1 in T6, Hlog.
    split; [congruence|]. split; [exact Lw'|].
    exists (trades w), l1, c, eid, tpid, slid, ltp, lsl, row.
    split; [auto|]. split; [exact Hc|]. split; [|auto].
    rewrite C6, C1, <- !app_assoc. reflexivity.
Qed.

End Opening.

(** * Open: absent and falsy targets *)

Section Targets.
Context {G : Type} {GW : Gateway G} {RT : PyRuntime}.

Lemma limit_count_app (l1 l2 : list gw_call) :
  limit_count (l1 ++ l2) = (limit_count l1 + limit_count l2)%nat.
Proof. unfold limit_count. rewrite filter_app. apply length_app. Qed.

Lemma places_limits_silent {A : Type} (m : M G A) :
  (forall w, gw_calls (snd (m w)) = gw_calls w) -> places_limits m 0.
Proof.
  intros H w r w' E. exists []. rewrite app_nil_r.
  specialize (H w). rewrite E in H. split; [exact H | reflexivity].
Qed.

Lemma places_limits_weaken {A : Type} (m : M G A) (n n' : nat) :
  places_limits m n -> (n <= n')%nat -> places_limits m n'.
Proof.
  intros H Hn w r w' E. destruct (H w r w' E) as (l & C & L).
  exists l. split; [exact C | lia].
Qed.

Lemma places_limits_bind {A B : Type} (m : M G A) (f : A -> M G B) (n1 n2 : nat) :
  places_limits m n1 -> (forall a, places_limits (f a) n2) ->
  places_limits (bind m f) (n1 + n2).
Proof.
  intros Hm Hf w r w' E. apply bind_inv in E.
  destruct E as [(a & w1 & E1 & E2) | (e & E1 & _)].
  - destruct (Hm _ _ _ E1) as (l1 & C1 & L1).
    destruct (Hf a _ _ _ E2) as (l2 & C2 & L2).
    exists (l1 ++ l2). rewrite C2, C1, app_assoc, limit_count_app.
    split; [reflexivity | lia].
  - destruct (Hm _ _ _ E1) as (l1 & C1 & L1).
    exists l1. split; [exact C1 | lia].
Qed.

Lemma places_limits_try_except {A : Type} (m : M G A) (h : exn -> M G A)
    (n1 n2 : nat) :
  places_limits m n1 -> (forall e, places_limits (h e) n2) ->
  places_limits (try_except m h) (n1 + n2).
Proof.
  intros Hm Hh w r w' E. unfold try_except in E.
  destruct (m w) as [[a|e] w1] eqn:E1.
  - injection E as <- <-. destruct (Hm _ _ _ E1) as (l1 & C1 & L1).
    exists l1. split; [exact C1 | lia].
  - destruct (Hm _ _ _ E1) as (l1 & C1 & L1).
    destruct (Hh e _ _ _ E) as (l2 & C2 & L2).
    exists (l1 ++ l2). rewrite C2, C1, app_assoc, limit_count_app.
    split; [reflexivity | lia].
Qed.

Lemma places_limits_connect : places_limits connect_ibkr 0.
Proof.
  intros w r w' E. apply connect_ibkr_frame in E.
  destruct E as (_ & l & (_ & _ & C) & O). exists l. split; [exact C|].
  unfold limit_count. replace (filter is_limit_placement l) with (@nil gw_call).
  - simpl. lia.
  - symmetry. apply filter_nil_iff. intros c Hc. rewrite (O c Hc). reflexivity.
Qed.

Lemma places_limits_market (c : contract) (action : string) (qty : pyval) :
  places_limits (ib_placeOrder c (MarketOrder action qty)) 0.
Proof.
  intros w r w' E. apply ib_placeOrder_frame in E. destruct E as [(_ & _ & C) _].
  eexists. split; [exact C | unfold limit_count; simpl; lia].
Qed.

Lemma places_limits_limit (c : contract) (o : order) :
  places_limits (ib_placeOrder c o) 1.
Proof.
  intros w r w' E. apply ib_placeOrder_frame in E. destruct E as [(_ & _ & C) _].
  eexists. split; [exact C|]. unfold limit_count. simpl.
  destruct o; simpl; lia.
Qed.

Lemma places_limits_cancel (oid : Z) : places_limits (ib_cancelOrder oid) 0.
Proof.
  intros w r w' E. unfold ib_cancelOrder in E.
  destruct (cancelOrder (ib w) oid) as [r0 g]. injection E as <- <-.
  exists [CallCancelOrder oid]. split; [reflexivity | unfold limit_count; simpl; lia].
Qed.

Lemma places_limits_cancel_tp_order (tr : trade_row) :
  places_limits (cancel_tp_order tr) 0.
Proof.
  unfold cancel_tp_order.
  destruct (tp_order_id tr) as [n|]; [|apply places_limits_silent; reflexivity].
  destruct (negb (n =? 0)); [|apply places_limits_silent; reflexivity].
  apply (places_limits_try_except _ _ 0 0).
  - apply (places_limits_bind _ _ 0 0); [apply places_limits_silent; reflexivity|].
    intros os. apply (places_limits_bind _ _ 0 0);
      [apply places_limits_silent; reflexivity|].
    intros o. apply places_limits_cancel.
  - intros e. apply places_limits_silent. reflexivity.
Qed.

Lemma places_limits_close_position (symbol : pyval) :
  places_limits (close_position symbol) 0.
Proof.
  unfold close_position.
  apply (places_limits_bind _ _ 0 0); [apply places_limits_connect|]. intros _.
  apply (places_limits_bind _ _ 0 0); [apply places_limits_silent; reflexivity|].
  intros s.
  apply (places_limits_bind _ _ 0 0); [apply places_limits_silent; reflexivity|].
  intros [tr|]; [|apply places_limits_silent; reflexivity].
  apply (places_limits_bind _ _ 0 0); [apply places_limits_cancel_tp_order|]. intros _.
  apply (places_limits_bind _ _ 0 0); [apply places_limits_silent; reflexivity|].
  intros c.
  apply (places_limits_bind _ _ 0 0); [apply places_limits_market|]. intros _.
  apply (places_limits_bind _ _ 0 0).
  - apply places_limits_silent. intros w. unfold close_trade_in_db, db_write.
    destruct (db_locked w); reflexivity.
  - intros _. apply places_limits_silent. reflexivity.
Qed.

Lemma places_limits_place_exit (label : string) (c : contract) (sym : string)
    (side quantity target : pyval) :
  places_limits (place_exit label c sym side quantity target) (target_given target).
Proof.
  unfold place_exit, target_given.
  destruct (py_truthy target); [|apply places_limits_silent; reflexivity].
  apply (places_limits_bind _ _ 0 1); [apply places_limits_silent; reflexivity|].
  intros price.
  apply (places_limits_bind _ _ 1 0); [apply places_limits_limit|]. intros oid.
  apply (places_limits_bind _ _ 0 0); [apply places_limits_silent; reflexivity|].
  intros _. apply places_limits_silent. reflexivity.
Qed.

Lemma places_limits_log_new_trade (sym : string) (side size : pyval) (eid : Z)
    (tp : pyval) (tpid : option Z) (sl : pyval) (slid : option Z) :
  places_limits (log_new_trade (G := G) sym side size eid tp tpid sl slid) 0.
Proof.
  apply places_limits_silent. intros w.
  destruct (log_new_trade sym side size eid tp tpid sl slid w) as [r w'] eqn:E.
  apply log_new_trade_inv in E. simpl. tauto.
Qed.

Lemma places_limits_place_new_entry (s sym : string) (side quantity tp sl : pyval) :
  places_limits (place_new_entry s sym side quantity tp sl)
                (target_given tp + target_given sl).
Proof.
  unfold place_new_entry.
  apply (places_limits_bind _ _ 0); [apply places_limits_silent; reflexivity|].
  intros c.
  apply (places_limits_bind _ _ 0); [apply places_limits_market|]. intros eid.
  apply (places_limits_bind _ _ 0); [apply places_limits_silent; reflexivity|].
  intros _.
  apply places_limits_bind; [apply places_limits_place_exit|]. intros tpid.
  apply places_limits_weaken with (n := (target_given sl + 0)%nat); [|lia].
  apply places_limits_bind; [apply places_limits_place_exit|]. intros slid.
  apply places_limits_log_new_trade.
Qed.

(** An Open places at most one limit order per truthy target. *)
Lemma places_limits_open_position (symbol side quantity tp sl : pyval) :
  places_limits (open_position symbol side quantity tp sl)
                (target_given tp + target_given sl).
Proof.
  unfold open_position.
  apply (places_limits_bind _ _ 0); [apply places_limits_connect|]. intros _.
  apply (places_limits_bind _ _ 0); [apply places_limits_silent; reflexivity|].
  intros s.
  apply (places_limits_bind _ _ 0); [apply places_limits_silent; reflexivity|].
  intros lc.
  destruct (reentry_guard lc side).
  { apply places_limits_weaken with (n := 0%nat); [|lia].
    apply places_limits_silent. reflexivity. }
  apply (places_limits_bind _ _ 0); [apply places_limits_silent; reflexivity|].
  intros [tr|]; [|apply places_limits_place_new_entry].
  destruct (py_eq_str side (signal tr)).
  { apply places_limits_weaken with (n := 0%nat); [|lia].
    apply places_limits_silent. reflexivity. }
  apply (places_limits_bind _ _ 0); [apply places_limits_close_position|]. intros _.
  apply places_limits_place_new_entry.
Qed.

Lemma place_exit_falsy (label : string) (c : contract) (sym : string)
    (side quantity target : pyval) :
  py_truthy target = false ->
  place_exit label c sym side quantity target = ret (G := G) None.
Proof. intros H. unfold place_exit. rewrite H. reflexivity. Qed.

Lemma bind_rel {A B : Type}
    (R : result B * world G -> result B * world G -> Prop)
    (m : M G A) (f1 f2 : A -> M G B) (w : world G) :
  (forall x, R x x) ->
  (forall a w1, R (f1 a w1) (f2 a w1)) ->
  R (bind m f1 w) (bind m f2 w).
Proof.
  intros Hrefl Hf. unfold bind. destruct (m w) as [[a|e] w1]; auto.
Qed.

(** Two Opens that differ in their targets only, and whose exit blocks
    behave alike, differ at most in what the final insert makes of them. *)
Lemma place_new_entry_rel (R : result unit * world G -> result unit * world G -> Prop)
    (s sym : string) (side quantity tp tp' sl sl' : pyval) (w : world G) :
  (forall x, R x x) ->
  (forall label c, place_exit (G := G) label c sym side quantity tp
                   = place_exit label c sym side quantity tp') ->
  (forall label c, place_exit (G := G) label c sym side quantity sl
                   = place_exit label c sym side quantity sl') ->
  (forall eid tpid slid w1,
     R (log_new_trade sym side quantity eid tp tpid sl slid w1)
       (log_new_trade sym side quantity eid tp' tpid sl' slid w1)) ->
  R (place_new_entry s sym side quantity tp sl w)
    (place_new_entry s sym side quantity tp' sl' w).
Proof.
  intros Hrefl Htp Hsl Hins. unfold place_new_entry.
  apply bind_rel; [exact Hrefl|]. intros c w0. cbv zeta.
  rewrite Htp, Hsl.
  apply bind_rel; [exact Hrefl|]. intros eid w1.
  apply bind_rel; [exact Hrefl|]. intros _ w2.
  apply bind_rel; [exact Hrefl|]. intros tpid w3.
  apply bind_rel; [exact Hrefl|]. intros slid w4.
  apply Hins.
Qed.

Lemma open_position_rel (R : result unit * world G -> result unit * world G -> Prop)
    (symbol side quantity tp tp' sl sl' : pyval) (w : world G) :
  (forall x, R x x) ->
  (forall label c sym, place_exit (G := G) label c sym side quantity tp
                       = place_exit label c sym side quantity tp') ->
  (forall label c sym, place_exit (G := G) label c sym side quantity sl
                       = place_exit label c sym side quantity sl') ->
  (forall sym eid tpid slid w1,
     R (log_new_trade sym side quantity eid tp tpid sl slid w1)
       (log_new_trade sym side quantity eid tp' tpid sl' slid w1)) ->
  R (open_position symbol side quantity tp sl w)
    (open_position symbol side quantity tp' sl' w).
Proof.
  intros Hrefl Htp Hsl Hins. unfold open_position.
  apply bind_rel; [exact Hrefl|]. intros _ w1.
  apply bind_rel; [exact Hrefl|]. intros s w2.
  apply bind_rel; [exact Hrefl|]. intros lc w3.
  destruct (reentry_guard lc side); [apply Hrefl|].
  apply bind_rel; [exact Hrefl|]. intros [tr|] w4.
  - destruct (py_eq_str side (signal tr)); [apply Hrefl|].
    apply bind_rel; [exact Hrefl|]. intros _ w5.
    apply place_new_entry_rel; auto.
  - apply place_new_entry_rel; auto.
Qed.

Lemma agree_upto_refl (forget : trade_row -> trade_row) (bindable : Prop)
    (x : result unit * world G) :
  agree_upto forget bindable x x.
Proof. unfold agree_upto, same_session. auto. Qed.

(** The insert with a bindable take-profit target and the insert with
    none: same answer, same lock, and rows that differ in [tp_price]
    only. *)
Lemma log_new_trade_tp_agree (sym : string) (side quantity tp sl : pyval) (eid : Z)
    (tpid slid : option Z) (w : world G) :
  agree_upto forget_tp_price (exists v, sql_bind tp = Ok v)
    (log_new_trade sym side quantity eid tp tpid sl slid w)
    (log_new_trade sym side quantity eid PyNone tpid sl slid w).
Proof.
  unfold agree_upto, same_session, log_new_trade, bind, lift.
  change (sql_bind PyNone) with (Ok SNull).
  destruct (sql_bind side) as [vs|]; [|simpl; auto].
  destruct (sql_bind quantity) as [vz|]; [|simpl; auto].
  destruct (sql_bind tp) as [vt|] eqn:Et.
  - destruct (sql_bind sl) as [vl|]; [|simpl; auto].
    unfold db_insert. destruct (db_locked w); [simpl; auto|].
    unfold new_row.
    destruct (text_affinity vs); try (simpl; auto; fail).
    destruct (real_affinity vz); simpl; (split; [auto|]); intros _;
      (split; [reflexivity|]); (split; [reflexivity|]);
      rewrite ?map_app; reflexivity.
  - split.
    + destruct (sql_bind sl) as [vl|]; [|simpl; auto].
      unfold db_insert. destruct (db_locked w); [simpl; auto|].
      unfold new_row.
      destruct (text_affinity vs); try (simpl; auto; fail).
      destruct (real_affinity vz); simpl; auto.
    + intros [v Hv]. discriminate Hv.
Qed.

Lemma log_new_trade_sl_agree (sym : string) (side quantity tp sl : pyval) (eid : Z)
    (tpid slid : option Z) (w : world G) :
  agree_upto forget_sl_price (exists v, sql_bind sl = Ok v)
    (log_new_trade sym side quantity eid tp tpid sl slid w)
    (log_new_trade sym side quantity eid tp tpid PyNone slid w).
Proof.
  unfold agree_upto, same_session, log_new_trade, bind, lift.
  change (sql_bind PyNone) with (Ok SNull).
  destruct (sql_bind side) as [vs|]; [|simpl; auto].
  destruct (sql_bind quantity) as [vz|]; [|simpl; auto].
  destruct (sql_bind tp) as [vt|]; [|simpl; auto].
  destruct (sql_bind sl) as [vl|] eqn:El.
  - unfold db_insert. destruct (db_locked w); [simpl; auto|].
    unfold new_row.
    destruct (text_affinity vs); try (simpl; auto; fail).
    destruct (real_affinity vz); simpl; (split; [auto|]); intros _;
      (split; [reflexivity|]); (split; [reflexivity|]);
      rewrite ?map_app; reflexivity.
  - split.
    + unfold db_insert. destruct (db_locked w); [simpl; auto|].
      unfold new_row.
      destruct (text_affinity vs); try (simpl; auto; fail).
      destruct (real_affinity vz); simpl; auto.
    + intros [v Hv]. discriminate Hv.
Qed.

Lemma close_rows_ids (i : Z) (t : list trade_row) (row : trade_row) :
  In row (map (close_row i) t) -> exists r0, In r0 t /\ id r0 = id row.
Proof.
  intros H. apply in_map_iff in H.
  destruct H as (r0 & <- & Hr0). exists r0. split; [exact Hr0|].
  unfold close_row. destruct (id r0 =? i); reflexivity.
Qed.

(** The rows an Open leaves that were not there before (by id) come from
    its one insert, where a falsy target has left the order id empty. *)
Lemma open_position_new_row (symbol side quantity tp sl : pyval) (w : world G)
    (row : trade_row) :
  In row (trades (snd (open_position symbol side quantity tp sl w))) ->
  (forall r0, In r0 (trades w) -> id r0 <> id row) ->
  (py_truthy tp = false -> tp_order_id row = None) /\
  (py_truthy sl = false -> sl_order_id row = None).
Proof.
  intros Hin Hnew.
  destruct (open_position symbol side quantity tp sl w) as [r w'] eqn:E.
  simpl in Hin. apply open_position_spec in E. destruct E as (l & _ & E).
  assert (Hold : In row (trades w) -> (py_truthy tp = false -> tp_order_id row = None) /\
                 (py_truthy sl = false -> sl_order_id row = None)).
  { intros H. exfalso. exact (Hnew row H eq_refl). }
  assert (Hclosed : forall i, In row (map (close_row i) (trades w)) ->
                 (py_truthy tp = false -> tp_order_id row = None) /\
                 (py_truthy sl = false -> sl_order_id row = None)).
  { intros i H. apply close_rows_ids in H. destruct H as (r0 & H0 & Hid).
    exfalso. exact (Hnew r0 H0 Hid). }
  assert (Hins : forall sym eid tpid slid t row',
            trades w' = t ++ [row'] ->
            logged sym side quantity eid tp tpid sl slid t row' ->
            (In row t -> (py_truthy tp = false -> tp_order_id row = None) /\
                         (py_truthy sl = false -> sl_order_id row = None)) ->
            (py_truthy tp = false -> tpid = None) ->
            (py_truthy sl = false -> slid = None) ->
            (py_truthy tp = false -> tp_order_id row = None) /\
            (py_truthy sl = false -> sl_order_id row = None)).
  { intros sym eid tpid slid t row' Eq H Ht Ntp Nsl.
    destruct H as (_ & _ & _ & _ & _ & _ & _ & Htp & Hsl & _).
    rewrite Eq in Hin. apply in_app_or in Hin. destruct Hin as [H | [<- | []]].
    - exact (Ht H).
    - rewrite Htp, Hsl. auto. }
  destruct E as [(e & _ & T & _) | (s & _ & E)]; [rewrite T in Hin; auto|].
  destruct (reentry_guard _ side).
  { destruct E as (_ & T & _). rewrite T in Hin. auto. }
  destruct (get_active_trade (normalize s) (trades w)) as [tr|].
  - destruct (py_eq_str side (signal tr)).
    { destruct E as (_ & T & _). rewrite T in Hin. auto. }
    destruct E as [(e & _ & [T | T]) | (_ & eid & tpid & slid & row' & T & E & Ntp & Nsl)].
    + rewrite T in Hin. auto.
    + rewrite T in Hin. eauto.
    + eapply Hins; eauto.
  - destruct E as [(e & _ & T) | (_ & eid & tpid & slid & row' & T & E & Ntp & Nsl)].
    + rewrite T in Hin. auto.
    + eapply Hins; eauto.
Qed.

Lemma limit_count_no_placement (l : list gw_call) :
  Forall (fun c => is_placement c = false) l -> limit_count l = 0%nat.
Proof.
  intros H. unfold limit_count.
  replace (filter is_limit_placement l) with (@nil gw_call); [reflexivity|].
  symmetry. apply filter_nil_iff. intros c Hc.
  rewrite Forall_forall in H. specialize (H c Hc).
  destruct c as [| c0 o ans | oid]; try reflexivity. discriminate H.
Qed.

(** C10. An Open whose take-profit (respectively stop-loss) argument is
    falsy -- None, False, 0, 0.0, an empty string, list or dict -- talks to
    the session exactly as the Open without that argument does, places at
    most the one limit order of the other target, and any row it creates
    has no take-profit (stop-loss) order id.  When the falsy value can be
    stored (it is not a list or dict; numeric 0 can) the answer is the
    same too, and the journals agree except for the price column, which
    keeps the value passed.  And when such an Open goes through (it is not
    stopped by the guard, meets no active trade of its own side, and
    returns normally) it has recorded one new row for the symbol, open,
    with the entry order id the session answered and with no order id for
    the falsy target, and has placed no limit order for that target: the
    calls after the entry market order are the limit orders of the truthy
    targets only. *)
Theorem falsy_target_places_no_exit_order (sy side quantity tp sl : pyval)
    (w : world G) :
  (py_truthy tp = false ->
   let out := open_position sy side quantity tp sl w in
   let ref := open_position sy side quantity PyNone sl w in
   same_session (snd out) (snd ref) /\
   (exists l, gw_calls (snd out) = gw_calls w ++ l /\
              (limit_count l <= target_given sl)%nat) /\
   (forall row, In row (trades (snd out)) ->
                (forall r0, In r0 (trades w) -> id r0 <> id row) ->
                tp_order_id row = None) /\
   ((exists v, sql_bind tp = Ok v) ->
    fst out = fst ref /\
    db_locked (snd out) = db_locked (snd ref) /\
    map forget_tp_price (trades (snd out))
      = map forget_tp_price (trades (snd ref)))) /\
  (py_truthy sl = false ->
   let out := open_position sy side quantity tp sl w in
   let ref := open_position sy side quantity tp PyNone w in
   same_session (snd out) (snd ref) /\
   (exists l, gw_calls (snd out) = gw_calls w ++ l /\
              (limit_count l <= target_given tp)%nat) /\
   (forall row, In row (trades (snd out)) ->
                (forall r0, In r0 (trades w) -> id r0 <> id row) ->
                sl_order_id row = None) /\
   ((exists v, sql_bind sl = Ok v) ->
    fst out = fst ref /\
    db_locked (snd out) = db_locked (snd ref) /\
    map forget_sl_price (trades (snd out))
      = map forget_sl_price (trades (snd ref)))) /\
  (forall s w',
     sy = PyStr s ->
     reentry_guard (get_last_closed_trade (normalize s) (trades w)) side = false ->
     (forall tr, get_active_trade (normalize s) (trades w) = Some tr ->
                 py_eq_str side (signal tr) = false) ->
     open_position sy side quantity tp sl w = (Ok tt, w') ->
     exists t0 row c eid lpre ltp lsl,
       trades w' = t0 ++ [row] /\
       List.length t0 = List.length (trades w) /\
       (forall r0, In r0 (trades w) -> id r0 <> id row) /\
       symbol row = normalize s /\ closed row = false /\
       entry_order_id row = Some eid /\
       contract_of s (normalize s) = Ok c /\
       gw_calls w' =
         gw_calls w ++ lpre ++
         CallPlaceOrder c
           (MarketOrder (if py_eq_str side "buy" then "BUY" else "SELL")%string
              quantity)
           (Ok eid) :: ltp ++ lsl /\
       limit_count lpre = 0%nat /\
       exit_leg c side quantity tp (tp_order_id row) ltp /\
       exit_leg c side quantity sl (sl_order_id row) lsl /\
       (py_truthy tp = false -> tp_order_id row = None /\ ltp = []) /\
       (py_truthy sl = false -> sl_order_id row = None /\ lsl = [])).
Proof.
  split; [|split].
  - intros Hfalsy out ref.
    assert (A : agree_upto forget_tp_price (exists v, sql_bind tp = Ok v) out ref).
    { subst out ref. apply open_position_rel.
      - apply agree_upto_refl.
      - intros label c sym. rewrite (place_exit_falsy _ _ _ _ _ tp Hfalsy).
        reflexivity.
      - reflexivity.
      - intros sym eid tpid slid w1. apply log_new_trade_tp_agree. }
    destruct A as [S B]. split; [exact S|]. split; [|split; [|exact B]].
    + subst out. destruct (open_position sy side quantity tp sl w) as [r w'] eqn:E.
      destruct (places_limits_open_position _ _ _ _ _ _ _ _ E) as (l & C & L).
      exists l. split; [exact C|]. unfold target_given in L at 1.
      rewrite Hfalsy in L. exact L.
    + intros row Hin Hnew.
      exact (proj1 (open_position_new_row _ _ _ _ _ _ _ Hin Hnew) Hfalsy).
  - intros Hfalsy out ref.
    assert (A : agree_upto forget_sl_price (exists v, sql_bind sl = Ok v) out ref).
    { subst out ref. apply open_position_rel.
      - apply agree_upto_refl.
      - reflexivity.
      - intros label c sym. rewrite (place_exit_falsy _ _ _ _ _ sl Hfalsy).
        reflexivity.
      - intros sym eid tpid slid w1. apply log_new_trade_sl_agree. }
    destruct A as [S B]. split; [exact S|]. split; [|split; [|exact B]].
    + subst out. destruct (open_position sy side quantity tp sl w) as [r w'] eqn:E.
      destruct (places_limits_open_position _ _ _ _ _ _ _ _ E) as (l & C & L).
      exists l. split; [exact C|]. unfold target_given in L at 2.
      rewrite Hfalsy in L. simpl. lia.
    + intros row Hin Hnew.
      exact (proj2 (open_position_new_row _ _ _ _ _ _ _ Hin Hnew) Hfalsy).
  - intros s w' -> Hg Hother H.
    destruct (open_position_opens w w' s side quantity tp sl Hg Hother H)
      as (_ & _ & t0 & lpre & c & eid & tpid & slid & ltp & lsl & row &
          Hpre & Hc & C & Etp & Esl & T & Hlog).
    destruct Hlog as (Hid & Hsym & Hcl & _ & _ & _ & Heid & Htp & Hsl & _).
    assert (Hlen : List.length t0 = List.length (trades w) /\
                   (forall r0, In r0 (trades w) -> id r0 < next_rowid t0) /\
                   limit_count lpre = 0%nat).
    { destruct (get_active_trade (normalize s) (trades w)) as [tr|].
      - destruct Hpre as (-> & lc & lx & oid & -> & Oc & Px & _).
        split; [apply length_map|]. split.
        + intros r0 Hr0.
          replace (id r0) with (id (close_row (id tr) r0))
            by (unfold close_row; destruct (id r0 =? id tr); reflexivity).
          apply next_rowid_above. apply in_map. exact Hr0.
        + rewrite !limit_count_app.
          rewrite (limit_count_no_placement lc (only_connects_no_placement lc Oc)).
          rewrite (limit_count_no_placement lx Px). reflexivity.
      - destruct Hpre as (-> & Oc). split; [reflexivity|]. split.
        + intros r0. apply next_rowid_above.
        + apply limit_count_no_placement. apply only_connects_no_placement.
          exact Oc. }
    destruct Hlen as (Hlen & Hfresh & Hlim).
    exists t0, row, c, eid, lpre, ltp, lsl. rewrite Htp, Hsl.
    split; [exact T|]. split; [exact Hlen|]. split.
    { intros r0 Hr0. specialize (Hfresh r0 Hr0). lia. }
    repeat (split; [assumption|]). split.
    + intros F. exact (exit_leg_falsy _ _ _ _ _ _ Etp F).
    + intros F. exact (exit_leg_falsy _ _ _ _ _ _ Esl F).
Qed.

End Targets.

(** * Open: the reversal *)

Section Reversal.
Context {G : Type} {GW : Gateway G} {RT : PyRuntime}.

(** The cancel block asks for the order at list position [tp_order_id]. *)
Lemma cancel_tp_order_calls (tr : trade_row) (w : world G) :
  gw_calls (snd (cancel_tp_order tr w)) = gw_calls w ++ cancel_tp_calls (ib w) tr.
Proof.
  unfold cancel_tp_order, cancel_tp_calls.
  destruct (tp_order_id tr) as [n|]; [|symmetry; apply app_nil_r].
  destruct (negb (n =? 0)); [|symmetry; apply app_nil_r].
  unfold try_except, bind, ib_orders, lift, ib_cancelOrder, ret.
  destruct (py_list_index (orders (ib w)) n) as [o|e]; simpl.
  - destruct (cancelOrder (ib w) o) as [[u|e] g]; reflexivity.
  - symmetry. apply app_nil_r.
Qed.

(** X14. The reversal: an Open against an active trade of another side, not
    stopped by the guard, that returns normally, has run the Close path on
    the old trade (connection, the cancel attempt if the old trade has a
    take-profit order id, the closing market order opposite the old side
    for the recorded size on the contract of the symbol, the old row marked
    closed) and then opened the new position; under I1 the new row is then
    the only active row of the symbol, and it has the requested side. *)
Lemma reversal_closes_then_opens (w w' : world G) (s : string)
    (side quantity tp sl : pyval) (tr : trade_row) :
  I1 (trades w) ->
  reentry_guard (get_last_closed_trade (normalize s) (trades w)) side = false ->
  get_active_trade (normalize s) (trades w) = Some tr ->
  py_eq_str side (signal tr) = false ->
  open_position (PyStr s) side quantity tp sl w = (Ok tt, w') ->
  exists row c lc lx oid eid l',
    contract_of s (normalize s) = Ok c /\
    trades w' = map (close_row (id tr)) (trades w) ++ [row] /\
    active_rows (normalize s) (trades w') = [row] /\
    (forall sd, side = PyStr sd -> signal row = sd) /\
    entry_order_id row = Some eid /\
    gw_calls w' =
      gw_calls w ++ lc ++ lx ++
      [closing_call c tr (Ok oid);
       CallPlaceOrder c
         (MarketOrder (if py_eq_str side "buy" then "BUY" else "SELL")%string
                      quantity)
         (Ok eid)] ++ l' /\
    only_connects lc /\
    Forall (fun c => is_placement c = false) lx /\
    (tp_order_id tr = None -> lx = []) /\
    Forall (fun c => is_placement c = true) l'.
Proof.
  intros HI Hg Hact Hside H.
  assert (Hother : forall tr0, get_active_trade (normalize s) (trades w) = Some tr0 ->
                               py_eq_str side (signal tr0) = false).
  { intros tr0 E. rewrite Hact in E. injection E as <-. exact Hside. }
  destruct (open_position_opens w w' s side quantity tp sl Hg Hother H)
    as (_ & _ & t0 & lpre & c & eid & tpid & slid & ltp & lsl & row &
        Hpre & Hc & C & Etp & Esl & T & Hlog).
  rewrite Hact in Hpre. destruct Hpre as (-> & lc & lx & oid & -> & Oc & Px & Nx).
  pose proof Hlog as (_ & Hsym & Hcl & _ & _ & _ & Heid & _).
  exists row, c, lc, lx, oid, eid, (ltp ++ lsl).
  split; [exact Hc|]. split; [exact T|]. split.
  { rewrite T, active_rows_app, (close_active_clears _ _ _ HI Hact). simpl.
    unfold is_active. rewrite Hsym, String.eqb_refl, Hcl. reflexivity. }
  split.
  { intros sd ->. exact (logged_signal _ _ _ _ _ _ _ _ _ _ Hlog). }
  split; [exact Heid|]. split.
  { rewrite C, <- !app_assoc. reflexivity. }
  split; [exact Oc|]. split; [exact Px|]. split; [exact Nx|].
  apply Forall_app. split; eapply exit_leg_placements; eassumption.
Qed.

End Reversal.

(** C3 on the scenario of the specification: Open("EUR/USD", buy, 1000,
    tp, sl) on a fresh session, then Open("EUR/USD", sell, 500).  The old
    trade has take-profit order 2 and stop-loss order 3, and the session
    lists its orders as [1; 2; 3].  The reversal closes the old row and
    opens the sell row, but the order it cancels is [ib.orders()[2]], the
    stop-loss order 3; the take-profit order 2 is still in the session's
    list afterwards. *)
Lemma reversal_cancels_order_at_list_position :
  tp_order_id row_after_open = Some 2 /\
  sl_order_id row_after_open = Some 3 /\
  trades world_after_open = [row_after_open] /\
  orders (ib world_after_open) = [1; 2; 3] /\
  fst (open_position (PyStr "EUR/USD") (PyStr "sell") (PyInt 500) PyNone PyNone
         world_after_open) = Ok tt /\
  gw_calls (handle open_eurusd_sell world_after_open) =
    gw_calls world_after_open ++
    [ CallCancelOrder 3;
      CallPlaceOrder (Forex "EURUSD") (MarketOrder "SELL" (PyFloat 1000%float)) (Ok 4);
      CallPlaceOrder (Forex "EURUSD") (MarketOrder "SELL" (PyInt 500)) (Ok 5) ] /\
  orders (ib (handle open_eurusd_sell world_after_open)) = [1; 2; 4; 5] /\
  map (fun r => (id r, signal r, closed r))
      (trades (handle open_eurusd_sell world_after_open))
    = [(1, "buy", true); (2, "sell", false)].
Proof. vm_compute. repeat split. Qed.

(** Open with [tp = 0] and a stop loss; Open with a take profit and
    [sl = 0.0]; and the first of them again, as an Open that goes
    through. *)
Lemma falsy_target_places_no_exit_order_witness :
  (let out := open_position (PyStr "EUR/USD") (PyStr "buy") (PyInt 1000)
                (PyInt 0) (PyFloat 1.125%float) (fresh_world 10) in
   let ref := open_position (PyStr "EUR/USD") (PyStr "buy") (PyInt 1000)
                PyNone (PyFloat 1.125%float) (fresh_world 10) in
   same_session (snd out) (snd ref) /\
   (exists l, gw_calls (snd out) = gw_calls (fresh_world 10) ++ l /\
              (limit_count l <= target_given (PyFloat 1.125%float))%nat) /\
   (forall row, In row (trades (snd out)) ->
                (forall r0, In r0 (trades (fresh_world 10)) -> id r0 <> id row) ->
                tp_order_id row = None) /\
   ((exists v, sql_bind (PyInt 0) = Ok v) ->
    fst out = fst ref /\
    db_locked (snd out) = db_locked (snd ref) /\
    map forget_tp_price (trades (snd out))
      = map forget_tp_price (trades (snd ref)))) /\
  (let out := open_position (PyStr "EUR/USD") (PyStr "buy") (PyInt 1000)
                (PyFloat 1.25%float) (PyFloat 0%float) (fresh_world 10) in
   let ref := open_position (PyStr "EUR/USD") (PyStr "buy") (PyInt 1000)
                (PyFloat 1.25%float) PyNone (fresh_world 10) in
   same_session (snd out) (snd ref) /\
   (exists l, gw_calls (snd out) = gw_calls (fresh_world 10) ++ l /\
              (limit_count l <= target_given (PyFloat 1.25%float))%nat) /\
   (forall row, In row (trades (snd out)) ->
                (forall r0, In r0 (trades (fresh_world 10)) -> id r0 <> id row) ->
                sl_order_id row = None) /\
   ((exists v, sql_bind (PyFloat 0%float) = Ok v) ->
    fst out = fst ref /\
    db_locked (snd out) = db_locked (snd ref) /\
    map forget_sl_price (trades (snd out))
      = map forget_sl_price (trades (snd ref)))) /\
  (exists t0 row c eid lpre ltp lsl,
     trades (snd (open_position (PyStr "EUR/USD") (PyStr "buy") (PyInt 1000)
                    (PyInt 0) (PyFloat 1.125%float) (fresh_world 10)))
       = t0 ++ [row] /\
     List.length t0 = List.length (trades (fresh_world 10)) /\
     (forall r0, In r0 (trades (fresh_world 10)) -> id r0 <> id row) /\
     symbol row = normalize "EUR/USD" /\ closed row = false /\
     entry_order_id row = Some eid /\
     contract_of "EUR/USD" (normalize "EUR/USD") = Ok c /\
     gw_calls (snd (open_position (PyStr "EUR/USD") (PyStr "buy") (PyInt 1000)
                      (PyInt 0) (PyFloat 1.125%float) (fresh_world 10))) =
       gw_calls (fresh_world 10) ++ lpre ++
       CallPlaceOrder c
         (MarketOrder (if py_eq_str (PyStr "buy") "buy" then "BUY" else "SELL")%string
            (PyInt 1000))
         (Ok eid) :: ltp ++ lsl /\
     limit_count lpre = 0%nat /\
     exit_leg c (PyStr "buy") (PyInt 1000) (PyInt 0) (tp_order_id row) ltp /\
     exit_leg c (PyStr "buy") (PyInt 1000) (PyFloat 1.125%float)
              (sl_order_id row) lsl /\
     (py_truthy (PyInt 0) = false -> tp_order_id row = None /\ ltp = []) /\
     (py_truthy (PyFloat 1.125%float) = false -> sl_order_id row = None /\ lsl = [])).
Proof.
  split; [|split].
  - exact (proj1 (falsy_target_places_no_exit_order (PyStr "EUR/USD") (PyStr "buy")
                    (PyInt 1000) (PyInt 0) (PyFloat 1.125%float) (fresh_world 10))
                 eq_refl).
  - exact (proj1 (proj2 (falsy_target_places_no_exit_order (PyStr "EUR/USD")
                           (PyStr "buy") (PyInt 1000) (PyFloat 1.25%float)
                           (PyFloat 0%float) (fresh_world 10)))
                 eq_refl).
  - refine (proj2 (proj2 (falsy_target_places_no_exit_order (PyStr "EUR/USD")
                            (PyStr "buy") (PyInt 1000) (PyInt 0)
                            (PyFloat 1.125%float) (fresh_world 10)))
                  "EUR/USD" _ eq_refl eq_refl _ eq_refl).
    intros tr H. discriminate H.
Defined.

(** * The history the journal keeps *)

Section History.

Lemma set_closed_of_closed (r : trade_row) : closed r = true -> set_closed r = r.
Proof. destruct r. simpl. intros ->. reflexivity. Qed.

Lemma fill_row_of_closed (order_id : Z) (fill_price : float) (r : trade_row) :
  closed r = true -> fill_row order_id fill_price r = r.
Proof.
  intros H. unfold fill_row. rewrite H, andb_false_r. simpl.
  rewrite H, andb_false_r. reflexivity.
Qed.

Lemma close_row_of_closed (trade_id : Z) (r : trade_row) :
  closed r = true -> close_row trade_id r = r.
Proof.
  intros H. unfold close_row. destruct (id r =? trade_id); [|reflexivity].
  apply set_closed_of_closed. exact H.
Qed.

Lemma fill_row_same_trade (order_id : Z) (fill_price : float) (r : trade_row) :
  same_trade r (fill_row order_id fill_price r).
Proof.
  unfold fill_row, same_trade.
  destruct (opt_eqb (entry_order_id r) order_id && negb (closed r)); simpl;
    destruct (opt_eqb (tp_order_id r) order_id && negb (closed r)); simpl;
    repeat split.
Qed.

Lemma close_row_same_trade (trade_id : Z) (r : trade_row) :
  same_trade r (close_row trade_id r).
Proof.
  unfold close_row, same_trade. destruct (id r =? trade_id); simpl; repeat split.
Qed.

Lemma fill_row_closed_mono (order_id : Z) (fill_price : float) (r : trade_row) :
  closed r = true -> closed (fill_row order_id fill_price r) = true.
Proof. intros H. rewrite fill_row_of_closed; assumption. Qed.

Lemma fill_row_tp_hit (order_id : Z) (fill_price : float) (r : trade_row) :
  (tp_hit r = true -> closed r = true) ->
  tp_hit (fill_row order_id fill_price r) = true ->
  closed (fill_row order_id fill_price r) = true.
Proof.
  unfold fill_row.
  destruct (opt_eqb (entry_order_id r) order_id && negb (closed r)); simpl;
    destruct (opt_eqb (tp_order_id r) order_id && negb (closed r)); simpl; auto.
Qed.

Lemma close_row_tp_hit (trade_id : Z) (r : trade_row) :
  (tp_hit r = true -> closed r = true) ->
  tp_hit (close_row trade_id r) = true -> closed (close_row trade_id r) = true.
Proof. unfold close_row. destruct (id r =? trade_id); simpl; auto. Qed.

(** Selecting rows keeps their ids pairwise distinct. *)
Lemma ids_unique_filter (keep : trade_row -> bool) (t : list trade_row) :
  ids_unique t -> ids_unique (filter keep t).
Proof.
  unfold ids_unique. induction t as [|r t IH]; simpl; intros Hu.
  - constructor.
  - inversion Hu as [|x xs Hfresh Hrest]; subst.
    destruct (keep r); simpl; [|exact (IH Hrest)].
    constructor; [|exact (IH Hrest)].
    intros Hin. apply Hfresh. apply in_map_iff in Hin.
    destruct Hin as (r' & Hid & Hr'). apply filter_In in Hr'.
    apply in_map_iff. exists r'. split; [exact Hid | exact (proj1 Hr')].
Qed.

(** A journal of that shape satisfies I1. *)
Lemma journal_wf_I1 (t : list trade_row) : journal_wf t -> I1 t.
Proof.
  intros (Hu & Hn & _) sym.
  pose proof (ids_unique_filter (is_active sym) t Hu) as Hd.
  unfold ids_unique in Hd.
  assert (Hin : forall r, In r (active_rows sym t) ->
                          In r t /\ symbol r = sym /\ closed r = false).
  { intros r. apply active_rows_In. }
  unfold active_rows in *.
  destruct (filter (is_active sym) t) as [|a [|b l]]; simpl; try lia.
  exfalso.
  destruct (Hin a (or_introl eq_refl)) as (Ha & Hsa & Hca).
  destruct (Hin b (or_intror (or_introl eq_refl))) as (Hb & Hsb & Hcb).
  assert (id b <= id a) by (apply Hn; congruence).
  assert (id a <= id b) by (apply Hn; congruence).
  simpl in Hd. apply NoDup_cons_iff in Hd. destruct Hd as [Hd _].
  apply Hd. left. lia.
Qed.

(** A row-by-row rewrite that keeps id and symbol and never reopens a row
    keeps the shape. *)
Lemma journal_wf_map (f : trade_row -> trade_row) (t : list trade_row) :
  (forall r, id (f r) = id r) ->
  (forall r, symbol (f r) = symbol r) ->
  (forall r, closed r = true -> closed (f r) = true) ->
  (forall r, (tp_hit r = true -> closed r = true) ->
             tp_hit (f r) = true -> closed (f r) = true) ->
  journal_wf t -> journal_wf (map f t).
Proof.
  intros Hid Hsym Hcl Htp (Hu & Hn & Ht). split; [|split].
  - unfold ids_unique in *. rewrite map_map.
    rewrite (map_ext (fun r => id (f r)) id Hid). exact Hu.
  - intros r r' Hr Hr' Hc Hs.
    apply in_map_iff in Hr. destruct Hr as (r0 & <- & Hr0).
    apply in_map_iff in Hr'. destruct Hr' as (r0' & <- & Hr0').
    rewrite !Hid. rewrite !Hsym in Hs. apply Hn; auto.
    destruct (closed r0) eqn:E; [|reflexivity].
    rewrite (Hcl r0 E) in Hc. discriminate.
  - intros r Hr. apply in_map_iff in Hr. destruct Hr as (r0 & <- & Hr0).
    apply Htp. apply Ht. exact Hr0.
Qed.

Lemma journal_wf_fill_rows (order_id : Z) (fill_price : float)
    (t : list trade_row) :
  journal_wf t -> journal_wf (map (fill_row order_id fill_price) t).
Proof.
  apply journal_wf_map.
  - intros r. apply (fill_row_same_trade order_id fill_price r).
  - intros r. apply (fill_row_same_trade order_id fill_price r).
  - apply fill_row_closed_mono.
  - apply fill_row_tp_hit.
Qed.

Lemma journal_wf_close_rows (trade_id : Z) (t : list trade_row) :
  journal_wf t -> journal_wf (map (close_row trade_id) t).
Proof.
  apply journal_wf_map.
  - intros r. apply (close_row_same_trade trade_id r).
  - intros r. apply (close_row_same_trade trade_id r).
  - intros r H. rewrite close_row_of_closed; assumption.
  - apply close_row_tp_hit.
Qed.

(** A new row, numbered by AUTOINCREMENT, for a symbol without active row
    keeps the shape. *)
Lemma journal_wf_insert (t : list trade_row) (row : trade_row) :
  journal_wf t ->
  active_rows (symbol row) t = [] ->
  id row = next_rowid t -> closed row = false -> tp_hit row = false ->
  journal_wf (t ++ [row]).
Proof.
  intros (Hu & Hn & Ht) Hnone Hid Hcl Htp. split; [|split].
  - unfold ids_unique in *. rewrite map_app. simpl.
    apply NoDup_app; [exact Hu | repeat constructor; intros [] |].
    intros x Hx [<-|[]]. apply in_map_iff in Hx. destruct Hx as (r & Hr & Hin).
    pose proof (next_rowid_above t r Hin). lia.
  - intros r r' Hr Hr' Hc Hs.
    apply in_app_or in Hr. apply in_app_or in Hr'.
    destruct Hr as [Hr | [<- | []]]; destruct Hr' as [Hr' | [<- | []]].
    + apply Hn; auto.
    + exfalso.
      assert (Hin : In r (active_rows (symbol row) t)).
      { apply active_rows_In. auto. }
      rewrite Hnone in Hin. exact Hin.
    + pose proof (next_rowid_above t r' Hr'). lia.
    + lia.
  - intros r Hr. apply in_app_or in Hr. destruct Hr as [Hr | [<- | []]].
    + apply Ht. exact Hr.
    + rewrite Htp. discriminate.
Qed.

End History.

(** * Shape and history along every run *)

Section HistoryRuns.
Context {G : Type} {GW : Gateway G} {RT : PyRuntime}.

Lemma same_trade_refl (r : trade_row) : same_trade r r.
Proof. unfold same_trade. repeat split. Qed.

Lemma same_trade_trans (r1 r2 r3 : trade_row) :
  same_trade r1 r2 -> same_trade r2 r3 -> same_trade r1 r3.
Proof. unfold same_trade. intuition congruence. Qed.

Lemma rows_kept_refl (t : list trade_row) : rows_kept t t.
Proof.
  intros i r H. exists r. split; [exact H|]. split; [apply same_trade_refl | auto].
Qed.

Lemma rows_kept_trans (t1 t2 t3 : list trade_row) :
  rows_kept t1 t2 -> rows_kept t2 t3 -> rows_kept t1 t3.
Proof.
  intros H12 H23 i r H.
  destruct (H12 i r H) as (r2 & H2 & S2 & C2).
  destruct (H23 i r2 H2) as (r3 & H3 & S3 & C3).
  exists r3. split; [exact H3|]. split; [eapply same_trade_trans; eauto|].
  intros Hc. specialize (C2 Hc). subst r2. auto.
Qed.

Lemma rows_kept_map (f : trade_row -> trade_row) (t : list trade_row) :
  (forall r, same_trade r (f r)) ->
  (forall r, closed r = true -> f r = r) ->
  rows_kept t (map f t).
Proof.
  intros Hs Hc i r H. exists (f r). rewrite nth_error_map, H. simpl. auto.
Qed.

Lemma rows_kept_app (t l : list trade_row) : rows_kept t (t ++ l).
Proof.
  intros i r H. exists r. split.
  - rewrite nth_error_app1; [exact H|]. apply nth_error_Some. congruence.
  - split; [apply same_trade_refl | auto].
Qed.

Lemma rows_kept_fill_rows (order_id : Z) (fill_price : float)
    (t : list trade_row) :
  rows_kept t (map (fill_row order_id fill_price) t).
Proof.
  apply rows_kept_map; [apply fill_row_same_trade | apply fill_row_of_closed].
Qed.

Lemma rows_kept_close_rows (trade_id : Z) (t : list trade_row) :
  rows_kept t (map (close_row trade_id) t).
Proof.
  apply rows_kept_map; [apply close_row_same_trade | apply close_row_of_closed].
Qed.

Lemma journal_wf_logged (sym : string) (side size : pyval) (eid : Z)
    (tp : pyval) (tpid : option Z) (sl : pyval) (slid : option Z)
    (t : list trade_row) (row : trade_row) :
  journal_wf t -> active_rows sym t = [] ->
  logged sym side size eid tp tpid sl slid t row -> journal_wf (t ++ [row]).
Proof.
  intros Hw Hnone (Hid & Hsym & Hcl & Htp & _).
  apply journal_wf_insert; auto. rewrite Hsym. exact Hnone.
Qed.

Lemma wf_and_kept_refl (t : list trade_row) : wf_and_kept t t.
Proof. split; [auto | apply rows_kept_refl]. Qed.

Lemma wf_and_kept_close (trade_id : Z) (t : list trade_row) :
  wf_and_kept t (map (close_row trade_id) t).
Proof.
  split; [apply journal_wf_close_rows | apply rows_kept_close_rows].
Qed.

Lemma close_position_wf_and_kept (symbol : pyval) (w : world G) :
  wf_and_kept (trades w) (trades (snd (close_position symbol w))).
Proof.
  destruct (close_position symbol w) as [r w'] eqn:E. simpl.
  apply close_position_spec in E. destruct E as (_ & l & _ & E).
  destruct E as [(e & _ & ->) | (_ & s & _ & E)]; [apply wf_and_kept_refl|].
  destruct (get_active_trade (normalize s) (trades w)) as [tr|].
  - destruct E as (_ & -> & _). apply wf_and_kept_close.
  - destruct E as [-> _]. apply wf_and_kept_refl.
Qed.

Lemma open_position_wf_and_kept (symbol side quantity tp sl : pyval) (w : world G) :
  wf_and_kept (trades w)
    (trades (snd (open_position symbol side quantity tp sl w))).
Proof.
  destruct (open_position symbol side quantity tp sl w) as [r w'] eqn:E.
  simpl. apply open_position_spec in E. destruct E as (l & _ & E).
  destruct E as [(e & _ & -> & _) | (s & _ & E)]; [apply wf_and_kept_refl|].
  destruct (reentry_guard _ side).
  { destruct E as (_ & -> & _). apply wf_and_kept_refl. }
  destruct (get_active_trade (normalize s) (trades w)) as [tr|] eqn:Hact.
  - destruct (py_eq_str side (signal tr)).
    { destruct E as (_ & -> & _). apply wf_and_kept_refl. }
    destruct E as [(e & _ & [-> | ->]) | (_ & eid & tpid & slid & row & -> & E & _)].
    + apply wf_and_kept_refl.
    + apply wf_and_kept_close.
    + split.
      * intros Hw. eapply journal_wf_logged; [| |exact E].
        -- apply journal_wf_close_rows. exact Hw.
        -- apply close_active_clears; [apply journal_wf_I1; exact Hw | exact Hact].
      * eapply rows_kept_trans; [apply rows_kept_close_rows|].
        apply rows_kept_app.
  - destruct E as [(e & _ & ->) | (_ & eid & tpid & slid & row & -> & E & _)];
      [apply wf_and_kept_refl|].
    split.
    + intros Hw. eapply journal_wf_logged; [exact Hw | |exact E].
      apply get_active_trade_None. exact Hact.
    + apply rows_kept_app.
Qed.

Lemma handle_wf_and_kept (e : event) (w : world G) :
  wf_and_kept (trades w) (trades (handle e w)).
Proof.
  destruct e as [req | symbol side quantity tp sl | symbol | oid p | ]; simpl.
  - destruct (webhook_journal req w) as [-> | [(sy & si & q & tp & sl & ->) | (sy & ->)]].
    + apply wf_and_kept_refl.
    + apply open_position_wf_and_kept.
    + apply close_position_wf_and_kept.
  - apply open_position_wf_and_kept.
  - apply close_position_wf_and_kept.
  - unfold onExecDetails. rewrite update_trade_on_fill_trades.
    destruct (db_locked w); [apply wf_and_kept_refl|].
    split; [apply journal_wf_fill_rows | apply rows_kept_fill_rows].
  - apply wf_and_kept_refl.
Qed.

Lemma journal_wf_init_db : journal_wf init_db.
Proof.
  split; [constructor|]. split; [intros r r' [] | intros r []].
Qed.

Lemma run_journal_wf (es : list event) (w : world G) :
  journal_wf (trades w) -> Forall (fun w' => journal_wf (trades w')) (run es w).
Proof.
  revert w. induction es as [|e es IH]; intros w Hw; simpl; constructor.
  - apply handle_wf_and_kept. exact Hw.
  - apply IH. apply handle_wf_and_kept. exact Hw.
Qed.

(** X1. Along every serial run from a journal where ids are pairwise
    distinct, every active row is the newest row of its symbol and [tp_hit]
    is set on closed rows only (the empty journal is one), every state
    reached has a journal of that shape again. *)
Theorem journal_shape_along_every_run (es : list event) (w : world G) :
  ids_unique (trades w) ->
  active_is_newest (trades w) ->
  tp_hit_only_closed (trades w) ->
  Forall (fun w' =>
            ids_unique (trades w') /\ active_is_newest (trades w') /\
            tp_hit_only_closed (trades w'))
         (run es w).
Proof.
  intros Hu Hn Ht. apply (run_journal_wf es w). repeat split; assumption.
Qed.

(** X2. No event deletes, moves or rewrites history: after any serial run,
    every row that was in the journal is still at its position with the
    same id, symbol, side, size, order ids and targets, and a row that was
    closed is exactly as it was. *)
Theorem journal_history_is_kept (es : list event) (w : world G) :
  Forall (fun w' => rows_kept (trades w) (trades w')) (run es w).
Proof.
  assert (K : forall es (w0 w1 : world G),
            rows_kept (trades w0) (trades w1) ->
            Forall (fun w' => rows_kept (trades w0) (trades w')) (run es w1)).
  { clear es w. intros es. induction es as [|e es IH]; intros w0 w1 H; simpl;
      constructor.
    - eapply rows_kept_trans; [exact H | apply handle_wf_and_kept].
    - apply IH. eapply rows_kept_trans; [exact H | apply handle_wf_and_kept]. }
  apply K. apply rows_kept_refl.
Qed.

End HistoryRuns.

Lemma fill_row_twice (order_id : Z) (fill_price : float) (r : trade_row) :
  fill_row order_id fill_price (fill_row order_id fill_price r)
  = fill_row order_id fill_price r.
Proof.
  destruct (closed r) eqn:Hc.
  { rewrite (fill_row_of_closed _ _ r Hc). apply fill_row_of_closed. exact Hc. }
  destruct r as [i sy sg sz eo tpo ep xp tpp th cl slp slo]. simpl in Hc. subst cl.
  unfold fill_row. simpl. rewrite !andb_true_r.
  destruct (opt_eqb eo order_id) eqn:He; simpl; rewrite ?andb_true_r;
    destruct (opt_eqb tpo order_id) eqn:Ht; simpl;
    rewrite ?He, ?Ht, ?andb_false_r; simpl; rewrite ?Ht; reflexivity.
Qed.

Section FillTwice.
Context {G : Type} {RT : PyRuntime}.

(** X3. Delivering the same fill twice is the same as delivering it once:
    the second delivery gets the answer of the first and leaves the state
    the first left, row by row (two refused deliveries on a locked
    database included). *)
Theorem update_trade_on_fill_twice (order_id : Z) (fill_price : float)
    (w : world G) (t : list trade_row) :
  update_trade_on_fill order_id fill_price
    (snd (update_trade_on_fill order_id fill_price w))
  = update_trade_on_fill order_id fill_price w /\
  map (fill_row order_id fill_price) (map (fill_row order_id fill_price) t)
  = map (fill_row order_id fill_price) t.
Proof.
  assert (K : forall t0,
            map (fill_row order_id fill_price) (map (fill_row order_id fill_price) t0)
            = map (fill_row order_id fill_price) t0).
  { intros t0. rewrite map_map. apply map_ext. intros r. apply fill_row_twice. }
  split; [|apply K].
  unfold update_trade_on_fill, db_write. cbv zeta.
  destruct (db_locked w) eqn:L; simpl; rewrite ?L; [reflexivity|].
  rewrite !fill_updates_map, K. reflexivity.
Qed.

End FillTwice.

Lemma journal_shape_along_every_run_witness :
  Forall (fun w' =>
            ids_unique (trades w') /\ active_is_newest (trades w') /\
            tp_hit_only_closed (trades w'))
    (run [ open_eurusd_buy; open_eurusd_sell;
           EvOpen (PyStr "eur/usd") (PyStr "buy") (PyInt 700) (PyFloat 1.25%float) PyNone;
           EvFill 8 1.25%float; open_eurusd_buy;
           EvWebhook open_aapl_without_quantity;
           EvClose (PyStr "EUR/USD"); EvCollect;
           EvWebhook (JsonBody (PyDict [("action", PyStr "close");
                                        ("symbol", PyStr "EUR/USD")])) ]
         (fresh_world 20)).
Proof.
  exact (journal_shape_along_every_run _ (fresh_world 20)
           (NoDup_nil Z)
           (fun r r' (H : In r []) => match H with end)
           (fun r (H : In r []) => match H with end)).
Defined.

(** * From the active trade to the last closed trade *)

Section ActiveToClosed.

Lemma ids_unique_inj (t : list trade_row) (a b : trade_row) :
  ids_unique t -> In a t -> In b t -> id a = id b -> a = b.
Proof.
  unfold ids_unique. induction t as [|x t IH]; simpl; intros Hu Ha Hb E; [contradiction|].
  apply NoDup_cons_iff in Hu. destruct Hu as [Hn Hu].
  destruct Ha as [<-|Ha]; destruct Hb as [<-|Hb].
  - reflexivity.
  - exfalso. apply Hn. rewrite E. apply in_map. exact Hb.
  - exfalso. apply Hn. rewrite <- E. apply in_map. exact Ha.
  - apply IH; assumption.
Qed.

(** The row of greatest id is the one selected. *)
Lemma order_by_id_greatest (l : list trade_row) (x : trade_row) :
  In x l -> (forall r, In r l -> r = x \/ id r < id x) ->
  order_by_id_desc_limit_1 l = Some x.
Proof.
  induction l as [|a l IH]; simpl; intros Hin H; [contradiction|].
  assert (Ha : a = x \/ id a < id x) by (apply H; auto).
  destruct (order_by_id_desc_limit_1 l) as [r'|] eqn:E.
  - assert (Hr' : r' = x \/ id r' < id x).
    { apply H. right. apply order_by_id_In. exact E. }
    destruct Hin as [-> | Hin].
    + destruct Hr' as [-> | Hlt].
      * rewrite Z.ltb_irrefl. reflexivity.
      * assert (F : (id x <? id r') = false) by (apply Z.ltb_ge; lia).
        rewrite F. reflexivity.
    + assert (Ex : Some r' = Some x).
      { apply IH; [exact Hin | intros r Hr; apply H; auto]. }
      injection Ex as ->.
      destruct Ha as [-> | Hlt].
      * rewrite Z.ltb_irrefl. reflexivity.
      * apply Z.ltb_lt in Hlt. rewrite Hlt. reflexivity.
  - apply order_by_id_None in E. subst l.
    destruct Hin as [-> | []]. reflexivity.
Qed.

(** In a journal of the written shape, an UPDATE that closes the active
    row of a symbol (and keeps every row the same trade, reopening none)
    leaves the symbol without active row and makes that row its last
    closed trade. *)
Lemma closing_the_active_row (f : trade_row -> trade_row) (t : list trade_row)
    (sym : string) (tr : trade_row) :
  journal_wf t ->
  get_active_trade sym t = Some tr ->
  (forall r, same_trade r (f r)) ->
  (forall r, closed r = true -> closed (f r) = true) ->
  closed (f tr) = true ->
  get_active_trade sym (map f t) = None /\
  get_last_closed_trade sym (map f t) = Some (f tr).
Proof.
  intros Hw Hact Hsame Hmono Hcl.
  pose proof (journal_wf_I1 t Hw) as HI.
  destruct Hw as (Hu & Hn & _).
  destruct (get_active_trade_Some _ _ _ Hact) as (Hin & Hsym & Hopen).
  split.
  - unfold get_active_trade.
    replace (filter (fun r => String.eqb (symbol r) sym && negb (closed r)) (map f t))
      with (@nil trade_row); [reflexivity|].
    symmetry. apply filter_nil_iff. intros x Hx.
    apply in_map_iff in Hx. destruct Hx as (r & <- & Hr).
    destruct (Hsame r) as (_ & Hs & _). rewrite Hs.
    destruct (String.eqb (symbol r) sym) eqn:Es; [|reflexivity]. simpl.
    apply String.eqb_eq in Es.
    destruct (closed r) eqn:Ec.
    + rewrite (Hmono r Ec). reflexivity.
    + rewrite (I1_active_unique sym t tr r HI Hact Hr Es Ec), Hcl. reflexivity.
  - unfold get_last_closed_trade. apply order_by_id_greatest.
    + apply filter_In. split; [apply in_map; exact Hin|].
      destruct (Hsame tr) as (_ & Hs & _).
      rewrite Hs, Hsym, String.eqb_refl, Hcl. reflexivity.
    + intros x Hx. apply filter_In in Hx. destruct Hx as [Hx Hp].
      apply in_map_iff in Hx. destruct Hx as (r & <- & Hr).
      apply andb_true_iff in Hp. destruct Hp as [Es _].
      apply String.eqb_eq in Es.
      destruct (Hsame r) as (Hid & Hs & _). destruct (Hsame tr) as (Hidt & _).
      rewrite Hs in Es.
      assert (Hle : id r <= id tr) by (apply Hn; auto; congruence).
      destruct (Z.eq_dec (id r) (id tr)) as [E | E].
      * left. rewrite (ids_unique_inj t r tr Hu Hr Hin E). reflexivity.
      * right. rewrite Hid, Hidt. lia.
Qed.

End ActiveToClosed.

Section AfterClosing.
Context {G : Type} {GW : Gateway G} {RT : PyRuntime}.


(** X5. In a journal of the written shape, a Close that returns normally
    for a symbol with an active trade has marked exactly that row closed;
    the symbol then has no active trade, the closed trade is its last
    closed trade, and since its [tp_hit] is not set no side is blocked for
    re-entry.  The session saw connection and cancel calls and then, last,
    the closing market order, on the contract the closing signal's
    spelling selects (which could be built). *)
Theorem close_frees_the_symbol (w w' : world G) (s : string) (tr : trade_row) :
  journal_wf (trades w) ->
  get_active_trade (normalize s) (trades w) = Some tr ->
  close_position (PyStr s) w = (Ok tt, w') ->
  trades w' = map (close_row (id tr)) (trades w) /\
  get_active_trade (normalize s) (trades w') = None /\
  get_last_closed_trade (normalize s) (trades w') = Some (set_closed tr) /\
  (forall side,
     reentry_guard (get_last_closed_trade (normalize s) (trades w')) side = false) /\
  exists c l oid,
    contract_of s (normalize s) = Ok c /\
    gw_calls w' = gw_calls w ++ l ++ [closing_call c tr (Ok oid)] /\
    Forall (fun c => is_placement c = false) l.
Proof.
  intros Hw Hact H.
  destruct (get_active_trade_Some _ _ _ Hact) as (Hin & Hsym & Hopen).
  apply close_position_spec in H. destruct H as (_ & l & C & H).
  destruct H as [(e & [=] & _) | (_ & s' & [= <-] & H)].
  rewrite Hact in H.
  destruct H as (_ & T & c & lc & lx & oid & Hc & -> & Oc & Px & _).
  assert (Hrow : close_row (id tr) tr = set_closed tr).
  { unfold close_row. rewrite Z.eqb_refl. reflexivity. }
  destruct (closing_the_active_row (close_row (id tr)) (trades w) (normalize s) tr
              Hw Hact (close_row_same_trade (id tr))
              (fun r Hr => eq_trans (f_equal closed (close_row_of_closed (id tr) r Hr)) Hr))
    as [Hnone Hlast].
  { rewrite Hrow. reflexivity. }
  rewrite <- T in Hnone, Hlast. rewrite Hrow in Hlast.
  split; [exact T|]. split; [exact Hnone|]. split; [exact Hlast|]. split.
  - intros side. rewrite Hlast. simpl.
    destruct Hw as (_ & _ & Ht).
    destruct (tp_hit tr) eqn:E; [|reflexivity].
    rewrite (Ht tr Hin E) in Hopen. discriminate.
  - exists c, (lc ++ lx), oid. split; [exact Hc|].
    split; [rewrite C, <- !app_assoc; reflexivity|].
    apply Forall_app. split; [|exact Px].
    apply only_connects_no_placement. exact Oc.
Qed.

(** X6. A Close for a symbol without active trade changes nothing: the
    journal and the UI log are as before, no order is placed or cancelled,
    and the call returns normally unless the connection itself raises. *)
Theorem close_with_nothing_active_is_noop (w : world G) (s : string) :
  get_active_trade (normalize s) (trades w) = None ->
  let out := close_position (PyStr s) w in
  trades (snd out) = trades w /\
  trade_log_ui (snd out) = trade_log_ui w /\
  fst out = fst (connect_ibkr w) /\
  exists l, gw_calls (snd out) = gw_calls w ++ l /\ only_connects l.
Proof.
  intros Hnone out. subst out. unfold close_position, bind.
  destruct (connect_ibkr w) as [[[]|e] w1] eqn:E;
    apply connect_ibkr_frame in E; destruct E as (U & l & (T & L & C) & O).
  - simpl. unfold db_read. simpl. rewrite T, Hnone. simpl. eauto 8.
  - simpl. eauto 8.
Qed.

End AfterClosing.

Lemma journal_wf_world_after_open : journal_wf (trades world_after_open).
Proof.
  exact (proj1 (handle_wf_and_kept open_eurusd_buy (fresh_world 10))
               journal_wf_init_db).
Qed.


Lemma close_frees_the_symbol_witness :
  trades (snd (close_position (PyStr "EUR/USD") world_after_open))
    = map (close_row (id row_after_open)) (trades world_after_open) /\
  get_active_trade (normalize "EUR/USD")
    (trades (snd (close_position (PyStr "EUR/USD") world_after_open))) = None /\
  get_last_closed_trade (normalize "EUR/USD")
    (trades (snd (close_position (PyStr "EUR/USD") world_after_open)))
    = Some (set_closed row_after_open) /\
  (forall side,
     reentry_guard
       (get_last_closed_trade (normalize "EUR/USD")
          (trades (snd (close_position (PyStr "EUR/USD") world_after_open))))
       side = false) /\
  exists c l oid,
    contract_of "EUR/USD" (normalize "EUR/USD") = Ok c /\
    gw_calls (snd (close_position (PyStr "EUR/USD") world_after_open))
      = gw_calls world_after_open ++ l ++ [closing_call c row_after_open (Ok oid)] /\
    Forall (fun c => is_placement c = false) l.
Proof.
  exact (close_frees_the_symbol world_after_open
           (snd (close_position (PyStr "EUR/USD") world_after_open))
           "EUR/USD" row_after_open
           journal_wf_world_after_open eq_refl eq_refl).
Defined.

Lemma close_with_nothing_active_is_noop_witness :
  let out := close_position (PyStr "EUR/USD") (fresh_world 10) in
  trades (snd out) = trades (fresh_world 10) /\
  trade_log_ui (snd out) = trade_log_ui (fresh_world 10) /\
  fst out = fst (connect_ibkr (fresh_world 10)) /\
  exists l, gw_calls (snd out) = gw_calls (fresh_world 10) ++ l /\ only_connects l.
Proof.
  exact (close_with_nothing_active_is_noop (fresh_world 10) "EUR/USD" eq_refl).
Defined.


(** * Open on a symbol without active trade *)

Section OpenOnFlat.
Context {G : Type} {GW : Gateway G} {RT : PyRuntime}.

(** The row a successful insert appends is the one [get_active_trade]
    finds next, and the last closed trade of every symbol is as before. *)
Lemma logged_row_is_active (sym : string) (side size : pyval) (eid : Z)
    (tp : pyval) (tpid : option Z) (sl : pyval) (slid : option Z)
    (t : list trade_row) (row : trade_row) :
  logged sym side size eid tp tpid sl slid t row ->
  get_active_trade sym (t ++ [row]) = Some row /\
  (forall sym', get_last_closed_trade sym' (t ++ [row])
                = get_last_closed_trade sym' t).
Proof.
  intros (Hid & Hsym & Hcl & _).
  split.
  - unfold get_active_trade. rewrite filter_app. simpl.
    rewrite Hsym, String.eqb_refl, Hcl. simpl.
    apply order_by_id_last. intros r Hr. apply filter_In in Hr.
    destruct Hr as [Hr _]. rewrite Hid. apply next_rowid_above. exact Hr.
  - intros sym'. unfold get_last_closed_trade. rewrite filter_app. simpl.
    rewrite Hcl, andb_false_r. rewrite app_nil_r. reflexivity.
Qed.

(** X7. An Open on a symbol without active trade, not stopped by the
    guard, that returns normally has built the contract of the symbol,
    placed the entry market order in the requested direction for the
    requested quantity and then, for each truthy target, one limit order
    in the opposite direction at [float(target)], and has appended one
    row: numbered above all others, open, without prices, with the
    normalized symbol and exactly the order ids the session answered (none
    for a falsy target).  That row is then the symbol's active trade. *)
Theorem open_on_flat_symbol_records_the_orders (w w' : world G) (s : string)
    (side quantity tp sl : pyval) :
  reentry_guard (get_last_closed_trade (normalize s) (trades w)) side = false ->
  get_active_trade (normalize s) (trades w) = None ->
  open_position (PyStr s) side quantity tp sl w = (Ok tt, w') ->
  exists row c eid lc ltp lsl,
    contract_of s (normalize s) = Ok c /\
    trades w' = trades w ++ [row] /\
    id row = next_rowid (trades w) /\ symbol row = normalize s /\
    closed row = false /\ tp_hit row = false /\
    entry_price row = None /\ exit_price row = None /\
    entry_order_id row = Some eid /\
    gw_calls w' =
      gw_calls w ++ lc ++
      CallPlaceOrder c
        (MarketOrder (if py_eq_str side "buy" then "BUY" else "SELL")%string quantity)
        (Ok eid) :: ltp ++ lsl /\
    only_connects lc /\
    exit_leg c side quantity tp (tp_order_id row) ltp /\
    exit_leg c side quantity sl (sl_order_id row) lsl /\
    get_active_trade (normalize s) (trades w') = Some row.
Proof.
  intros Hg Hnone H.
  assert (Hother : forall tr, get_active_trade (normalize s) (trades w) = Some tr ->
                              py_eq_str side (signal tr) = false).
  { intros tr E. rewrite Hnone in E. discriminate E. }
  destruct (open_position_opens w w' s side quantity tp sl Hg Hother H)
    as (_ & _ & t0 & lpre & c & eid & tpid & slid & ltp & lsl & row &
        Hpre & Hc & C & Etp & Esl & T & Hlog).
  rewrite Hnone in Hpre. destruct Hpre as [-> Oc].
  destruct (logged_row_is_active _ _ _ _ _ _ _ _ _ _ Hlog) as [Hact _].
  destruct Hlog as (Hid & Hsym & Hcl & Hhit & Hep & Hxp & Heid & Htp & Hsl & _).
  exists row, c, eid, lpre, ltp, lsl. rewrite Htp, Hsl, T.
  repeat (split; [assumption || reflexivity|]). exact Hact.
Qed.

End OpenOnFlat.

Lemma open_on_flat_symbol_records_the_orders_witness :
  exists row c eid lc ltp lsl,
    contract_of "EUR/USD" (normalize "EUR/USD") = Ok c /\
    trades world_after_open = trades (fresh_world 10) ++ [row] /\
    id row = next_rowid (trades (fresh_world 10)) /\
    symbol row = normalize "EUR/USD" /\
    closed row = false /\ tp_hit row = false /\
    entry_price row = None /\ exit_price row = None /\
    entry_order_id row = Some eid /\
    gw_calls world_after_open =
      gw_calls (fresh_world 10) ++ lc ++
      CallPlaceOrder c
        (MarketOrder (if py_eq_str (PyStr "buy") "buy" then "BUY" else "SELL")%string
                     (PyInt 1000))
        (Ok eid) :: ltp ++ lsl /\
    only_connects lc /\
    exit_leg c (PyStr "buy") (PyInt 1000) (PyFloat 1.25%float) (tp_order_id row) ltp /\
    exit_leg c (PyStr "buy") (PyInt 1000) (PyFloat 1.125%float) (sl_order_id row) lsl /\
    get_active_trade (normalize "EUR/USD") (trades world_after_open) = Some row.
Proof.
  exact (open_on_flat_symbol_records_the_orders (fresh_world 10) world_after_open
           "EUR/USD" (PyStr "buy") (PyInt 1000) (PyFloat 1.25%float)
           (PyFloat 1.125%float) eq_refl eq_refl eq_refl).
Defined.

(** * Requests with missing fields *)

Section MissingFields.
Context {G : Type} {GW : Gateway G} {RT : PyRuntime}.

(** [signal] and [position_size] are NOT NULL: no row without them. *)
Lemma logged_needs_side_and_size (sym : string) (side size : pyval)
    (eid : Z) (tp : pyval) (tpid : option Z) (sl : pyval) (slid : option Z)
    (t : list trade_row) (row : trade_row) :
  side = PyNone \/ size = PyNone ->
  ~ logged sym side size eid tp tpid sl slid t row.
Proof.
  intros Hmiss (_ & _ & _ & _ & _ & _ & _ & _ & _ & (vs & Es & As) &
                (vz & Ez & Az) & _ & _ & Hnn).
  destruct Hmiss as [-> | ->].
  - simpl in Es. injection Es as <-. discriminate As.
  - simpl in Ez. injection Ez as <-. simpl in Az. congruence.
Qed.

Lemma reentry_guard_None (lc : option trade_row) : reentry_guard lc PyNone = false.
Proof. destruct lc as [r|]; simpl; [apply andb_false_r | reflexivity]. Qed.


(** The route on a JSON body, case by case. *)
Lemma webhook_cases (data : pyval) (w : world G) :
  (exists r, webhook (JsonBody data) w = (Ok r, w) /\
             (r = RespSuccess \/ r = RespError AttributeError)) \/
  (exists symbol side quantity tp sl,
     webhook (JsonBody data) w =
       (Ok (answer_of (fst (open_position symbol side quantity tp sl w))),
        snd (open_position symbol side quantity tp sl w))) \/
  (exists symbol,
     webhook (JsonBody data) w =
       (Ok (answer_of (fst (close_position symbol w))),
        snd (close_position symbol w))).
Proof.
  unfold webhook, try_except, bind, lift, ret. simpl get_json. cbv iota beta.
  destruct (py_get data "action") as [action|e] eqn:Ea; simpl.
  2:{ left. destruct data; simpl in Ea; try discriminate;
        injection Ea as <-; eauto. }
  destruct (py_eq_str action "open").
  - destruct data; simpl in Ea; try discriminate. simpl.
    right. left.
    exists (assoc_get kvs "symbol"), (assoc_get kvs "side"),
           (assoc_get kvs "quantity"), (assoc_get kvs "tp"), (assoc_get kvs "sl").
    destruct (open_position _ _ _ _ _ w) as [[[]|e] w1]; reflexivity.
  - destruct (py_eq_str action "close"); [|simpl; eauto].
    destruct data; simpl in Ea; try discriminate. simpl.
    right. right. exists (assoc_get kvs "symbol").
    destruct (close_position _ w) as [[[]|e] w1]; reflexivity.
Qed.

Lemma open_position_length (symbol side quantity tp sl : pyval) (w : world G) :
  List.length (trades (snd (open_position symbol side quantity tp sl w)))
    = List.length (trades w) \/
  (fst (open_position symbol side quantity tp sl w) = Ok tt /\
   List.length (trades (snd (open_position symbol side quantity tp sl w)))
     = S (List.length (trades w))).
Proof.
  destruct (open_position symbol side quantity tp sl w) as [r w'] eqn:E. simpl.
  apply open_position_spec in E. destruct E as (l & _ & E).
  destruct E as [(e & _ & -> & _) | (s & _ & E)]; [auto|].
  destruct (reentry_guard _ side); [destruct E as (_ & -> & _); auto|].
  destruct (get_active_trade (normalize s) (trades w)) as [tr|].
  - destruct (py_eq_str side (signal tr)); [destruct E as (_ & -> & _); auto|].
    destruct E as [(e & _ & [-> | ->]) | (-> & eid & tpid & slid & row & -> & _)].
    + auto.
    + left. apply length_map.
    + right. split; [reflexivity|]. rewrite length_app, length_map. simpl. lia.
  - destruct E as [(e & _ & ->) | (-> & eid & tpid & slid & row & -> & _)]; [auto|].
    right. split; [reflexivity|]. rewrite length_app. simpl. lia.
Qed.

Lemma close_position_length (symbol : pyval) (w : world G) :
  List.length (trades (snd (close_position symbol w))) = List.length (trades w).
Proof.
  destruct (close_position symbol w) as [r w'] eqn:E. simpl.
  apply close_position_spec in E. destruct E as (_ & l & _ & E).
  destruct E as [(e & _ & ->) | (_ & s & _ & E)]; [reflexivity|].
  destruct (get_active_trade (normalize s) (trades w)) as [tr|].
  - destruct E as (_ & -> & _). apply length_map.
  - destruct E as [-> _]. reflexivity.
Qed.

(** X9. The view raises for one kind of request only, a body that is not
    JSON: [get_json] raises BadRequest before anything is done, the state
    is as before (Flask answers 400).  Every JSON body gets an answer from
    the view.  A request adds at most one row to the journal, and it adds
    one only when it is answered with success; after an error answer the
    journal has as many rows as before. *)
Theorem webhook_adds_a_row_only_with_success (req : request) (w : world G) :
  (req = OtherBody /\ webhook req w = (Raise BadRequest, w)) \/
  (exists data resp,
     req = JsonBody data /\
     fst (webhook req w) = Ok resp /\
     (List.length (trades (snd (webhook req w))) = List.length (trades w) \/
      (resp = RespSuccess /\
       List.length (trades (snd (webhook req w))) = S (List.length (trades w))))).
Proof.
  destruct req as [data|]; [right | left; split; reflexivity].
  exists data.
  destruct (webhook_cases data w)
    as [(r & -> & _) | [(sy & si & q & tp & sl & ->) | (sy & ->)]]; simpl.
  - eauto.
  - eexists. split; [reflexivity|]. split; [reflexivity|].
    destruct (open_position_length sy si q tp sl w) as [H | [Hok H]]; [auto|].
    right. rewrite Hok. auto.
  - eexists. split; [reflexivity|]. split; [reflexivity|].
    left. apply close_position_length.
Qed.

(** X10. A request to open or close whose symbol is missing or is not a
    string is answered with the error outcome (an AttributeError, unless
    the connection attempt itself raised); nothing but that connection
    attempt has happened: no order, no journal change. *)
Theorem request_without_symbol_is_answered_with_error
    (kvs : list (string * pyval)) (w : world G) :
  py_eq_str (assoc_get kvs "action") "open" = true \/
  py_eq_str (assoc_get kvs "action") "close" = true ->
  (forall s, assoc_get kvs "symbol" <> PyStr s) ->
  webhook (JsonBody (PyDict kvs)) w =
    (Ok (RespError match fst (connect_ibkr w) with
                   | Ok _ => AttributeError
                   | Raise e => e
                   end),
     snd (connect_ibkr w)).
Proof.
  intros Hact Hsym.
  assert (Hs : py_as_str (assoc_get kvs "symbol") = Raise AttributeError).
  { destruct (assoc_get kvs "symbol") eqn:E; try reflexivity.
    exfalso. exact (Hsym s eq_refl). }
  unfold webhook, try_except, bind, lift, ret. simpl.
  destruct (py_eq_str (assoc_get kvs "action") "open") eqn:Eo.
  - unfold open_position, bind, lift.
    destruct (connect_ibkr w) as [[[]|e] w1]; simpl; [rewrite Hs|]; reflexivity.
  - destruct Hact as [[=] | ->].
    unfold close_position, bind, lift.
    destruct (connect_ibkr w) as [[[]|e] w1]; simpl; [rewrite Hs|]; reflexivity.
Qed.

End MissingFields.


Lemma request_without_symbol_is_answered_with_error_witness :
  webhook (JsonBody (PyDict [("action", PyStr "open"); ("side", PyStr "buy");
                             ("quantity", PyInt 1000)])) (fresh_world 10) =
    (Ok (RespError match fst (connect_ibkr (fresh_world 10)) with
                   | Ok _ => AttributeError
                   | Raise e => e
                   end),
     snd (connect_ibkr (fresh_world 10))).
Proof.
  apply (request_without_symbol_is_answered_with_error
           [("action", PyStr "open"); ("side", PyStr "buy"); ("quantity", PyInt 1000)]
           (fresh_world 10)).
  - left. reflexivity.
  - intros s H. discriminate H.
Defined.

(** * Insert and lookup *)

Section InsertLookup.
Context {G : Type} {RT : PyRuntime}.

(** X11. After a successful [log_new_trade] for a symbol,
    [get_active_trade] of that symbol returns the row just written: open,
    without prices, with the order ids passed and, for a string side, that
    side.  The active trade of every other symbol and the last closed
    trade of every symbol are what they were. *)
Theorem logged_trade_is_found_active (sym : string) (side size : pyval) (eid : Z)
    (tp : pyval) (tpid : option Z) (sl : pyval) (slid : option Z)
    (w w' : world G) :
  log_new_trade sym side size eid tp tpid sl slid w = (Ok tt, w') ->
  exists row,
    trades w' = trades w ++ [row] /\
    get_active_trade sym (trades w') = Some row /\
    (forall sym', sym' <> sym ->
       get_active_trade sym' (trades w') = get_active_trade sym' (trades w)) /\
    (forall sym', get_last_closed_trade sym' (trades w')
                  = get_last_closed_trade sym' (trades w)) /\
    entry_order_id row = Some eid /\ tp_order_id row = tpid /\
    sl_order_id row = slid /\
    closed row = false /\ tp_hit row = false /\
    entry_price row = None /\ exit_price row = None /\
    (forall sd, side = PyStr sd -> signal row = sd).
Proof.
  intros H. apply log_new_trade_inv in H.
  destruct H as (_ & _ & _ & _ & _ & row & T & Hlog).
  destruct (logged_row_is_active _ _ _ _ _ _ _ _ _ _ Hlog) as [Hact Hlast].
  pose proof Hlog as (Hid & Hsym & Hcl & Hhit & Hep & Hxp & Heid & Htp & Hsl & _).
  exists row. rewrite T. split; [reflexivity|]. split; [exact Hact|]. split.
  { intros sym' Hne. unfold get_active_trade. rewrite filter_app. simpl.
    assert (E : String.eqb (symbol row) sym' = false).
    { apply String.eqb_neq. congruence. }
    rewrite E. simpl. rewrite app_nil_r. reflexivity. }
  split; [exact Hlast|].
  repeat (split; [assumption|]).
  intros sd ->. exact (logged_signal _ _ _ _ _ _ _ _ _ _ Hlog).
Qed.

End InsertLookup.

Lemma logged_trade_is_found_active_witness :
  exists row,
    trades (snd (log_new_trade "EURUSD" (PyStr "buy") (PyInt 1000) 1
                   (PyFloat 1.25%float) (Some 2) (PyFloat 1.125%float) (Some 3)
                   (fresh_world 10)))
      = trades (fresh_world 10) ++ [row] /\
    get_active_trade "EURUSD"
      (trades (snd (log_new_trade "EURUSD" (PyStr "buy") (PyInt 1000) 1
                      (PyFloat 1.25%float) (Some 2) (PyFloat 1.125%float) (Some 3)
                      (fresh_world 10)))) = Some row /\
    (forall sym', sym' <> "EURUSD" ->
       get_active_trade sym'
         (trades (snd (log_new_trade "EURUSD" (PyStr "buy") (PyInt 1000) 1
                         (PyFloat 1.25%float) (Some 2) (PyFloat 1.125%float) (Some 3)
                         (fresh_world 10))))
       = get_active_trade sym' (trades (fresh_world 10))) /\
    (forall sym',
       get_last_closed_trade sym'
         (trades (snd (log_new_trade "EURUSD" (PyStr "buy") (PyInt 1000) 1
                         (PyFloat 1.25%float) (Some 2) (PyFloat 1.125%float) (Some 3)
                         (fresh_world 10))))
       = get_last_closed_trade sym' (trades (fresh_world 10))) /\
    entry_order_id row = Some 1 /\ tp_order_id row = Some 2 /\
    sl_order_id row = Some 3 /\
    closed row = false /\ tp_hit row = false /\
    entry_price row = None /\ exit_price row = None /\
    (forall sd, PyStr "buy" = PyStr sd -> signal row = sd).
Proof.
  exact (logged_trade_is_found_active "EURUSD" (PyStr "buy") (PyInt 1000) 1
           (PyFloat 1.25%float) (Some 2) (PyFloat 1.125%float) (Some 3)
           (fresh_world 10)
           (snd (log_new_trade "EURUSD" (PyStr "buy") (PyInt 1000) 1
                   (PyFloat 1.25%float) (Some 2) (PyFloat 1.125%float) (Some 3)
                   (fresh_world 10)))
           eq_refl).
Defined.

(** The reversal of the scenario: Open sell against the active buy. *)
Lemma reversal_closes_then_opens_witness :
  exists row c lc lx oid eid l',
    contract_of "EUR/USD" (normalize "EUR/USD") = Ok c /\
    trades (handle open_eurusd_sell world_after_open)
      = map (close_row (id row_after_open)) (trades world_after_open) ++ [row] /\
    active_rows (normalize "EUR/USD") (trades (handle open_eurusd_sell world_after_open))
      = [row] /\
    (forall sd, PyStr "sell" = PyStr sd -> signal row = sd) /\
    entry_order_id row = Some eid /\
    gw_calls (handle open_eurusd_sell world_after_open) =
      gw_calls world_after_open ++ lc ++ lx ++
      [closing_call c row_after_open (Ok oid);
       CallPlaceOrder c
         (MarketOrder (if py_eq_str (PyStr "sell") "buy" then "BUY" else "SELL")%string
                      (PyInt 500))
         (Ok eid)] ++ l' /\
    only_connects lc /\
    Forall (fun c => is_placement c = false) lx /\
    (tp_order_id row_after_open = None -> lx = []) /\
    Forall (fun c => is_placement c = true) l'.
Proof.
  exact (reversal_closes_then_opens world_after_open
           (handle open_eurusd_sell world_after_open) "EUR/USD"
           (PyStr "sell") (PyInt 500) PyNone PyNone row_after_open
           (journal_wf_I1 _ journal_wf_world_after_open)
           eq_refl eq_refl eq_refl eq_refl).
Defined.

(** * Intents on a session that accepts *)

Section Progress.
Context {G : Type} {GW : Gateway G} {RT : PyRuntime}.
Hypothesis accepts : session_accepts.

Lemma bind_Ok {A B : Type} (m : M G A) (f : A -> M G B) (w w1 : world G) (a : A) :
  m w = (Ok a, w1) -> bind m f w = f a w1.
Proof. intros H. unfold bind. rewrite H. reflexivity. Qed.

Lemma connect_ibkr_accepted (w : world G) :
  exists w1, connect_ibkr w = (Ok tt, w1) /\ trades w1 = trades w /\
             db_locked w1 = db_locked w.
Proof.
  unfold connect_ibkr. destruct (isConnected (ib w)); [eauto|].
  pose proof (proj1 accepts (ib w)) as H.
  destruct (connect (ib w)) as [r g]. simpl in H. subst r. eauto.
Qed.

Lemma ib_placeOrder_accepted (c : contract) (o : order) (w : world G) :
  exists n w1, ib_placeOrder c o w = (Ok n, w1) /\ trades w1 = trades w /\
               db_locked w1 = db_locked w.
Proof.
  unfold ib_placeOrder. destruct (proj2 accepts (ib w) c o) as [n H].
  destruct (placeOrder (ib w) c o) as [r g]. simpl in H. subst r. eauto.
Qed.

Lemma cancel_tp_order_returns (tr : trade_row) (w : world G) :
  exists w1, cancel_tp_order tr w = (Ok tt, w1) /\ trades w1 = trades w /\
             db_locked w1 = db_locked w.
Proof.
  destruct (cancel_tp_order tr w) as [r w1] eqn:E.
  apply cancel_tp_order_frame in E. destruct E as (-> & _ & l & (T & L & _) & _).
  eauto.
Qed.

Lemma bind_lift_Ok {A B : Type} (a : A) (f : A -> M G B) (w : world G) :
  bind (lift (Ok a)) f w = f a w.
Proof. reflexivity. Qed.

Lemma bind_db_read {A B : Type} (q : list trade_row -> A) (f : A -> M G B)
    (w : world G) :
  bind (db_read q) f w = f (q (trades w)) w.
Proof. reflexivity. Qed.

Lemma bind_ui_append {B : Type} (sym action : string) (f : unit -> M G B)
    (w : world G) :
  bind (ui_append sym action) f w = f tt (snd (ui_append sym action w)).
Proof. reflexivity. Qed.

Lemma close_trade_in_db_unlocked (trade_id : Z) (w : world G) :
  db_locked w = false ->
  exists w1, close_trade_in_db trade_id w = (Ok tt, w1) /\ db_locked w1 = false.
Proof.
  intros L. unfold close_trade_in_db, db_write. rewrite L.
  eexists. split; [reflexivity|]. reflexivity.
Qed.

Lemma close_position_accepted (s : string) (c : contract) (w : world G) :
  db_locked w = false ->
  contract_of s (normalize s) = Ok c ->
  exists w', close_position (PyStr s) w = (Ok tt, w') /\ db_locked w' = false.
Proof.
  intros L Hc. unfold close_position.
  destruct (connect_ibkr_accepted w) as (w1 & E1 & T1 & L1).
  rewrite (bind_Ok _ _ _ _ _ E1). simpl py_as_str.
  rewrite bind_lift_Ok, bind_db_read.
  destruct (get_active_trade (normalize s) (trades w1)) as [tr|];
    [|eexists; split; [reflexivity | congruence]].
  destruct (cancel_tp_order_returns tr w1) as (w2 & E2 & T2 & L2).
  rewrite (bind_Ok _ _ _ _ _ E2). rewrite Hc, bind_lift_Ok.
  destruct (ib_placeOrder_accepted c
              (MarketOrder (opposite_action (String.eqb (signal tr) "buy"))
                 (py_of_sql (position_size tr))) w2) as (n & w3 & E3 & T3 & L3).
  rewrite (bind_Ok _ _ _ _ _ E3).
  destruct (close_trade_in_db_unlocked (id tr) w3) as (w4 & E4 & L4);
    [congruence|].
  rewrite (bind_Ok _ _ _ _ _ E4). eexists. split; [reflexivity|]. exact L4.
Qed.

Lemma place_exit_accepted (label : string) (c : contract) (sym : string)
    (side quantity target : pyval) (w : world G) :
  convertible target ->
  exists oid w1,
    place_exit label c sym side quantity target w = (Ok oid, w1) /\
    trades w1 = trades w /\ db_locked w1 = db_locked w.
Proof.
  intros Hc. unfold place_exit. destruct (py_truthy target) eqn:Et;
    [|do 2 eexists; repeat split; reflexivity].
  destruct (Hc Et) as [x Hx]. rewrite Hx, bind_lift_Ok.
  destruct (ib_placeOrder_accepted c
              (LimitOrder (opposite_action (py_eq_str side "buy")) quantity x) w)
    as (n & w1 & E1 & T1 & L1).
  rewrite (bind_Ok _ _ _ _ _ E1), bind_ui_append.
  do 2 eexists. split; [reflexivity | split; [exact T1 | exact L1]].
Qed.

Lemma real_affinity_not_null (v : sqlval) : v <> SNull -> real_affinity v <> SNull.
Proof.
  destruct v as [| n | x | s]; simpl; intros H; try congruence.
  destruct (sql_real_of_text s); discriminate.
Qed.

Lemma log_new_trade_accepts (sym sd : string) (size : pyval) (eid : Z)
    (tp : pyval) (tpid : option Z) (sl : pyval) (slid : option Z)
    (w : world G) :
  db_locked w = false ->
  (exists v, sql_bind size = Ok v /\ v <> SNull) ->
  storable tp -> storable sl ->
  exists w', log_new_trade sym (PyStr sd) size eid tp tpid sl slid w = (Ok tt, w').
Proof.
  intros L (vz & Ez & Hz) [vt Et] [vl El].
  unfold log_new_trade, bind, lift. simpl sql_bind. cbv iota beta.
  rewrite Ez, Et, El. unfold db_insert, new_row. rewrite L. simpl text_affinity.
  pose proof (real_affinity_not_null vz Hz) as Hr.
  destruct (real_affinity vz); try congruence; eauto.
Qed.

Lemma place_new_entry_accepted (s sym sd : string) (c : contract)
    (quantity tp sl : pyval) (w : world G) :
  db_locked w = false ->
  contract_of s sym = Ok c ->
  (exists v, sql_bind quantity = Ok v /\ v <> SNull) ->
  storable tp -> storable sl -> convertible tp -> convertible sl ->
  exists w', place_new_entry s sym (PyStr sd) quantity tp sl w = (Ok tt, w').
Proof.
  intros L Hc Hq Stp Ssl Ctp Csl. unfold place_new_entry.
  rewrite Hc, bind_lift_Ok. cbv zeta.
  destruct (ib_placeOrder_accepted c
              (MarketOrder (if py_eq_str (PyStr sd) "buy" then "BUY" else "SELL")%string
                 quantity) w) as (eid & w1 & E1 & T1 & L1).
  rewrite (bind_Ok _ _ _ _ _ E1), bind_ui_append.
  destruct (place_exit_accepted "Take Profit" c sym (PyStr sd)
              quantity tp
              (snd (ui_append sym
                      ("Market Order (" ++
                       (if py_eq_str (PyStr sd) "buy" then "BUY" else "SELL") ++ ")")%string
                      w1)) Ctp) as (tpid & w2 & E2 & T2 & L2).
  rewrite (bind_Ok _ _ _ _ _ E2).
  destruct (place_exit_accepted "Stop Loss" c sym (PyStr sd)
              quantity sl w2 Csl) as (slid & w3 & E3 & T3 & L3).
  rewrite (bind_Ok _ _ _ _ _ E3).
  apply log_new_trade_accepts; try assumption.
  rewrite L3, L2. simpl. congruence.
Qed.


End Progress.

Lemma eager_session_accepts : session_accepts (G := eager_gw).
Proof.
  split.
  - intros g. reflexivity.
  - intros g c o. exists (eager_next_id g). reflexivity.
Qed.


(** * One symbol at a time *)

Section Isolation.
Context {G : Type} {GW : Gateway G} {RT : PyRuntime}.

Lemma close_rows_other_symbol (t : list trade_row) (tr r : trade_row)
    (i : nat) :
  ids_unique t -> In tr t -> symbol r <> symbol tr ->
  nth_error t i = Some r ->
  nth_error (map (close_row (id tr)) t) i = Some r.
Proof.
  intros Hu Htr Hne Hi. rewrite nth_error_map, Hi. simpl.
  f_equal. unfold close_row.
  destruct (id r =? id tr) eqn:E; [|reflexivity].
  apply Z.eqb_eq in E. exfalso. apply Hne.
  rewrite (ids_unique_inj t r tr Hu (nth_error_In _ _ Hi) Htr E). reflexivity.
Qed.

Lemma nth_error_app_old {A : Type} (t l : list A) (i : nat) (x : A) :
  nth_error t i = Some x -> nth_error (t ++ l) i = Some x.
Proof.
  intros H. rewrite nth_error_app1; [exact H|]. apply nth_error_Some. congruence.
Qed.

(** X13. With pairwise distinct row ids, an Open or a Close for one symbol
    leaves every row of every other symbol exactly as it was, at its
    place: however the intent ends, it can only close the active row of
    its own symbol and append a row for it. *)
Theorem intents_leave_other_symbols_alone (w : world G) (s : string)
    (side quantity tp sl : pyval) (i : nat) (r : trade_row) :
  ids_unique (trades w) ->
  nth_error (trades w) i = Some r ->
  symbol r <> normalize s ->
  nth_error (trades (snd (open_position (PyStr s) side quantity tp sl w))) i
    = Some r /\
  nth_error (trades (snd (close_position (PyStr s) w))) i = Some r.
Proof.
  intros Hu Hi Hne.
  assert (Hclose : forall tr,
            get_active_trade (normalize s) (trades w) = Some tr ->
            nth_error (map (close_row (id tr)) (trades w)) i = Some r).
  { intros tr Hact. destruct (get_active_trade_Some _ _ _ Hact) as (Hin & Hs & _).
    apply close_rows_other_symbol; auto. congruence. }
  split.
  - destruct (open_position (PyStr s) side quantity tp sl w) as [res w'] eqn:E.
    simpl. apply open_position_spec in E. destruct E as (l & _ & E).
    destruct E as [(e & _ & -> & _) | (s' & [= <-] & E)]; [exact Hi|].
    destruct (reentry_guard _ side); [destruct E as (_ & -> & _); exact Hi|].
    destruct (get_active_trade (normalize s) (trades w)) as [tr|] eqn:Hact.
    + destruct (py_eq_str side (signal tr)); [destruct E as (_ & -> & _); exact Hi|].
      destruct E as [(e & _ & [-> | ->]) | (_ & eid & tpid & slid & row & -> & _)];
        auto.
      apply nth_error_app_old. auto.
    + destruct E as [(e & _ & ->) | (_ & eid & tpid & slid & row & -> & _)]; auto.
      apply nth_error_app_old. exact Hi.
  - destruct (close_position (PyStr s) w) as [res w'] eqn:E. simpl.
    apply close_position_spec in E. destruct E as (_ & l & _ & E).
    destruct E as [(e & _ & ->) | (_ & s' & [= <-] & E)]; [exact Hi|].
    destruct (get_active_trade (normalize s) (trades w)) as [tr|] eqn:Hact.
    + destruct E as (_ & -> & _). auto.
    + destruct E as [-> _]. exact Hi.
Qed.

End Isolation.

(** The EUR/USD trade of [world_after_open] stays as it is when AAPL is
    opened and when AAPL is closed. *)
Lemma intents_leave_other_symbols_alone_witness :
  nth_error
    (trades (snd (open_position (PyStr "AAPL") (PyStr "buy") (PyInt 10)
                    PyNone PyNone world_after_open))) 0
    = Some row_after_open /\
  nth_error (trades (snd (close_position (PyStr "AAPL") world_after_open))) 0
    = Some row_after_open.
Proof.
  apply (intents_leave_other_symbols_alone world_after_open "AAPL"
           (PyStr "buy") (PyInt 10) PyNone PyNone 0 row_after_open).
  - exact (proj1 journal_wf_world_after_open).
  - reflexivity.
  - discriminate.
Defined.
